(** * RMV Stainless Steel Fabrication backend: workflow core

    A shallow embedding of the appointment, project and payment
    controllers and of the Mongoose models they run on, followed by the
    properties of the workflow that the specification states about them.

    Conventions of the embedding.
    - A MongoDB collection is a finite map from [_id] to document
      ([gmap N]); the [User] collection is a list, because the order in
      which [User.find] returns staff matters to auto-assignment.
    - A JavaScript [Number] holding an amount or a percentage is a [Z]:
      a whole number that is a double.  Counters, versions and instants
      stay far below 2^53, where adding and subtracting them is exact.
      The stage amounts and the sum of the percentages are computed as
      the doubles of the source compute them ([Number]): products,
      sums and differences rounded to 53 bits, the quotient by 100
      rounded before [Math.round] sees it.  A field that may be
      [undefined] is an [option].
    - A [String] is the sequence of the bytes of its UTF-8 encoding.
    - A [Date] is its [getTime()] value in milliseconds; local-time
      accessors use a fixed offset from UTC (no daylight saving).  Every
      [new Date()] of one request reads the same instant.
    - A controller is a computation over the database that either
      answers or throws; what it saved before throwing stays saved.
    - The e-mail and activity-log services swallow their own failures
      and do not touch the three collections; they are left out. *)

From stdpp Require Import gmap strings list fin_maps pretty.
From stdpp Require Import sorting relations.
From Stdlib Require Import ZArith Lia.

Open Scope Z_scope.

Abbreviation ObjectId := N.

(* ===================================================================== *)
(** ** JavaScript runtime *)
(* ===================================================================== *)

(** The whole number nearest to the exact quotient [num / den], for
    [den > 0], a half going up: what [Math.round(num / den)] would be
    without the rounding of the quotient.  The statements compare the
    amounts of the code with it. *)
Definition Math_round_div (num den : Z) : Z := (2 * num + den) / (2 * den).

(** Arithmetic of IEEE 754 doubles on whole numbers: what [*], [+], [-]
    and [/] of the source compute.  Overflow to [Infinity] would need a
    magnitude of 2^1024 and is left out. *)
Module Number.

(** The integer nearest to [n / d] for [d > 0], a tie going to the even
    one: the rounding of every operation. *)
Definition nearestEven (n d : Z) : Z :=
  let q := n / d in
  let r := n mod d in
  if 2 * r <? d then q
  else if d <? 2 * r then q + 1
  else if Z.even q then q else q + 1.

(** The double nearest to the whole number [z]: [z] itself below 2^53,
    above that a multiple of the power of two that leaves 53 bits. *)
Definition roundZ (z : Z) : Z :=
  if Z.abs z <? 2 ^ 53 then z
  else let e := Z.log2 (Z.abs z) - 52 in nearestEven z (2 ^ e) * 2 ^ e.

Definition add (x y : Z) : Z := roundZ (x + y).
Definition sub (x y : Z) : Z := roundZ (x - y).
Definition mul (x y : Z) : Z := roundZ (x * y).

(** A double that need not be whole: [mant * 2 ^ expo]. *)
Record Dyadic := { mant : Z; expo : Z }.

(** [x * 2 ^ k] for [k >= 0], [x] otherwise. *)
Definition shl (x k : Z) : Z := x * 2 ^ Z.max 0 k.

(** The [E] with [2 ^ E <= n / d < 2 ^ (E + 1)], for [n, d > 0]. *)
Definition floorLog2 (n d : Z) : Z :=
  let k := Z.log2 n - Z.log2 d in
  if shl d k <=? shl n (- k) then k else k - 1.

(** [x / y] for whole [x] and [y > 0]: the quotient rounded to 53 bits
    (below 2^-1022 to the grid of the subnormals). *)
Definition div (x y : Z) : Dyadic :=
  if x =? 0 then {| mant := 0; expo := 0 |}
  else
    let e := Z.max (floorLog2 (Z.abs x) y - 52) (-1074) in
    {| mant := nearestEven (shl x (- e)) (shl y e); expo := e |}.

(** [Math.round]: the nearest whole number, a tie going up. *)
Definition Math_round (x : Dyadic) : Z :=
  if 0 <=? expo x then mant x * 2 ^ expo x
  else (2 * mant x + 2 ^ (- expo x)) / 2 ^ (1 - expo x).

(** [Number.isSafeInteger] *)
Definition safe (z : Z) : Prop := Z.abs z < 2 ^ 53.

End Number.

(** Truthiness of a possibly-undefined Number: [undefined] and [0] are
    falsy. *)
Definition truthy (x : option Z) : bool :=
  match x with
  | Some n => negb (n =? 0)
  | None => false
  end.

(** [String(n).padStart(width, '0')] *)
Definition padStart0 (width : nat) (s : string) : string :=
  String.concat "" (replicate (width - String.length s) "0"%string) +:+ s.

Definition msPerHour : Z := 3600000.
Definition msPerDay : Z := 86400000.

(** The reading of the server clock during one request. *)
Record Clock := {
  now : Z;
  utcOffset : Z;
}.

(** Proleptic Gregorian calendar, days counted from 1970-01-01. *)
Definition civil_from_days (z0 : Z) : Z * Z * Z :=
  let z := z0 + 719468 in
  let era := z / 146097 in
  let doe := z - era * 146097 in
  let yoe := (doe - doe / 1460 + doe / 36524 - doe / 146096) / 365 in
  let doy := doe - (365 * yoe + yoe / 4 - yoe / 100) in
  let mp := (5 * doy + 2) / 153 in
  let d := doy - (153 * mp + 2) / 5 + 1 in
  let m := if mp <? 10 then mp + 3 else mp - 9 in
  (yoe + era * 400 + (if m <=? 2 then 1 else 0), m, d).

Definition days_from_civil (y0 m d : Z) : Z :=
  let y := if m <=? 2 then y0 - 1 else y0 in
  let era := y / 400 in
  let yoe := y - era * 400 in
  let doy := (153 * (if 2 <? m then m - 3 else m + 9) + 2) / 5 + d - 1 in
  let doe := yoe * 365 + yoe / 4 - yoe / 100 + doy in
  era * 146097 + doe - 719468.

Definition getHours (clk : Clock) (t : Z) : Z :=
  ((t + utcOffset clk) mod msPerDay) / msPerHour.

Definition getFullYear (clk : Clock) (t : Z) : Z :=
  (civil_from_days ((t + utcOffset clk) / msPerDay)).1.1.

(** [getMonth()] is zero-based. *)
Definition getMonth (clk : Clock) (t : Z) : Z :=
  (civil_from_days ((t + utcOffset clk) / msPerDay)).1.2 - 1.

(** [new Date(year, monthIndex, day)]: local midnight. *)
Definition Date_of (clk : Clock) (year monthIndex day : Z) : Z :=
  days_from_civil year (monthIndex + 1) day * msPerDay - utcOffset clk.

(** [d.setHours(d.getHours() + delta)] under a fixed offset. *)
Definition addHours (t delta : Z) : Z := t + delta * msPerHour.

(** [d.setMinutes(d.getMinutes() + delta)] under a fixed offset. *)
Definition addMinutes (t delta : Z) : Z := t + delta * 60000.

(* ===================================================================== *)
(** ** config/index.js *)
(* ===================================================================== *)

Module config.
Module business.
Definition appointmentHours_start : Z := 9.
Definition appointmentHours_end : Z := 18.
Definition slotDurationMinutes : Z := 60.
Definition cancellationCutoffHours : Z := 24.
Definition paymentStages_initial : Z := 30.
Definition paymentStages_midpoint : Z := 40.
Definition paymentStages_final : Z := 30.
End business.
End config.

Inductive Role :=
  | CUSTOMER
  | APPOINTMENT_AGENT
  | SALES_STAFF
  | ENGINEER
  | CASHIER
  | FABRICATION_STAFF
  | ADMIN.

Global Instance Role_eq_dec : EqDecision Role.
Proof. solve_decision. Defined.

(* ===================================================================== *)
(** ** middleware/error.js and the errors Mongoose raises *)
(* ===================================================================== *)

Inductive Error :=
  | AppError (message : string) (statusCode : Z)
  | TypeError (what : string)
  | ValidationError (path : string)
  | DuplicateKeyError (index : string).

(** What [res.status(..).json(..)] sends on success: the status code and
    the message (the [data] of the answer is the stored document). *)
Record Response := {
res_status : Z;
res_message : string;
}.

(** One element of a [statusHistory] array. *)
Record HistoryEntry (S : Type) := {
h_status : S;
h_changedBy : ObjectId;
h_changedAt : Z;
h_notes : string;
}.
Arguments Build_HistoryEntry {S}.
Arguments h_status {S}.
Arguments h_changedBy {S}.
Arguments h_changedAt {S}.
Arguments h_notes {S}.

(* ===================================================================== *)
(** ** models/User.js (the fields the workflow reads) *)
(* ===================================================================== *)

Module User.
Record t := {
  _id : ObjectId;
  role : Role;
  isActive : bool;
  firstName : string;
  lastName : string;
  isDeleted : bool;
}.
End User.

(* ===================================================================== *)
(** ** models/Appointment.js *)
(* ===================================================================== *)

Module AppointmentType.
Inductive t := office_consultation | ocular_visit.
End AppointmentType.

Module AppointmentStatus.
Inductive t :=
  | pending
  | scheduled
  | confirmed
  | in_progress
  | completed
  | cancelled
  | no_show.
End AppointmentStatus.

Global Instance AppointmentType_eq_dec : EqDecision AppointmentType.t.
Proof. solve_decision. Defined.

Global Instance AppointmentStatus_eq_dec : EqDecision AppointmentStatus.t.
Proof. solve_decision. Defined.

Module Appointment.
Record Cancellation := {
  cancelledBy : ObjectId;
  cancelledAt : Z;
  reason : string;
  isWithinPolicy : bool;
}.

Record t := {
  customer : ObjectId;
  assignedSalesStaff : option ObjectId;
  scheduledDate : Z;
  scheduledEndDate : option Z;
  appointmentType : AppointmentType.t;
  siteAddress : option string;
  status : AppointmentStatus.t;
  cancellation : option Cancellation;
  customerNotes : option string;
  salesNotes : option string;
  convertedToProject : option ObjectId;
  statusHistory : list (HistoryEntry AppointmentStatus.t);
  isDeleted : bool;
}.

Definition set_status (s : AppointmentStatus.t) (a : t) : t :=
  {| customer := customer a;
     assignedSalesStaff := assignedSalesStaff a;
     scheduledDate := scheduledDate a;
     scheduledEndDate := scheduledEndDate a;
     appointmentType := appointmentType a;
     siteAddress := siteAddress a;
     status := s;
     cancellation := cancellation a;
     customerNotes := customerNotes a;
     salesNotes := salesNotes a;
     convertedToProject := convertedToProject a;
     statusHistory := statusHistory a;
     isDeleted := isDeleted a |}.

Definition set_cancellation (c : Cancellation) (a : t) : t :=
  {| customer := customer a;
     assignedSalesStaff := assignedSalesStaff a;
     scheduledDate := scheduledDate a;
     scheduledEndDate := scheduledEndDate a;
     appointmentType := appointmentType a;
     siteAddress := siteAddress a;
     status := status a;
     cancellation := Some c;
     customerNotes := customerNotes a;
     salesNotes := salesNotes a;
     convertedToProject := convertedToProject a;
     statusHistory := statusHistory a;
     isDeleted := isDeleted a |}.

Definition set_scheduledEndDate (e : Z) (a : t) : t :=
  {| customer := customer a;
     assignedSalesStaff := assignedSalesStaff a;
     scheduledDate := scheduledDate a;
     scheduledEndDate := Some e;
     appointmentType := appointmentType a;
     siteAddress := siteAddress a;
     status := status a;
     cancellation := cancellation a;
     customerNotes := customerNotes a;
     salesNotes := salesNotes a;
     convertedToProject := convertedToProject a;
     statusHistory := statusHistory a;
     isDeleted := isDeleted a |}.

Definition set_salesNotes (x : option string) (a : t) : t :=
  {| customer := customer a;
     assignedSalesStaff := assignedSalesStaff a;
     scheduledDate := scheduledDate a;
     scheduledEndDate := scheduledEndDate a;
     appointmentType := appointmentType a;
     siteAddress := siteAddress a;
     status := status a;
     cancellation := cancellation a;
     customerNotes := customerNotes a;
     salesNotes := x;
     convertedToProject := convertedToProject a;
     statusHistory := statusHistory a;
     isDeleted := isDeleted a |}.

(** [appointment.statusHistory.push(entry)] *)
Definition push_history (e : HistoryEntry AppointmentStatus.t) (a : t) : t :=
  {| customer := customer a;
     assignedSalesStaff := assignedSalesStaff a;
     scheduledDate := scheduledDate a;
     scheduledEndDate := scheduledEndDate a;
     appointmentType := appointmentType a;
     siteAddress := siteAddress a;
     status := status a;
     cancellation := cancellation a;
     customerNotes := customerNotes a;
     salesNotes := salesNotes a;
     convertedToProject := convertedToProject a;
     statusHistory := statusHistory a ++ [e];
     isDeleted := isDeleted a |}.

(** The pre-save hook: the end of the slot (the controllers modelled
    here never modify [scheduledDate], so it only fires on a new
    document). *)
Definition preSave (isNew : bool) (a : t) : t :=
  if isNew
  then set_scheduledEndDate
         (addMinutes (scheduledDate a) config.business.slotDurationMinutes) a
  else a.
End Appointment.

(* ===================================================================== *)
(** ** models/Project.js *)
(* ===================================================================== *)

Module ProjectStatus.
Inductive t :=
  | draft
  | pending_blueprint
  | blueprint_submitted
  | pending_customer_approval
  | revision_requested
  | approved
  | pending_initial_payment
  | initial_payment_verified
  | in_fabrication
  | pending_midpoint_payment
  | midpoint_payment_verified
  | ready_for_installation
  | in_installation
  | pending_final_payment
  | completed
  | cancelled
  | on_hold.
End ProjectStatus.

Global Instance ProjectStatus_eq_dec : EqDecision ProjectStatus.t.
Proof. solve_decision. Defined.

Module Project.
Record CostingVersion := {
  version : Z;
  totalAmount : option Z;
}.

Record CustomerApproval := {
  isApproved : bool;
  approvedAt : option Z;
  approvedVersion : option (Z * Z);
}.

Record PaymentStage := {
  percentage : Z;
  amount : option Z;
}.

Record PaymentStages := {
  initial : PaymentStage;
  midpoint : PaymentStage;
  final : PaymentStage;
}.

Record t := {
  customer : ObjectId;
  status : ProjectStatus.t;
  blueprint_currentVersion : Z;
  costing_currentVersion : Z;
  costing_versions : list CostingVersion;
  costing_approvedAmount : option Z;
  customerApproval : CustomerApproval;
  paymentStages : PaymentStages;
  fabrication_startedAt : option Z;
  statusHistory : list (HistoryEntry ProjectStatus.t);
  isDeleted : bool;
}.

Definition set_status (s : ProjectStatus.t) (p : t) : t :=
  {| customer := customer p;
     status := s;
     blueprint_currentVersion := blueprint_currentVersion p;
     costing_currentVersion := costing_currentVersion p;
     costing_versions := costing_versions p;
     costing_approvedAmount := costing_approvedAmount p;
     customerApproval := customerApproval p;
     paymentStages := paymentStages p;
     fabrication_startedAt := fabrication_startedAt p;
     statusHistory := statusHistory p;
     isDeleted := isDeleted p |}.

Definition set_costing_approvedAmount (x : option Z) (p : t) : t :=
  {| customer := customer p;
     status := status p;
     blueprint_currentVersion := blueprint_currentVersion p;
     costing_currentVersion := costing_currentVersion p;
     costing_versions := costing_versions p;
     costing_approvedAmount := x;
     customerApproval := customerApproval p;
     paymentStages := paymentStages p;
     fabrication_startedAt := fabrication_startedAt p;
     statusHistory := statusHistory p;
     isDeleted := isDeleted p |}.

Definition set_customerApproval (c : CustomerApproval) (p : t) : t :=
  {| customer := customer p;
     status := status p;
     blueprint_currentVersion := blueprint_currentVersion p;
     costing_currentVersion := costing_currentVersion p;
     costing_versions := costing_versions p;
     costing_approvedAmount := costing_approvedAmount p;
     customerApproval := c;
     paymentStages := paymentStages p;
     fabrication_startedAt := fabrication_startedAt p;
     statusHistory := statusHistory p;
     isDeleted := isDeleted p |}.

Definition set_paymentStages (s : PaymentStages) (p : t) : t :=
  {| customer := customer p;
     status := status p;
     blueprint_currentVersion := blueprint_currentVersion p;
     costing_currentVersion := costing_currentVersion p;
     costing_versions := costing_versions p;
     costing_approvedAmount := costing_approvedAmount p;
     customerApproval := customerApproval p;
     paymentStages := s;
     fabrication_startedAt := fabrication_startedAt p;
     statusHistory := statusHistory p;
     isDeleted := isDeleted p |}.

Definition set_fabrication_startedAt (d : Z) (p : t) : t :=
  {| customer := customer p;
     status := status p;
     blueprint_currentVersion := blueprint_currentVersion p;
     costing_currentVersion := costing_currentVersion p;
     costing_versions := costing_versions p;
     costing_approvedAmount := costing_approvedAmount p;
     customerApproval := customerApproval p;
     paymentStages := paymentStages p;
     fabrication_startedAt := Some d;
     statusHistory := statusHistory p;
     isDeleted := isDeleted p |}.

(** [project.statusHistory.push(entry)] *)
Definition push_history (e : HistoryEntry ProjectStatus.t) (p : t) : t :=
  {| customer := customer p;
     status := status p;
     blueprint_currentVersion := blueprint_currentVersion p;
     costing_currentVersion := costing_currentVersion p;
     costing_versions := costing_versions p;
     costing_approvedAmount := costing_approvedAmount p;
     customerApproval := customerApproval p;
     paymentStages := paymentStages p;
     fabrication_startedAt := fabrication_startedAt p;
     statusHistory := statusHistory p ++ [e];
     isDeleted := isDeleted p |}.

Definition set_amount (a : Z) (s : PaymentStage) : PaymentStage :=
  {| percentage := percentage s; amount := Some a |}.

Definition set_percentage (pc : Z) (s : PaymentStage) : PaymentStage :=
  {| percentage := pc; amount := amount s |}.

Definition set_blueprint_currentVersion (v : Z) (p : t) : t :=
{| customer := customer p;
   status := status p;
   blueprint_currentVersion := v;
   costing_currentVersion := costing_currentVersion p;
   costing_versions := costing_versions p;
   costing_approvedAmount := costing_approvedAmount p;
   customerApproval := customerApproval p;
   paymentStages := paymentStages p;
   fabrication_startedAt := fabrication_startedAt p;
   statusHistory := statusHistory p;
   isDeleted := isDeleted p |}.

(** [costing.versions.push(v); costing.currentVersion = v.version] *)
Definition push_costing (v : CostingVersion) (p : t) : t :=
{| customer := customer p;
   status := status p;
   blueprint_currentVersion := blueprint_currentVersion p;
   costing_currentVersion := version v;
   costing_versions := costing_versions p ++ [v];
   costing_approvedAmount := costing_approvedAmount p;
   customerApproval := customerApproval p;
   paymentStages := paymentStages p;
   fabrication_startedAt := fabrication_startedAt p;
   statusHistory := statusHistory p;
   isDeleted := isDeleted p |}.

(** The schema defaults of a new project. *)
Definition defaultPaymentStages : PaymentStages :=
{| initial := {| percentage := config.business.paymentStages_initial; amount := None |};
   midpoint := {| percentage := config.business.paymentStages_midpoint; amount := None |};
   final := {| percentage := config.business.paymentStages_final; amount := None |} |}.

Definition set_percentages (i m f : Z) (s : PaymentStages) : PaymentStages :=
{| initial := set_percentage i (initial s);
   midpoint := set_percentage m (midpoint s);
   final := set_percentage f (final s) |}.

(** [Math.round((total * percentage) / 100)] *)
Definition share (total percentage : Z) : Z :=
  Number.Math_round (Number.div (Number.mul total percentage) 100).

(** The stage amounts derived from an approved total: the first two
    rounded, the last one [total - initial.amount - midpoint.amount]. *)
Definition stageAmounts (total : Z) (s : PaymentStages) : PaymentStages :=
  let i := share total (percentage (initial s)) in
  let m := share total (percentage (midpoint s)) in
  {| initial := set_amount i (initial s);
     midpoint := set_amount m (midpoint s);
     final := set_amount (Number.sub (Number.sub total i) m) (final s) |}.

(** The pre-save hook "Calculate payment stage amounts"; it is guarded
    by the truthiness of [costing.approvedAmount].  (The other
    pre-save hook only numbers a new project.) *)
Definition preSave (p : t) : t :=
  if truthy (costing_approvedAmount p)
  then match costing_approvedAmount p with
       | Some total => set_paymentStages (stageAmounts total (paymentStages p)) p
       | None => p
       end
  else p.
End Project.

(* ===================================================================== *)
(** ** models/Payment.js *)
(* ===================================================================== *)

Module Stage.
Inductive t := initial | midpoint | final.
End Stage.

Module PaymentStatus.
Inductive t := pending | submitted | verified | rejected.
End PaymentStatus.

Module PaymentMethod.
Inductive t := gcash | bank_transfer | cash | other.
End PaymentMethod.

Global Instance Stage_eq_dec : EqDecision Stage.t.
Proof. solve_decision. Defined.

Global Instance PaymentStatus_eq_dec : EqDecision PaymentStatus.t.
Proof. solve_decision. Defined.

(** An uploaded file as multer hands it over in [req.file]. *)
Record File := {
  filename : string;
  originalname : string;
  path : string;
}.

Module Payment.
Record PaymentProof := {
  proof_file : File;
  uploadedAt : Z;
}.

Record Verification := {
  verifiedBy : ObjectId;
  verifiedAt : Z;
  notes : option string;
  referenceNumber : option string;
}.

Record Rejection := {
  rejectedBy : ObjectId;
  rejectedAt : Z;
  reason : string;
}.

Record Receipt := {
  receiptNumber : string;
  generatedAt : Z;
}.

Record t := {
  project : ObjectId;
  customer : ObjectId;
  stage : Stage.t;
  amount_expected : Z;
  amount_received : option Z;
  paymentMethod : option PaymentMethod.t;
  paymentProof : option PaymentProof;
  status : PaymentStatus.t;
  verification : option Verification;
  rejection : option Rejection;
  receipt : option Receipt;
  statusHistory : list (HistoryEntry PaymentStatus.t);
  createdAt : Z;
  isDeleted : bool;
}.

Definition set_status (s : PaymentStatus.t) (p : t) : t :=
  {| project := project p; customer := customer p; stage := stage p;
     amount_expected := amount_expected p;
     amount_received := amount_received p;
     paymentMethod := paymentMethod p; paymentProof := paymentProof p;
     status := s;
     verification := verification p; rejection := rejection p;
     receipt := receipt p; statusHistory := statusHistory p;
     createdAt := createdAt p; isDeleted := isDeleted p |}.

Definition set_amount_expected (x : Z) (p : t) : t :=
  {| project := project p; customer := customer p; stage := stage p;
     amount_expected := x;
     amount_received := amount_received p;
     paymentMethod := paymentMethod p; paymentProof := paymentProof p;
     status := status p;
     verification := verification p; rejection := rejection p;
     receipt := receipt p; statusHistory := statusHistory p;
     createdAt := createdAt p; isDeleted := isDeleted p |}.

Definition set_amount_received (x : Z) (p : t) : t :=
  {| project := project p; customer := customer p; stage := stage p;
     amount_expected := amount_expected p;
     amount_received := Some x;
     paymentMethod := paymentMethod p; paymentProof := paymentProof p;
     status := status p;
     verification := verification p; rejection := rejection p;
     receipt := receipt p; statusHistory := statusHistory p;
     createdAt := createdAt p; isDeleted := isDeleted p |}.

Definition set_paymentMethod (m : PaymentMethod.t) (p : t) : t :=
  {| project := project p; customer := customer p; stage := stage p;
     amount_expected := amount_expected p;
     amount_received := amount_received p;
     paymentMethod := Some m; paymentProof := paymentProof p;
     status := status p;
     verification := verification p; rejection := rejection p;
     receipt := receipt p; statusHistory := statusHistory p;
     createdAt := createdAt p; isDeleted := isDeleted p |}.

Definition set_paymentProof (f : PaymentProof) (p : t) : t :=
  {| project := project p; customer := customer p; stage := stage p;
     amount_expected := amount_expected p;
     amount_received := amount_received p;
     paymentMethod := paymentMethod p; paymentProof := Some f;
     status := status p;
     verification := verification p; rejection := rejection p;
     receipt := receipt p; statusHistory := statusHistory p;
     createdAt := createdAt p; isDeleted := isDeleted p |}.

Definition set_verification (v : Verification) (p : t) : t :=
  {| project := project p; customer := customer p; stage := stage p;
     amount_expected := amount_expected p;
     amount_received := amount_received p;
     paymentMethod := paymentMethod p; paymentProof := paymentProof p;
     status := status p;
     verification := Some v; rejection := rejection p;
     receipt := receipt p; statusHistory := statusHistory p;
     createdAt := createdAt p; isDeleted := isDeleted p |}.

Definition set_rejection (r : Rejection) (p : t) : t :=
  {| project := project p; customer := customer p; stage := stage p;
     amount_expected := amount_expected p;
     amount_received := amount_received p;
     paymentMethod := paymentMethod p; paymentProof := paymentProof p;
     status := status p;
     verification := verification p; rejection := Some r;
     receipt := receipt p; statusHistory := statusHistory p;
     createdAt := createdAt p; isDeleted := isDeleted p |}.

Definition set_receipt (r : Receipt) (p : t) : t :=
  {| project := project p; customer := customer p; stage := stage p;
     amount_expected := amount_expected p;
     amount_received := amount_received p;
     paymentMethod := paymentMethod p; paymentProof := paymentProof p;
     status := status p;
     verification := verification p; rejection := rejection p;
     receipt := Some r; statusHistory := statusHistory p;
     createdAt := createdAt p; isDeleted := isDeleted p |}.

Definition set_isDeleted (b : bool) (p : t) : t :=
  {| project := project p; customer := customer p; stage := stage p;
     amount_expected := amount_expected p;
     amount_received := amount_received p;
     paymentMethod := paymentMethod p; paymentProof := paymentProof p;
     status := status p;
     verification := verification p; rejection := rejection p;
     receipt := receipt p; statusHistory := statusHistory p;
     createdAt := createdAt p; isDeleted := b |}.

(** [payment.statusHistory.push(entry)] *)
Definition push_history (e : HistoryEntry PaymentStatus.t) (p : t) : t :=
  {| project := project p; customer := customer p; stage := stage p;
     amount_expected := amount_expected p;
     amount_received := amount_received p;
     paymentMethod := paymentMethod p; paymentProof := paymentProof p;
     status := status p;
     verification := verification p; rejection := rejection p;
     receipt := receipt p; statusHistory := statusHistory p ++ [e];
     createdAt := createdAt p; isDeleted := isDeleted p |}.

(** What a controller hands to [Payment.create]: the expected amount may
    be [undefined] there, and the schema requires it. *)
Record Draft := {
  d_project : ObjectId;
  d_customer : ObjectId;
  d_stage : Stage.t;
  d_expected : option Z;
  d_status : PaymentStatus.t;
}.

(** The document Mongoose builds from a valid draft. *)
Definition of_draft (clk : Clock) (d : Draft) (expected : Z) : t :=
  {| project := d_project d; customer := d_customer d; stage := d_stage d;
     amount_expected := expected;
     amount_received := None;
     paymentMethod := None; paymentProof := None;
     status := d_status d;
     verification := None; rejection := None;
     receipt := None; statusHistory := [];
     createdAt := now clk; isDeleted := false |}.
End Payment.

(* ===================================================================== *)
(** ** The database and the controller monad *)
(* ===================================================================== *)

Record Db := {
  users : list User.t;
  appointments : gmap N Appointment.t;
  projects : gmap N Project.t;
  payments : gmap N Payment.t;
}.

Definition with_appointments (m : gmap N Appointment.t) (db : Db) : Db :=
  {| users := users db; appointments := m;
     projects := projects db; payments := payments db |}.

Definition with_projects (m : gmap N Project.t) (db : Db) : Db :=
  {| users := users db; appointments := appointments db;
     projects := m; payments := payments db |}.

Definition with_payments (m : gmap N Payment.t) (db : Db) : Db :=
  {| users := users db; appointments := appointments db;
     projects := projects db; payments := m |}.

(** An [async] handler: it runs on the database and either returns or
    throws; the database it leaves behind is kept in both cases. *)
Definition M (A : Type) : Type := Db -> Db * (Error + A).

Definition ret {A : Type} (x : A) : M A := fun db => (db, inr x).

Definition throw {A : Type} (e : Error) : M A := fun db => (db, inl e).

Definition bind {A B : Type} (m : M A) (k : A -> M B) : M B :=
  fun db =>
    match m db with
    | (db', inr x) => k x db'
    | (db', inl e) => (db', inl e)
    end.

Notation "x <- m ;; k" := (bind m (fun x => k))
  (at level 100, m at next level, right associativity).
Notation "m ;;; k" := (bind m (fun _ => k))
  (at level 100, right associativity).

Definition get {A : Type} (f : Db -> A) : M A := fun db => (db, inr (f db)).

Definition modify (f : Db -> Db) : M unit := fun db => (f db, inr tt).

(** [if (c) throw e] *)
Definition throwIf (c : bool) (e : Error) : M unit :=
  if c then throw e else ret tt.

(* ===================================================================== *)
(** ** Queries and the soft-delete middleware *)
(* ===================================================================== *)

(** Every schema registers [schema.pre(/^find/, ...)], which adds
    [isDeleted: { $ne: true }] unless the query options carry
    [includeDeleted: true].  Mongoose runs it for the query operations
    whose middleware name matches the pattern. *)
Inductive QueryOp :=
  | Q_find
  | Q_findOne
  | Q_findOneAndUpdate
  | Q_countDocuments
  | Q_updateOne.

Definition middlewareName (op : QueryOp) : string :=
  match op with
  | Q_find => "find"
  | Q_findOne => "findOne"
  | Q_findOneAndUpdate => "findOneAndUpdate"
  | Q_countDocuments => "countDocuments"
  | Q_updateOne => "updateOne"
  end.

(** The pattern [/^find/]. *)
Definition preFindMatches (op : QueryOp) : bool :=
  String.prefix "find" (middlewareName op).

Class Document (A : Type) := doc_isDeleted : A -> bool.

Global Instance User_Document : Document User.t := User.isDeleted.
Global Instance Appointment_Document : Document Appointment.t :=
  Appointment.isDeleted.
Global Instance Project_Document : Document Project.t := Project.isDeleted.
Global Instance Payment_Document : Document Payment.t := Payment.isDeleted.

(** Whether a document passes the condition the middleware adds (or does
    not add) to a query of kind [op]. *)
Definition softDeleteWhere {A : Type} `{Document A}
    (op : QueryOp) (includeDeleted : bool) (d : A) : bool :=
  if preFindMatches op && negb includeDeleted
  then negb (doc_isDeleted d)
  else true.

(** The documents a query of kind [op] with condition [cond] selects. *)
Definition Model_select {A : Type} `{Document A}
    (op : QueryOp) (includeDeleted : bool) (cond : N -> A -> bool)
    (coll : gmap N A) : list (N * A) :=
  List.filter (fun kv => cond kv.1 kv.2 && softDeleteWhere op includeDeleted kv.2)
              (map_to_list coll).

Definition Model_find {A : Type} `{Document A}
    (cond : N -> A -> bool) (coll : gmap N A) : list (N * A) :=
  Model_select Q_find false cond coll.

Definition Model_findOne {A : Type} `{Document A}
    (cond : N -> A -> bool) (coll : gmap N A) : option (N * A) :=
  head (Model_select Q_findOne false cond coll).

(** [Model.findById(id)] is [findOne({ _id: id })]; the [_id] is the key
    of the collection. *)
Definition Model_findById {A : Type} `{Document A}
    (coll : gmap N A) (id : ObjectId) : option A :=
  match coll !! id with
  | Some d => if softDeleteWhere Q_findOne false d then Some d else None
  | None => None
  end.

Definition Model_countDocuments {A : Type} `{Document A}
    (cond : N -> A -> bool) (coll : gmap N A) : nat :=
  length (Model_select Q_countDocuments false cond coll).

(** [Model.updateOne(filter, update)]: the first match is updated. *)
Definition Model_updateOne {A : Type} `{Document A}
    (cond : N -> A -> bool) (update : A -> A) (coll : gmap N A) : gmap N A :=
  match head (Model_select Q_updateOne false cond coll) with
  | Some (id, d) => <[id := update d]> coll
  | None => coll
  end.

(** [User.find(cond)] in the collection's order, and the lookup behind
    [populate]; the [User] schema carries the same middleware. *)
Definition User_find (cond : User.t -> bool) (us : list User.t) : list User.t :=
  List.filter (fun u => cond u && softDeleteWhere Q_find false u) us.

Definition User_findById (us : list User.t) (id : ObjectId) : option User.t :=
  List.find (fun u => (User._id u =? id)%N && softDeleteWhere Q_findOne false u) us.

(** A new [_id]: one that the collection does not hold. *)
Definition newId {A : Type} (coll : gmap N A) : ObjectId := fresh (dom coll).

Arguments Model_select : simpl never.
Arguments Model_findById : simpl never.
Arguments Model_findOne : simpl never.
Arguments Model_countDocuments : simpl never.
Arguments Model_updateOne : simpl never.
Arguments User_find : simpl never.
Arguments User_findById : simpl never.
Arguments newId : simpl never.

(* ===================================================================== *)
(** ** Saving and creating documents *)
(* ===================================================================== *)

Definition Appointment_save (id : ObjectId) (a : Appointment.t) : M unit :=
  modify (fun db =>
    with_appointments (<[id := Appointment.preSave false a]> (appointments db)) db).

Definition Appointment_create (a : Appointment.t) : M ObjectId :=
  fun db =>
    let id := newId (appointments db) in
    (with_appointments (<[id := Appointment.preSave true a]> (appointments db)) db,
     inr id).

(** [await project.save()]: the hooks run on the document in memory, so
    the caller goes on with the document as it was saved. *)
Definition Project_save (id : ObjectId) (p : Project.t) : M Project.t :=
  fun db =>
    let p' := Project.preSave p in
    (with_projects (<[id := p']> (projects db)) db, inr p').

Definition Payment_save (id : ObjectId) (p : Payment.t) : M unit :=
  modify (fun db => with_payments (<[id := p]> (payments db)) db).

(** The unique index [{ project: 1, stage: 1 }]; MongoDB enforces it
    over every stored document. *)
Definition Payment_indexTaken (proj : ObjectId) (s : Stage.t)
    (coll : gmap N Payment.t) : bool :=
  existsb (fun kv => (Payment.project kv.2 =? proj)%N
                     && bool_decide (Payment.stage kv.2 = s))
          (map_to_list coll).

(** Saving one new payment: schema validation, then the insert. *)
Definition Payment_insert (clk : Clock) (d : Payment.Draft)
    (coll : gmap N Payment.t) : gmap N Payment.t * option Error :=
  match Payment.d_expected d with
  | None => (coll, Some (ValidationError "amount.expected"))
  | Some x =>
      if Payment_indexTaken (Payment.d_project d) (Payment.d_stage d) coll
      then (coll, Some (DuplicateKeyError "project_1_stage_1"))
      else (<[newId coll := Payment.of_draft clk d x]> coll, None)
  end.

(** [Payment.create([...])]: every element is saved; the first failure,
    if any, is what the call throws. *)
Fixpoint Payment_insertMany (clk : Clock) (ds : list Payment.Draft)
    (coll : gmap N Payment.t) : gmap N Payment.t * option Error :=
  match ds with
  | [] => (coll, None)
  | d :: rest =>
      let '(coll1, e1) := Payment_insert clk d coll in
      let '(coll2, e2) := Payment_insertMany clk rest coll1 in
      (coll2, match e1 with Some e => Some e | None => e2 end)
  end.

Definition Payment_create (clk : Clock) (ds : list Payment.Draft) : M unit :=
  fun db =>
    let '(coll, e) := Payment_insertMany clk ds (payments db) in
    (with_payments coll db,
     match e with Some err => inl err | None => inr tt end).

(** The count behind a receipt number: payments that carry a receipt and
    whose [createdAt] lies in the current calendar year. *)
Definition receiptCount (clk : Clock) (coll : gmap N Payment.t) : nat :=
  let year := getFullYear clk (now clk) in
  Model_countDocuments
    (fun _ p => match Payment.receipt p with Some _ => true | None => false end
                && (Date_of clk year 0 1 <=? Payment.createdAt p)
                && (Payment.createdAt p <? Date_of clk (year + 1) 0 1))
    coll.

(** The sequence number a receipt issued now would carry. *)
Definition receiptSequence (clk : Clock) (coll : gmap N Payment.t) : Z :=
  Z.of_nat (receiptCount clk coll) + 1.

(** The string [Payment.generateReceiptNumber()] returns at [clk]. *)
Definition receiptNumberAt (clk : Clock) (coll : gmap N Payment.t) : string :=
  let year := getFullYear clk (now clk) in
  let month := padStart0 2 (pretty (getMonth clk (now clk) + 1)) in
  "RMV-RCT-" +:+ pretty year +:+ month +:+ "-"
  +:+ padStart0 4 (pretty (receiptSequence clk coll)).

(** [Payment.generateReceiptNumber()] *)
Definition Payment_generateReceiptNumber (clk : Clock) : M string :=
  get (fun db => receiptNumberAt clk (payments db)).

Arguments receiptCount : simpl never.
Arguments receiptSequence : simpl never.
Arguments receiptNumberAt : simpl never.
Arguments Payment_generateReceiptNumber : simpl never.

(* ===================================================================== *)
(** ** controllers/appointmentController.js *)
(* ===================================================================== *)

(** The conflict query of the booking: an appointment of that staff
    member at exactly that instant, neither cancelled nor no-show. *)
Definition conflictAt (staffId : ObjectId) (date : Z)
    (coll : gmap N Appointment.t) : option (N * Appointment.t) :=
  Model_findOne
    (fun _ a =>
       match Appointment.assignedSalesStaff a with
       | Some s => (s =? staffId)%N
       | None => false
       end
       && (Appointment.scheduledDate a =? date)
       && negb (bool_decide (Appointment.status a = AppointmentStatus.cancelled))
       && negb (bool_decide (Appointment.status a = AppointmentStatus.no_show)))
    coll.

(** The [for (const staff of salesStaffList)] loop. *)
Fixpoint firstWithoutConflict (salesStaffList : list User.t) (date : Z)
    (coll : gmap N Appointment.t) : option User.t :=
  match salesStaffList with
  | [] => None
  | staff :: rest =>
      match conflictAt (User._id staff) date coll with
      | None => Some staff
      | Some _ => firstWithoutConflict rest date coll
      end
  end.

Definition activeSalesStaff (us : list User.t) : list User.t :=
  User_find (fun u => bool_decide (User.role u = SALES_STAFF) && User.isActive u) us.

Definition createAppointment (clk : Clock) (userId : ObjectId)
    (scheduledDate : Z) (appointmentType : AppointmentType.t)
    (siteAddress notes : option string) : M Response :=
  let date := scheduledDate in
  let hour := getHours clk date in
  throwIf ((hour <? config.business.appointmentHours_start)
           || (config.business.appointmentHours_end <=? hour))
    (AppError "Appointments must be scheduled between 9:00 and 18:00" 400) ;;;
  autoAssignedSalesStaff <-
    get (fun db =>
      if bool_decide (appointmentType = AppointmentType.ocular_visit)
      then firstWithoutConflict (activeSalesStaff (users db)) date (appointments db)
      else None) ;;
  let initialStatus :=
    match autoAssignedSalesStaff with
    | Some _ => AppointmentStatus.scheduled
    | None => AppointmentStatus.pending
    end in
  Appointment_create
    {| Appointment.customer := userId;
       Appointment.assignedSalesStaff := User._id <$> autoAssignedSalesStaff;
       Appointment.scheduledDate := date;
       Appointment.scheduledEndDate := None;
       Appointment.appointmentType := appointmentType;
       Appointment.siteAddress :=
         if bool_decide (appointmentType = AppointmentType.ocular_visit)
         then siteAddress else None;
       Appointment.status := initialStatus;
       Appointment.cancellation := None;
       Appointment.customerNotes := notes;
       Appointment.salesNotes := None;
       Appointment.convertedToProject := None;
       Appointment.statusHistory :=
         [Build_HistoryEntry AppointmentStatus.pending userId (now clk)
            "Appointment booked by customer"]
         ++ match autoAssignedSalesStaff with
            | Some staff =>
                [Build_HistoryEntry AppointmentStatus.scheduled userId (now clk)
                   ("Auto-assigned to " +:+ User.firstName staff +:+ " "
                    +:+ User.lastName staff)]
            | None => []
            end;
       Appointment.isDeleted := false |} ;;;
  ret {| res_status := 201;
         res_message := "Appointment booked successfully. Waiting for agent assignment." |}.

(** [String.prototype.trim] strips the white space and the line
    terminators of ECMAScript: U+0009 to U+000D and U+0020 (one byte),
    U+00A0 (two bytes), U+1680, U+2000 to U+200A, U+2028, U+2029,
    U+202F, U+205F, U+3000 and U+FEFF (three bytes each). *)
Definition isSpace (c : Ascii.ascii) : bool :=
  let n := Ascii.nat_of_ascii c in
  ((9 <=? n) && (n <=? 13))%nat || (n =? 32)%nat.

Definition isSpace2 (c1 c2 : Ascii.ascii) : bool :=
  ((Ascii.nat_of_ascii c1 =? 194) && (Ascii.nat_of_ascii c2 =? 160))%nat.

Definition isSpace3 (c1 c2 c3 : Ascii.ascii) : bool :=
  let n1 := Ascii.nat_of_ascii c1 in
  let n2 := Ascii.nat_of_ascii c2 in
  let n3 := Ascii.nat_of_ascii c3 in
  ((n1 =? 225) && (n2 =? 154) && (n3 =? 128)
   || (n1 =? 226) && (n2 =? 128)
      && ((128 <=? n3) && (n3 <=? 138) || (n3 =? 168) || (n3 =? 169) || (n3 =? 175))
   || (n1 =? 226) && (n2 =? 129) && (n3 =? 159)
   || (n1 =? 227) && (n2 =? 128) && (n3 =? 128)
   || (n1 =? 239) && (n2 =? 187) && (n3 =? 191))%nat.

(** The string without the white space it starts with; [two] and
    [three] tell the white space of two and of three bytes. *)
Fixpoint stripSpaces (two : Ascii.ascii -> Ascii.ascii -> bool)
    (three : Ascii.ascii -> Ascii.ascii -> Ascii.ascii -> bool)
    (s : string) : string :=
  match s with
  | String c1 s1 =>
      if isSpace c1 then stripSpaces two three s1
      else
        match s1 with
        | String c2 s2 =>
            if two c1 c2 then stripSpaces two three s2
            else
              match s2 with
              | String c3 s3 =>
                  if three c1 c2 c3 then stripSpaces two three s3 else s
              | EmptyString => s
              end
        | EmptyString => s
        end
  | EmptyString => EmptyString
  end.

Definition trimStart (s : string) : string := stripSpaces isSpace2 isSpace3 s.

(** The end of the string is the start of its reversal, where the bytes
    of a character come last first. *)
Definition trimEnd (s : string) : string :=
  String.rev
    (stripSpaces (fun c2 c1 => isSpace2 c1 c2) (fun c3 c2 c1 => isSpace3 c1 c2 c3)
       (String.rev s)).

Definition trim (s : string) : string := trimEnd (trimStart s).

(** [reason?.trim() || 'Appointment cancelled'] *)
Definition cancellationReasonOf (reason : option string) : string :=
  match reason with
  | Some r => if bool_decide (trim r = "") then "Appointment cancelled" else trim r
  | None => "Appointment cancelled"
  end.

Definition isTerminalForCancel (s : AppointmentStatus.t) : bool :=
  bool_decide (s = AppointmentStatus.cancelled)
  || bool_decide (s = AppointmentStatus.completed)
  || bool_decide (s = AppointmentStatus.no_show).

(** The customer is populated with the appointment; the [message] of
    the request only goes into the e-mail. *)
Definition cancelAppointment (clk : Clock) (userId : ObjectId) (userRole : Role)
    (id : ObjectId) (reason : option string) : M Response :=
  found <- get (fun db => Model_findById (appointments db) id) ;;
  match found with
  | None => throw (AppError "Appointment not found" 404)
  | Some appointment =>
      customer <- get (fun db => User_findById (users db) (Appointment.customer appointment)) ;;
      (if bool_decide (userRole = CUSTOMER)
       then match customer with
            | None => throw (TypeError "appointment.customer._id")
            | Some c =>
                throwIf (negb (User._id c =? userId)%N) (AppError "Access denied" 403)
            end
       else ret tt) ;;;
      throwIf (isTerminalForCancel (Appointment.status appointment))
        (AppError "Appointment cannot be cancelled once completed or marked as no-show" 400) ;;;
      let cutoffTime :=
        addHours (Appointment.scheduledDate appointment)
                 (- config.business.cancellationCutoffHours) in
      let isWithinPolicy := now clk <? cutoffTime in
      let cancellationReason := cancellationReasonOf reason in
      match customer with
      | None => throw (TypeError "appointment.customer.profile")
      | Some _ =>
          Appointment_save id
            (Appointment.push_history
               (Build_HistoryEntry AppointmentStatus.cancelled userId (now clk)
                  cancellationReason)
               (Appointment.set_cancellation
                  {| Appointment.cancelledBy := userId;
                     Appointment.cancelledAt := now clk;
                     Appointment.reason := cancellationReason;
                     Appointment.isWithinPolicy := isWithinPolicy |}
                  (Appointment.set_status AppointmentStatus.cancelled appointment))) ;;;
          ret {| res_status := 200;
                 res_message :=
                   if isWithinPolicy
                   then "Appointment cancelled successfully"
                   else "Appointment cancelled. Note: Cancellation was made less than 24 hours before the scheduled time." |}
      end
  end.

Definition completeAppointment (clk : Clock) (userId : ObjectId)
    (id : ObjectId) (salesNotes : option string) : M Response :=
  found <- get (fun db => Model_findById (appointments db) id) ;;
  match found with
  | None => throw (AppError "Appointment not found" 404)
  | Some appointment =>
      match Appointment.assignedSalesStaff appointment with
      | None => throw (TypeError "appointment.assignedSalesStaff.toString")
      | Some staff =>
          throwIf (negb (staff =? userId)%N)
            (AppError "You are not assigned to this appointment" 403)
      end ;;;
      throwIf (negb (bool_decide (Appointment.status appointment = AppointmentStatus.scheduled))
               && negb (bool_decide (Appointment.status appointment = AppointmentStatus.confirmed))
               && negb (bool_decide (Appointment.status appointment = AppointmentStatus.in_progress)))
        (AppError "Appointment cannot be completed" 400) ;;;
      Appointment_save id
        (Appointment.push_history
           (Build_HistoryEntry AppointmentStatus.completed userId (now clk)
              "Consultation completed")
           (Appointment.set_salesNotes salesNotes
              (Appointment.set_status AppointmentStatus.completed appointment))) ;;;
      ret {| res_status := 200;
             res_message := "Appointment completed successfully" |}
  end.

Definition markNoShow (clk : Clock) (userId : ObjectId) (id : ObjectId) : M Response :=
  found <- get (fun db => Model_findById (appointments db) id) ;;
  match found with
  | None => throw (AppError "Appointment not found" 404)
  | Some appointment =>
      Appointment_save id
        (Appointment.push_history
           (Build_HistoryEntry AppointmentStatus.no_show userId (now clk)
              "Customer did not show up")
           (Appointment.set_status AppointmentStatus.no_show appointment)) ;;;
      ret {| res_status := 200;
             res_message := "Appointment marked as no-show" |}
  end.

(* ===================================================================== *)
(** ** controllers/projectController.js *)
(* ===================================================================== *)

Definition uploadBlueprint (clk : Clock) (userId : ObjectId) (id : ObjectId)
    (file : option File) : M Response :=
  found <- get (fun db => Model_findById (projects db) id) ;;
  match found with
  | None => throw (AppError "Project not found" 404)
  | Some project =>
      match file with
      | None => throw (AppError "No file uploaded" 400)
      | Some _ =>
          let newVersion := Project.blueprint_currentVersion project + 1 in
          Project_save id (Project.set_blueprint_currentVersion newVersion project) ;;;
          ret {| res_status := 200; res_message := "Blueprint uploaded successfully" |}
      end
  end.

(** The optional [breakdown] of a costing is not read by the workflow
    and is left out; so is the request whose [breakdown] is no JSON,
    which throws in [JSON.parse] before anything is written. *)
Definition uploadCosting (clk : Clock) (userId : ObjectId) (id : ObjectId)
    (totalAmount : option Z) (file : option File) : M Response :=
  found <- get (fun db => Model_findById (projects db) id) ;;
  match found with
  | None => throw (AppError "Project not found" 404)
  | Some project =>
      match file with
      | None => throw (AppError "No file uploaded" 400)
      | Some _ =>
          let newVersion := Project.costing_currentVersion project + 1 in
          Project_save id
            (Project.push_costing
               {| Project.version := newVersion;
                  Project.totalAmount := totalAmount |} project) ;;;
          ret {| res_status := 200; res_message := "Costing uploaded successfully" |}
      end
  end.

Definition submitForApproval (clk : Clock) (userId : ObjectId)
    (id : ObjectId) : M Response :=
  found <- get (fun db => Model_findById (projects db) id) ;;
  match found with
  | None => throw (AppError "Project not found" 404)
  | Some project =>
      throwIf ((Project.blueprint_currentVersion project =? 0)
               || (Project.costing_currentVersion project =? 0))
        (AppError "Blueprint and costing must be uploaded first" 400) ;;;
      Project_save id
        (Project.push_history
           (Build_HistoryEntry ProjectStatus.pending_customer_approval userId
              (now clk) "Submitted for customer approval")
           (Project.set_status ProjectStatus.pending_customer_approval project)) ;;;
      customer <- get (fun db => User_findById (users db) (Project.customer project)) ;;
      match customer with
      | None => throw (TypeError "project.customer.email")
      | Some _ =>
          ret {| res_status := 200;
                 res_message := "Project submitted for customer approval" |}
      end
  end.

(** The three payment records of an approved project. *)
Definition stageAmount (s : Stage.t) (ps : Project.PaymentStages) : option Z :=
  match s with
  | Stage.initial => Project.amount (Project.initial ps)
  | Stage.midpoint => Project.amount (Project.midpoint ps)
  | Stage.final => Project.amount (Project.final ps)
  end.

Definition stageDraft (id : ObjectId) (project : Project.t) (s : Stage.t) : Payment.Draft :=
  {| Payment.d_project := id;
     Payment.d_customer := Project.customer project;
     Payment.d_stage := s;
     Payment.d_expected := stageAmount s (Project.paymentStages project);
     Payment.d_status := PaymentStatus.pending |}.

Definition stageDrafts (id : ObjectId) (project : Project.t) : list Payment.Draft :=
  [stageDraft id project Stage.initial;
   stageDraft id project Stage.midpoint;
   stageDraft id project Stage.final].

Definition approveProject (clk : Clock) (userId : ObjectId)
    (id : ObjectId) : M Response :=
  found <- get (fun db => Model_findById (projects db) id) ;;
  match found with
  | None => throw (AppError "Project not found" 404)
  | Some project =>
      throwIf (negb (Project.customer project =? userId)%N)
        (AppError "Access denied" 403) ;;;
      throwIf (negb (bool_decide
                       (Project.status project = ProjectStatus.pending_customer_approval)))
        (AppError "Project is not pending approval" 400) ;;;
      match last (Project.costing_versions project) with
      | None => throw (TypeError "latestCosting.totalAmount")
      | Some latestCosting =>
          saved <-
            Project_save id
              (Project.push_history
                 (Build_HistoryEntry ProjectStatus.approved userId (now clk)
                    "Approved by customer")
                 (Project.set_status ProjectStatus.approved
                    (Project.set_costing_approvedAmount
                       (Project.totalAmount latestCosting)
                       (Project.set_customerApproval
                          {| Project.isApproved := true;
                             Project.approvedAt := Some (now clk);
                             Project.approvedVersion :=
                               Some (Project.blueprint_currentVersion project,
                                     Project.costing_currentVersion project) |}
                          project)))) ;;
          Payment_create clk (stageDrafts id saved) ;;;
          Project_save id
            (Project.push_history
               (Build_HistoryEntry ProjectStatus.pending_initial_payment userId
                  (now clk) "Waiting for initial 30% payment")
               (Project.set_status ProjectStatus.pending_initial_payment saved)) ;;;
          ret {| res_status := 200;
                 res_message := "Project approved successfully. Please proceed with the initial payment." |}
      end
  end.

(* ===================================================================== *)
(** ** controllers/adminController.js *)
(* ===================================================================== *)

(** [Payment.updateOne({ project, stage }, { 'amount.expected': x })];
    an [undefined] amount leaves the field as it is. *)
Definition Payment_updateExpected (proj : ObjectId) (s : Stage.t)
    (x : option Z) : M unit :=
  modify (fun db =>
    match x with
    | Some v =>
        with_payments
          (Model_updateOne
             (fun _ p => (Payment.project p =? proj)%N
                         && bool_decide (Payment.stage p = s))
             (Payment.set_amount_expected v) (payments db)) db
    | None => db
    end).

Arguments Payment_updateExpected : simpl never.
Arguments Payment_create : simpl never.

Definition updatePaymentStages (clk : Clock) (userId : ObjectId) (id : ObjectId)
    (initial midpoint final : Z) : M Response :=
  throwIf (negb (Number.add (Number.add initial midpoint) final =? 100))
    (AppError "Payment stage percentages must sum to 100" 400) ;;;
  found <- get (fun db => Model_findById (projects db) id) ;;
  match found with
  | None => throw (AppError "Project not found" 404)
  | Some project =>
      let withPercentages :=
        Project.set_paymentStages
          (Project.set_percentages initial midpoint final
             (Project.paymentStages project)) project in
      let recalculated :=
        if truthy (Project.costing_approvedAmount project)
        then match Project.costing_approvedAmount project with
             | Some total =>
                 Project.set_paymentStages
                   (Project.stageAmounts total (Project.paymentStages withPercentages))
                   withPercentages
             | None => withPercentages
             end
        else withPercentages in
      saved <- Project_save id recalculated ;;
      Payment_updateExpected id Stage.initial
        (Project.amount (Project.initial (Project.paymentStages saved))) ;;;
      Payment_updateExpected id Stage.midpoint
        (Project.amount (Project.midpoint (Project.paymentStages saved))) ;;;
      Payment_updateExpected id Stage.final
        (Project.amount (Project.final (Project.paymentStages saved))) ;;;
      ret {| res_status := 200; res_message := "Payment stages updated" |}
  end.

(* ===================================================================== *)
(** ** controllers/paymentController.js *)
(* ===================================================================== *)

Definition paymentMethodName (m : PaymentMethod.t) : string :=
  match m with
  | PaymentMethod.gcash => "gcash"
  | PaymentMethod.bank_transfer => "bank_transfer"
  | PaymentMethod.cash => "cash"
  | PaymentMethod.other => "other"
  end.

Definition stageName (s : Stage.t) : string :=
  match s with
  | Stage.initial => "initial"
  | Stage.midpoint => "midpoint"
  | Stage.final => "final"
  end.

Definition submitPaymentProof (clk : Clock) (userId : ObjectId) (id : ObjectId)
    (paymentMethod : PaymentMethod.t) (file : option File) : M Response :=
  found <- get (fun db => Model_findById (payments db) id) ;;
  match found with
  | None => throw (AppError "Payment not found" 404)
  | Some payment =>
      throwIf (negb (Payment.customer payment =? userId)%N)
        (AppError "Access denied" 403) ;;;
      throwIf (bool_decide (Payment.status payment = PaymentStatus.verified))
        (AppError "Payment has already been verified" 400) ;;;
      match file with
      | None => throw (AppError "No file uploaded" 400)
      | Some f =>
          Payment_save id
            (Payment.push_history
               (Build_HistoryEntry PaymentStatus.submitted userId (now clk)
                  ("Payment proof submitted via " +:+ paymentMethodName paymentMethod))
               (Payment.set_status PaymentStatus.submitted
                  (Payment.set_paymentMethod paymentMethod
                     (Payment.set_paymentProof
                        {| Payment.proof_file := f;
                           Payment.uploadedAt := now clk |}
                        payment)))) ;;;
          project <- get (fun db => Model_findById (projects db) (Payment.project payment)) ;;
          match project with
          | None => throw (TypeError "payment.project.projectNumber")
          | Some _ =>
              ret {| res_status := 200;
                     res_message := "Payment proof submitted successfully. Waiting for verification." |}
          end
      end
  end.

Definition stageStatusMap (s : Stage.t) : ProjectStatus.t :=
  match s with
  | Stage.initial => ProjectStatus.initial_payment_verified
  | Stage.midpoint => ProjectStatus.midpoint_payment_verified
  | Stage.final => ProjectStatus.completed
  end.

Definition expectedStatuses (s : Stage.t) : ProjectStatus.t :=
  match s with
  | Stage.initial => ProjectStatus.pending_initial_payment
  | Stage.midpoint => ProjectStatus.pending_midpoint_payment
  | Stage.final => ProjectStatus.pending_final_payment
  end.

(** The project as [verifyPayment] leaves it in memory before saving it,
    when its status is the one the stage expects. *)
Definition advanceProject (clk : Clock) (userId : ObjectId) (s : Stage.t)
    (project : Project.t) : Project.t :=
  let verified :=
    Project.push_history
      (Build_HistoryEntry (stageStatusMap s) userId (now clk)
         (stageName s +:+ " payment verified"))
      (Project.set_status (stageStatusMap s) project) in
  if bool_decide (s = Stage.initial)
  then Project.push_history
         (Build_HistoryEntry ProjectStatus.in_fabrication userId (now clk)
            "Fabrication started after initial payment")
         (Project.set_fabrication_startedAt (now clk)
            (Project.set_status ProjectStatus.in_fabrication verified))
  else verified.

(** The payment as [verifyPayment] saves it. *)
Definition verifiedPayment (clk : Clock) (userId : ObjectId)
    (amountReceived : Z) (referenceNumber notes : option string)
    (receiptNumber : string) (payment : Payment.t) : Payment.t :=
  Payment.set_receipt
    {| Payment.receiptNumber := receiptNumber;
       Payment.generatedAt := now clk |}
    (Payment.push_history
       (Build_HistoryEntry PaymentStatus.verified userId (now clk)
          ("Verified - Amount: ₱" +:+ pretty amountReceived))
       (Payment.set_verification
          {| Payment.verifiedBy := userId;
             Payment.verifiedAt := now clk;
             Payment.notes := notes;
             Payment.referenceNumber := referenceNumber |}
          (Payment.set_status PaymentStatus.verified
             (Payment.set_amount_received amountReceived payment)))).

Definition verifyPayment (clk : Clock) (userId : ObjectId) (id : ObjectId)
    (amountReceived : Z) (referenceNumber notes : option string) : M Response :=
  found <- get (fun db => Model_findById (payments db) id) ;;
  match found with
  | None => throw (AppError "Payment not found" 404)
  | Some payment =>
      throwIf (negb (bool_decide (Payment.status payment = PaymentStatus.submitted)))
        (AppError "Payment is not pending verification" 400) ;;;
      receiptNumber <- Payment_generateReceiptNumber clk ;;
      Payment_save id
        (verifiedPayment clk userId amountReceived referenceNumber notes
           receiptNumber payment) ;;;
      found_project <-
        get (fun db => Model_findById (projects db) (Payment.project payment)) ;;
      match found_project with
      | None => throw (TypeError "payment.project._id")
      | Some project =>
          (if bool_decide (Project.status project = expectedStatuses (Payment.stage payment))
           then Project_save (Payment.project payment)
                  (advanceProject clk userId (Payment.stage payment) project) ;;;
                ret tt
           else ret tt) ;;;
          customer <- get (fun db => User_findById (users db) (Payment.customer payment)) ;;
          match customer with
          | None => throw (TypeError "payment.customer.email")
          | Some _ =>
              ret {| res_status := 200;
                     res_message := "Payment verified successfully" |}
          end
      end
  end.

Definition rejectPayment (clk : Clock) (userId : ObjectId) (id : ObjectId)
    (reason : string) : M Response :=
  found <- get (fun db => Model_findById (payments db) id) ;;
  match found with
  | None => throw (AppError "Payment not found" 404)
  | Some payment =>
      throwIf (negb (bool_decide (Payment.status payment = PaymentStatus.submitted)))
        (AppError "Payment is not pending verification" 400) ;;;
      Payment_save id
        (Payment.push_history
           (Build_HistoryEntry PaymentStatus.rejected userId (now clk) reason)
           (Payment.set_rejection
              {| Payment.rejectedBy := userId;
                 Payment.rejectedAt := now clk;
                 Payment.reason := reason |}
              (Payment.set_status PaymentStatus.rejected payment))) ;;;
      ret {| res_status := 200; res_message := "Payment rejected" |}
  end.

(* ===================================================================== *)
(** ** routes: the requests of the workflow and their handlers *)
(* ===================================================================== *)

Inductive Request :=
  | CreateAppointment (scheduledDate : Z) (appointmentType : AppointmentType.t)
      (siteAddress notes : option string)
  | CancelAppointment (id : ObjectId) (reason : option string)
  | CompleteAppointment (id : ObjectId) (salesNotes : option string)
  | MarkNoShow (id : ObjectId)
  | UploadBlueprint (id : ObjectId) (file : option File)
  | UploadCosting (id : ObjectId) (totalAmount : option Z) (file : option File)
  | SubmitForApproval (id : ObjectId)
  | ApproveProject (id : ObjectId)
  | UpdatePaymentStages (id : ObjectId) (initial midpoint final : Z)
  | SubmitPaymentProof (id : ObjectId) (paymentMethod : PaymentMethod.t)
      (file : option File)
  | VerifyPayment (id : ObjectId) (amountReceived : Z)
      (referenceNumber notes : option string)
  | RejectPayment (id : ObjectId) (reason : string).

Definition handle (clk : Clock) (userId : ObjectId) (userRole : Role)
    (r : Request) : M Response :=
  match r with
  | CreateAppointment scheduledDate appointmentType siteAddress notes =>
      createAppointment clk userId scheduledDate appointmentType siteAddress notes
  | CancelAppointment id reason => cancelAppointment clk userId userRole id reason
  | CompleteAppointment id salesNotes => completeAppointment clk userId id salesNotes
  | MarkNoShow id => markNoShow clk userId id
  | UploadBlueprint id file => uploadBlueprint clk userId id file
  | UploadCosting id totalAmount file => uploadCosting clk userId id totalAmount file
  | SubmitForApproval id => submitForApproval clk userId id
  | ApproveProject id => approveProject clk userId id
  | UpdatePaymentStages id initial midpoint final =>
      updatePaymentStages clk userId id initial midpoint final
  | SubmitPaymentProof id paymentMethod file =>
      submitPaymentProof clk userId id paymentMethod file
  | VerifyPayment id amountReceived referenceNumber notes =>
      verifyPayment clk userId id amountReceived referenceNumber notes
  | RejectPayment id reason => rejectPayment clk userId id reason
  end.

(* ===================================================================== *)
(** ** Predicates used in the statements *)
(* ===================================================================== *)

(** The totals and percentages whose stage amounts the doubles compute
    without rounding: the two products are safe integers, and the total
    leaves room for the two differences. *)
Definition ExactShares (t initial midpoint : Z) : Prop :=
  Z.abs t < 2 ^ 52 /\ Number.safe (t * initial) /\ Number.safe (t * midpoint).

(** No payment record refers to project [id]. *)
Definition NoPaymentsFor (id : ObjectId) (db : Db) : Prop :=
  forall k p, payments db !! k = Some p -> Payment.project p <> id.

(** Staff member [staffId] has a conflicting appointment at [date]: a
    stored appointment, not soft-deleted, assigned to that staff member
    at exactly that instant, and neither cancelled nor a no-show. *)
Definition Conflicted (staffId : ObjectId) (date : Z)
    (coll : gmap N Appointment.t) : Prop :=
  exists k a,
    coll !! k = Some a
    /\ Appointment.isDeleted a = false
    /\ Appointment.assignedSalesStaff a = Some staffId
    /\ Appointment.scheduledDate a = date
    /\ Appointment.status a <> AppointmentStatus.cancelled
    /\ Appointment.status a <> AppointmentStatus.no_show.

(** The payment record of stage [s], expecting [x], as [approveProject]
    run at [clk] creates it for project [id] of [customer]. *)
Definition pendingPayment (clk : Clock) (id customer : ObjectId)
    (s : Stage.t) (x : Z) : Payment.t :=
  {| Payment.project := id; Payment.customer := customer; Payment.stage := s;
     Payment.amount_expected := x;
     Payment.amount_received := None;
     Payment.paymentMethod := None; Payment.paymentProof := None;
     Payment.status := PaymentStatus.pending;
     Payment.verification := None; Payment.rejection := None;
     Payment.receipt := None; Payment.statusHistory := [];
     Payment.createdAt := now clk; Payment.isDeleted := false |}.

(** The aggregate a request addresses by id, if it does.  The admin's
    [updatePaymentStages] checks its percentages before it looks the
    project up. *)
Inductive Aggregate := AnAppointment | AProject | APayment.

Definition target (r : Request) : option (Aggregate * ObjectId) :=
  match r with
  | CreateAppointment _ _ _ _ => None
  | CancelAppointment id _ => Some (AnAppointment, id)
  | CompleteAppointment id _ => Some (AnAppointment, id)
  | MarkNoShow id => Some (AnAppointment, id)
  | UploadBlueprint id _ => Some (AProject, id)
  | UploadCosting id _ _ => Some (AProject, id)
  | SubmitForApproval id => Some (AProject, id)
  | ApproveProject id => Some (AProject, id)
  | UpdatePaymentStages id initial midpoint final =>
      if Number.add (Number.add initial midpoint) final =? 100
      then Some (AProject, id) else None
  | SubmitPaymentProof id _ _ => Some (APayment, id)
  | VerifyPayment id _ _ _ => Some (APayment, id)
  | RejectPayment id _ => Some (APayment, id)
  end.

Definition notFound (a : Aggregate) : Error :=
  match a with
  | AnAppointment => AppError "Appointment not found" 404
  | AProject => AppError "Project not found" 404
  | APayment => AppError "Payment not found" 404
  end.

(** The id is unknown to the collection. *)
Definition Missing (a : Aggregate) (id : ObjectId) (db : Db) : Prop :=
  match a with
  | AnAppointment => appointments db !! id = None
  | AProject => projects db !! id = None
  | APayment => payments db !! id = None
  end.

(** The id is that of a soft-deleted record. *)
Definition SoftDeleted (a : Aggregate) (id : ObjectId) (db : Db) : Prop :=
  match a with
  | AnAppointment =>
      exists d, appointments db !! id = Some d /\ Appointment.isDeleted d = true
  | AProject =>
      exists d, projects db !! id = Some d /\ Project.isDeleted d = true
  | APayment =>
      exists d, payments db !! id = Some d /\ Payment.isDeleted d = true
  end.

(** Every soft-deleted record of [db] is in [db'] as it was. *)
Definition SoftDeletedKept (db db' : Db) : Prop :=
  (forall k d, appointments db !! k = Some d -> Appointment.isDeleted d = true ->
               appointments db' !! k = Some d)
  /\ (forall k d, projects db !! k = Some d -> Project.isDeleted d = true ->
                  projects db' !! k = Some d)
  /\ (forall k d, payments db !! k = Some d -> Payment.isDeleted d = true ->
                  payments db' !! k = Some d).

(** Whether an instant lies in the calendar year the clock is in. *)
Definition inCurrentYear (clk : Clock) (t : Z) : bool :=
  (Date_of clk (getFullYear clk (now clk)) 0 1 <=? t)
  && (t <? Date_of clk (getFullYear clk (now clk) + 1) 0 1).

(** One request as it reaches the server. *)
Record Call := {
  call_clock : Clock;
  call_userId : ObjectId;
  call_userRole : Role;
  call_request : Request;
}.

(** The database after a sequence of requests, served one after the
    other. *)
Fixpoint runAll (calls : list Call) (db : Db) : Db :=
  match calls with
  | [] => db
  | c :: rest =>
      runAll rest
        (handle (call_clock c) (call_userId c) (call_userRole c) (call_request c) db).1
  end.

(* ===================================================================== *)
(** ** Concrete databases and requests used as test inputs *)
(* ===================================================================== *)

Module Scenario.
(** A server in Manila (UTC+8). *)
Definition manila : Z := 8 * msPerHour.

Definition at_ (t : Z) : Clock := {| now := t; utcOffset := manila |}.

(** Local wall-clock time [y-m-d h:00] as an instant. *)
Definition local (y m d h : Z) : Z :=
  Date_of (at_ 0) y (m - 1) d + h * msPerHour.

Definition customerId : ObjectId := 1%N.
Definition salesId : ObjectId := 2%N.
Definition engineerId : ObjectId := 3%N.
Definition cashierId : ObjectId := 4%N.

Definition user (id : ObjectId) (r : Role) (first : string) : User.t :=
  {| User._id := id; User.role := r; User.isActive := true;
     User.firstName := first; User.lastName := "Reyes";
     User.isDeleted := false |}.

(** A project as the sales staff leave it after a consultation: a
    draft without blueprint or costing. *)
Definition draftProject : Project.t :=
  {| Project.customer := customerId;
     Project.status := ProjectStatus.draft;
     Project.blueprint_currentVersion := 0;
     Project.costing_currentVersion := 0;
     Project.costing_versions := [];
     Project.costing_approvedAmount := None;
     Project.customerApproval :=
       {| Project.isApproved := false;
          Project.approvedAt := None;
          Project.approvedVersion := None |};
     Project.paymentStages := Project.defaultPaymentStages;
     Project.fabrication_startedAt := None;
     Project.statusHistory :=
       [Build_HistoryEntry ProjectStatus.draft salesId (local 2023 12 1 9)
          "Project created from consultation"];
     Project.isDeleted := false |}.

Definition projectId : ObjectId := 0%N.
Definition secondProjectId : ObjectId := 1%N.

Definition db0 : Db :=
  {| users := [user customerId CUSTOMER "Ana"; user salesId SALES_STAFF "Ben";
               user engineerId ENGINEER "Carl"; user cashierId CASHIER "Dina"];
     appointments := ∅;
     projects := <[secondProjectId := draftProject]> {[projectId := draftProject]};
     payments := ∅ |}.

Definition someFile : File :=
  {| filename := "f.pdf"; originalname := "f.pdf"; path := "uploads/f.pdf" |}.

(** The database after running a handler, whatever it answered. *)
Definition after {A : Type} (m : M A) (db : Db) : Db := (m db).1.

(** A project taken through the regular flow up to the customer's
    decision, with a costing of [total]. *)
Definition awaitingApproval (total : option Z) : Db :=
  let t := local 2023 12 1 10 in
  after (submitForApproval (at_ t) engineerId projectId)
    (after (uploadCosting (at_ t) engineerId projectId total (Some someFile))
       (after (uploadBlueprint (at_ t) engineerId projectId (Some someFile)) db0)).

Definition approvalTime : Z := local 2023 12 10 10.

(** A project document whose approved amount is [total], with the
    default 30/40/30 split and no stage amount yet. *)
Definition projectWith (st : ProjectStatus.t) (total : option Z) : Project.t :=
  {| Project.customer := customerId;
     Project.status := st;
     Project.blueprint_currentVersion := 1;
     Project.costing_currentVersion := 1;
     Project.costing_versions :=
       [{| Project.version := 1; Project.totalAmount := total |}];
     Project.costing_approvedAmount := total;
     Project.customerApproval :=
       {| Project.isApproved := true;
          Project.approvedAt := Some approvalTime;
          Project.approvedVersion := Some (1, 1) |};
     Project.paymentStages := Project.defaultPaymentStages;
     Project.fabrication_startedAt := None;
     Project.statusHistory := [];
     Project.isDeleted := false |}.

Definition approved (total : option Z) : Db :=
  after (approveProject (at_ approvalTime) customerId projectId)
        (awaitingApproval total).

(** The engineer revises the costing of an approved project and submits
    it again; the customer is asked a second time. *)
Definition resubmitted : Db :=
  let t := local 2023 12 20 10 in
  after (submitForApproval (at_ t) engineerId projectId)
    (after (uploadCosting (at_ t) engineerId projectId (Some 120000) (Some someFile))
       (approved (Some 100000))).

Definition secondApprovalTime : Z := local 2023 12 21 10.

(** The payments of the project approved in December 2023, in the order
    of their creation. *)
Definition initialPaymentId : ObjectId := 0%N.
Definition midpointPaymentId : ObjectId := 1%N.
Definition finalPaymentId : ObjectId := 2%N.

(** In January 2024 the customer uploads the proofs of the first two
    payments, and the cashier verifies them on two different days. *)
Definition proofsSubmitted : Db :=
  after (submitPaymentProof (at_ (local 2024 1 10 11)) customerId midpointPaymentId
           PaymentMethod.gcash (Some someFile))
    (after (submitPaymentProof (at_ (local 2024 1 10 10)) customerId initialPaymentId
              PaymentMethod.gcash (Some someFile))
       (approved (Some 100000))).

Definition firstVerification : Clock := at_ (local 2024 1 15 10).
Definition secondVerification : Clock := at_ (local 2024 1 20 10).

Definition firstVerified : Db :=
  after (verifyPayment firstVerification cashierId initialPaymentId 30000 None None)
        proofsSubmitted.

Definition secondVerified : Db :=
  after (verifyPayment secondVerification cashierId midpointPaymentId 40000 None None)
        firstVerified.

(** The customer also uploads the proof of the final payment while the
    project is still in fabrication. *)
Definition finalProofSubmitted : Db :=
  after (submitPaymentProof (at_ (local 2024 2 1 10)) customerId finalPaymentId
           PaymentMethod.bank_transfer (Some someFile))
        secondVerified.

(** The same database with the project moved on to
    [pending_final_payment] by the staff. *)
Definition awaitingFinalPayment : Db :=
  with_projects
    (alter (Project.set_status ProjectStatus.pending_final_payment) projectId
       (projects finalProofSubmitted))
    finalProofSubmitted.

Definition finalVerification : Clock := at_ (local 2024 2 3 10).

(** The cashier rejects the proof of the midpoint payment. *)
Definition midpointRejected : Db :=
  after (rejectPayment (at_ (local 2024 1 12 10)) cashierId midpointPaymentId
           "Amount not readable")
        proofsSubmitted.

(** A record of the payment collection flagged as deleted. *)
Definition softDeletePayment (id : ObjectId) (db : Db) : Db :=
  with_payments (alter (Payment.set_isDeleted true) id (payments db)) db.

(** The second project of the same customer, approved, paid and
    verified within February 2024; the record of its initial payment is
    then soft-deleted. *)
Definition secondInitialPaymentId : ObjectId := 3%N.

Definition secondProjectVerified : Db :=
  after (verifyPayment (at_ (local 2024 2 6 10)) cashierId secondInitialPaymentId
           30000 None None)
    (after (submitPaymentProof (at_ (local 2024 2 5 10)) customerId
              secondInitialPaymentId PaymentMethod.gcash (Some someFile))
       (after (approveProject (at_ (local 2024 2 2 10)) customerId secondProjectId)
          (after (submitForApproval (at_ (local 2024 2 1 10)) engineerId secondProjectId)
             (after (uploadCosting (at_ (local 2024 2 1 10)) engineerId secondProjectId
                       (Some 100000) (Some someFile))
                (after (uploadBlueprint (at_ (local 2024 2 1 10)) engineerId
                          secondProjectId (Some someFile))
                   (approved (Some 100000))))))).

Definition withDeletedPayment : Db :=
  softDeletePayment secondInitialPaymentId secondProjectVerified.

(** An ocular visit booked for 2024-03-01 10:00, and the same slot asked
    for a second time. *)
Definition visitTime : Z := local 2024 3 1 10.
Definition bookingClock : Clock := at_ (local 2024 2 20 10).

Definition book : M Response :=
  createAppointment bookingClock customerId visitTime AppointmentType.ocular_visit
    (Some "12 Rizal St") None.

Definition appointmentId : ObjectId := newId (appointments db0).

Definition booked : Db := after book db0.

Definition bookedTwice : Db := after book booked.

(** The visit takes place and the assigned staff member completes it. *)
Definition visitCompleted : Db :=
  after (completeAppointment (at_ (local 2024 3 1 11)) salesId appointmentId
           (Some "Measured the gate opening"))
        booked.
End Scenario.

(* ===================================================================== *)
(** ** models/Appointment.js: the slot list and the cancellation virtual *)
(* ===================================================================== *)

(** [d.setHours(h, 0, 0, 0)]: [h] o'clock on the local day of [d]. *)
Definition setHours0 (clk : Clock) (t h : Z) : Z :=
  (t + utcOffset clk) / msPerDay * msPerDay - utcOffset clk + h * msPerHour.

(** The virtual [canBeCancelled]. *)
Definition canBeCancelled (clk : Clock) (a : Appointment.t) : bool :=
  if bool_decide (Appointment.status a = AppointmentStatus.cancelled)
     || bool_decide (Appointment.status a = AppointmentStatus.completed)
     || bool_decide (Appointment.status a = AppointmentStatus.no_show)
  then false
  else
    let cutoffTime :=
      addHours (Appointment.scheduledDate a)
               (- config.business.cancellationCutoffHours) in
    now clk <? cutoffTime.

Module Slot.
Record t := {
  start : Z;
  end_ : Z;
  isAvailable : bool;
}.
End Slot.

(** The query of [findAvailableSlots]: the appointments of that staff
    member on that day's business hours, neither cancelled nor no-show,
    with [isDeleted: false]. *)
Definition bookedAppointments (clk : Clock) (date : Z) (salesStaffId : ObjectId)
    (coll : gmap N Appointment.t) : list (N * Appointment.t) :=
  let startOfDay := setHours0 clk date config.business.appointmentHours_start in
  let endOfDay := setHours0 clk date config.business.appointmentHours_end in
  Model_find
    (fun _ a =>
       match Appointment.assignedSalesStaff a with
       | Some s => (s =? salesStaffId)%N
       | None => false
       end
       && (startOfDay <=? Appointment.scheduledDate a)
       && (Appointment.scheduledDate a <? endOfDay)
       && negb (bool_decide (Appointment.status a = AppointmentStatus.cancelled))
       && negb (bool_decide (Appointment.status a = AppointmentStatus.no_show))
       && negb (Appointment.isDeleted a))
    coll.

(** The loop [while (currentSlot < endOfDay)]; [fuel] bounds the number
    of its rounds. *)
Fixpoint slotsLoop (fuel : nat) (booked : list (N * Appointment.t))
    (currentSlot endOfDay : Z) : list Slot.t :=
  match fuel with
  | O => []
  | S fuel' =>
      if currentSlot <? endOfDay
      then
        let slotEnd := addMinutes currentSlot config.business.slotDurationMinutes in
        let isBooked :=
          existsb (fun kv => Appointment.scheduledDate kv.2 =? currentSlot) booked in
        {| Slot.start := currentSlot;
           Slot.end_ := slotEnd;
           Slot.isAvailable := negb isBooked |}
        :: slotsLoop fuel' booked slotEnd endOfDay
      else []
  end.

(** Every round moves [currentSlot] on by one slot, so the loop has no
    more rounds than slots fit between the two hours, rounded up. *)
Definition slotRounds (startOfDay endOfDay : Z) : nat :=
  Z.to_nat ((endOfDay - startOfDay) / (config.business.slotDurationMinutes * 60000)) + 1.

(** The static [Appointment.findAvailableSlots(date, salesStaffId)]. *)
Definition findAvailableSlots (clk : Clock) (date : Z) (salesStaffId : ObjectId)
    (coll : gmap N Appointment.t) : list Slot.t :=
  let startOfDay := setHours0 clk date config.business.appointmentHours_start in
  let endOfDay := setHours0 clk date config.business.appointmentHours_end in
  slotsLoop (slotRounds startOfDay endOfDay)
    (bookedAppointments clk date salesStaffId coll) startOfDay endOfDay.

(* ===================================================================== *)
(** ** controllers/appointmentController.js: slots and assignment *)
(* ===================================================================== *)

(** One element of the [availability] answer. *)
Record StaffSlots := {
  salesStaff_id : ObjectId;
  salesStaff_name : string;
  slots : list Slot.t;
}.

Inductive SlotsAnswer :=
  | Availability (availability : list StaffSlots)
  | Slots (slots : list Slot.t).

(** [date] is the query parameter as [new Date(date)] reads it; a
    string that is no date is outside the model. *)
Definition getAvailableSlots (clk : Clock) (date : option Z)
    (salesStaffId : option ObjectId) : M SlotsAnswer :=
  match date with
  | None => throw (AppError "Date is required" 400)
  | Some targetDate =>
      match salesStaffId with
      | None =>
          salesStaffList <- get (fun db => activeSalesStaff (users db)) ;;
          get (fun db =>
            Availability
              (List.map
                 (fun staff =>
                    {| salesStaff_id := User._id staff;
                       salesStaff_name :=
                         User.firstName staff +:+ " " +:+ User.lastName staff;
                       slots := findAvailableSlots clk targetDate (User._id staff)
                                  (appointments db) |})
                 salesStaffList))
      | Some staffId =>
          get (fun db =>
            Slots (findAvailableSlots clk targetDate staffId (appointments db)))
      end
  end.

(** [appointment.assignedSalesStaff = salesStaffId] *)
Definition Appointment_set_assignedSalesStaff (s : ObjectId)
    (a : Appointment.t) : Appointment.t :=
  {| Appointment.customer := Appointment.customer a;
     Appointment.assignedSalesStaff := Some s;
     Appointment.scheduledDate := Appointment.scheduledDate a;
     Appointment.scheduledEndDate := Appointment.scheduledEndDate a;
     Appointment.appointmentType := Appointment.appointmentType a;
     Appointment.siteAddress := Appointment.siteAddress a;
     Appointment.status := Appointment.status a;
     Appointment.cancellation := Appointment.cancellation a;
     Appointment.customerNotes := Appointment.customerNotes a;
     Appointment.salesNotes := Appointment.salesNotes a;
     Appointment.convertedToProject := Appointment.convertedToProject a;
     Appointment.statusHistory := Appointment.statusHistory a;
     Appointment.isDeleted := Appointment.isDeleted a |}.

(** [User.findOne(cond)] *)
Definition User_findOne (cond : User.t -> bool) (us : list User.t) : option User.t :=
  List.find (fun u => cond u && softDeleteWhere Q_findOne false u) us.

Arguments User_findOne : simpl never.

(** The conflict query of the assignment: as the one of the booking,
    without the appointment that is being assigned. *)
Definition conflictingAppointment (salesStaffId : ObjectId) (date : Z)
    (id : ObjectId) (coll : gmap N Appointment.t) : option (N * Appointment.t) :=
  Model_findOne
    (fun k a =>
       match Appointment.assignedSalesStaff a with
       | Some s => (s =? salesStaffId)%N
       | None => false
       end
       && (Appointment.scheduledDate a =? date)
       && negb (bool_decide (Appointment.status a = AppointmentStatus.cancelled))
       && negb (bool_decide (Appointment.status a = AppointmentStatus.no_show))
       && negb (k =? id)%N)
    coll.

(** The agent's note ([notes.agentNotes]) is stored and never read; as
    with the files of a blueprint, the record has no field for it. *)
Definition assignSalesStaff (clk : Clock) (userId : ObjectId) (id : ObjectId)
    (salesStaffId : ObjectId) : M Response :=
  found <- get (fun db => Model_findById (appointments db) id) ;;
  match found with
  | None => throw (AppError "Appointment not found" 404)
  | Some appointment =>
      throwIf (negb (bool_decide (Appointment.status appointment = AppointmentStatus.pending)))
        (AppError "Appointment has already been assigned" 400) ;;;
      salesStaff <-
        get (fun db =>
          User_findOne
            (fun u => (User._id u =? salesStaffId)%N
                      && bool_decide (User.role u = SALES_STAFF)
                      && User.isActive u)
            (users db)) ;;
      match salesStaff with
      | None => throw (AppError "Sales staff not found" 404)
      | Some staff =>
          conflict <-
            get (fun db =>
              conflictingAppointment salesStaffId
                (Appointment.scheduledDate appointment) id (appointments db)) ;;
          match conflict with
          | Some _ =>
              throw (AppError "Sales staff already has an appointment at this time" 400)
          | None =>
              Appointment_save id
                (Appointment.push_history
                   (Build_HistoryEntry AppointmentStatus.scheduled userId (now clk)
                      ("Assigned to " +:+ User.firstName staff +:+ " "
                       +:+ User.lastName staff))
                   (Appointment.set_status AppointmentStatus.scheduled
                      (Appointment_set_assignedSalesStaff salesStaffId appointment))) ;;;
              customer <-
                get (fun db => User_findById (users db) (Appointment.customer appointment)) ;;
              match customer with
              | None => throw (TypeError "appointment.customer.email")
              | Some _ =>
                  ret {| res_status := 200;
                         res_message := "Sales staff assigned successfully" |}
              end
          end
      end
  end.

(* ===================================================================== *)
(** ** controllers/paymentController.js: the payments of a project *)
(* ===================================================================== *)

(** The order of [.sort({ stage: 1 })]: the stage is stored as a string,
    and strings sort by their code units.  Among documents of the same
    stage MongoDB promises no order; the statements about this list are
    about lists without such ties. *)
Definition stageOrder (x y : N * Payment.t) : Prop :=
  String.leb (stageName (Payment.stage x.2)) (stageName (Payment.stage y.2)) = true.

Global Instance stageOrder_dec (x y : N * Payment.t) : Decision (stageOrder x y).
Proof. unfold stageOrder. apply _. Defined.

Definition getProjectPayments (userId : ObjectId) (userRole : Role)
    (projectId : ObjectId) : M (list (N * Payment.t)) :=
  found <- get (fun db => Model_findById (projects db) projectId) ;;
  match found with
  | None => throw (AppError "Project not found" 404)
  | Some project =>
      throwIf (bool_decide (userRole = CUSTOMER)
               && negb (Project.customer project =? userId)%N)
        (AppError "Access denied" 403) ;;;
      get (fun db =>
        merge_sort stageOrder
          (Model_find (fun _ p => (Payment.project p =? projectId)%N) (payments db)))
  end.

(* ===================================================================== *)
(** ** Further predicates used in the statements *)
(* ===================================================================== *)

(** An appointment that takes up its slot: stored, not soft-deleted,
    and neither cancelled nor a no-show. *)
Definition occupies (a : Appointment.t) : Prop :=
  Appointment.isDeleted a = false
  /\ Appointment.status a <> AppointmentStatus.cancelled
  /\ Appointment.status a <> AppointmentStatus.no_show.

(** No sales staff member has two appointments that take up the same
    instant. *)
Definition NoDoubleBooking (coll : gmap N Appointment.t) : Prop :=
  forall k1 k2 a1 a2 s,
    coll !! k1 = Some a1 -> coll !! k2 = Some a2 ->
    occupies a1 -> occupies a2 ->
    Appointment.assignedSalesStaff a1 = Some s ->
    Appointment.assignedSalesStaff a2 = Some s ->
    Appointment.scheduledDate a1 = Appointment.scheduledDate a2 ->
    k1 = k2.

(** The status of an appointment at the end of its life. *)
Definition terminal (s : AppointmentStatus.t) : Prop :=
  s = AppointmentStatus.cancelled \/ s = AppointmentStatus.completed
  \/ s = AppointmentStatus.no_show.

(** The instant is the start of a full local hour. *)
Definition onTheHour (clk : Clock) (t : Z) : Prop :=
  (t + utcOffset clk) mod msPerHour = 0.

(** Whether a slot list offers the slot that starts at [date]. *)
Definition offers (l : list Slot.t) (date : Z) : bool :=
  existsb (fun s => (Slot.start s =? date) && Slot.isAvailable s) l.

(** At most one payment per project and stage. *)
Definition UniqueStage (coll : gmap N Payment.t) : Prop :=
  forall k1 k2 p1 p2,
    coll !! k1 = Some p1 -> coll !! k2 = Some p2 ->
    Payment.project p1 = Payment.project p2 ->
    Payment.stage p1 = Payment.stage p2 ->
    k1 = k2.

(** The status changes of a payment that the handlers perform. *)
Inductive PaymentMove : PaymentStatus.t -> PaymentStatus.t -> Prop :=
  | move_stay s : PaymentMove s s
  | move_submit s : s <> PaymentStatus.verified -> PaymentMove s PaymentStatus.submitted
  | move_verify : PaymentMove PaymentStatus.submitted PaymentStatus.verified
  | move_reject : PaymentMove PaymentStatus.submitted PaymentStatus.rejected.

(** The records of a payment collection are consistent with their
    status. *)
Definition Consistent (p : Payment.t) : Prop :=
  (Payment.status p = PaymentStatus.verified <-> is_Some (Payment.receipt p))
  /\ (Payment.status p = PaymentStatus.verified ->
      is_Some (Payment.amount_received p) /\ is_Some (Payment.verification p))
  /\ (Payment.status p = PaymentStatus.submitted -> is_Some (Payment.paymentProof p))
  /\ (Payment.status p = PaymentStatus.rejected -> is_Some (Payment.rejection p)).

(** The slot of one hour that starts at [start], as [findAvailableSlots]
    reports it against the appointments [booked]. *)
Definition slotAt (booked : list (N * Appointment.t)) (start : Z) : Slot.t :=
  {| Slot.start := start;
     Slot.end_ := start + msPerHour;
     Slot.isAvailable :=
       negb (existsb (fun kv => Appointment.scheduledDate kv.2 =? start) booked) |}.

(** The hours at which a slot starts. *)
Definition slotHours : list Z := [9; 10; 11; 12; 13; 14; 15; 16; 17].

(** The status changes of an appointment that the handlers of the
    workflow perform. *)
Inductive AppointmentMove : AppointmentStatus.t -> AppointmentStatus.t -> Prop :=
  | move_cancel s : ~ terminal s -> AppointmentMove s AppointmentStatus.cancelled
  | move_complete s :
      s = AppointmentStatus.scheduled \/ s = AppointmentStatus.confirmed
      \/ s = AppointmentStatus.in_progress ->
      AppointmentMove s AppointmentStatus.completed
  | move_no_show s : AppointmentMove s AppointmentStatus.no_show.

(** Two appointment documents that differ at most in what a status
    change writes: status, cancellation, sales notes and history. *)
Definition sameVisit (a a' : Appointment.t) : Prop :=
  Appointment.customer a' = Appointment.customer a
  /\ Appointment.assignedSalesStaff a' = Appointment.assignedSalesStaff a
  /\ Appointment.scheduledDate a' = Appointment.scheduledDate a
  /\ Appointment.scheduledEndDate a' = Appointment.scheduledEndDate a
  /\ Appointment.appointmentType a' = Appointment.appointmentType a
  /\ Appointment.isDeleted a' = Appointment.isDeleted a.

(** A user the agent may assign: stored and not soft-deleted, active,
    with the role of sales staff. *)
Definition AssignableStaff (us : list User.t) (id : ObjectId) : Prop :=
  exists u,
    In u us /\ User._id u = id /\ User.role u = SALES_STAFF
    /\ User.isActive u = true /\ User.isDeleted u = false.

(** What one request can do to a stored payment: rewrite the expected
    amount, take a proof, verify, or reject; each as the handler that
    does it writes the record. *)
Inductive PaymentStep : Payment.t -> Payment.t -> Prop :=
  | step_expected p x : PaymentStep p (Payment.set_amount_expected x p)
  | step_submit p clk userId paymentMethod f :
      Payment.status p <> PaymentStatus.verified ->
      PaymentStep p
        (Payment.push_history
           (Build_HistoryEntry PaymentStatus.submitted userId (now clk)
              ("Payment proof submitted via " +:+ paymentMethodName paymentMethod))
           (Payment.set_status PaymentStatus.submitted
              (Payment.set_paymentMethod paymentMethod
                 (Payment.set_paymentProof
                    {| Payment.proof_file := f; Payment.uploadedAt := now clk |} p))))
  | step_verify p clk userId amountReceived referenceNumber notes receiptNumber :
      Payment.status p = PaymentStatus.submitted ->
      PaymentStep p
        (verifiedPayment clk userId amountReceived referenceNumber notes receiptNumber p)
  | step_reject p clk userId reason :
      Payment.status p = PaymentStatus.submitted ->
      PaymentStep p
        (Payment.push_history
           (Build_HistoryEntry PaymentStatus.rejected userId (now clk) reason)
           (Payment.set_rejection
              {| Payment.rejectedBy := userId;
                 Payment.rejectedAt := now clk;
                 Payment.reason := reason |}
              (Payment.set_status PaymentStatus.rejected p))).

(** Two payment documents of the same obligation: same project,
    customer and stage, created at the same instant, with the same
    soft-delete flag. *)
Definition samePayment (p p' : Payment.t) : Prop :=
  Payment.project p' = Payment.project p
  /\ Payment.customer p' = Payment.customer p
  /\ Payment.stage p' = Payment.stage p
  /\ Payment.createdAt p' = Payment.createdAt p
  /\ Payment.isDeleted p' = Payment.isDeleted p.

(** One stored payment given another expected amount. *)
Definition ExpectedUpdate (coll coll' : gmap N Payment.t) : Prop :=
  exists k p x, coll !! k = Some p /\ coll' = <[k := Payment.set_amount_expected x p]> coll.

(** The payment of project [proj] and stage [s] with the expected
    amount [v]; every other payment as it is. *)
Definition withExpected (proj : ObjectId) (s : Stage.t) (v : Z) (p : Payment.t) : Payment.t :=
  if bool_decide (Payment.project p = proj /\ Payment.stage p = s)
  then Payment.set_amount_expected v p else p.

(** A payment of project [proj] with the expected amount of its stage
    taken from [amounts]; every other payment as it is. *)
Definition withStageAmount (proj : ObjectId) (amounts : Stage.t -> Z)
    (p : Payment.t) : Payment.t :=
  if bool_decide (Payment.project p = proj)
  then Payment.set_amount_expected (amounts (Payment.stage p)) p else p.

(** What one request can write to a stored project, each as the handler
    that does it hands the document to [save]. *)
Inductive ProjectWrite : Project.t -> Project.t -> Prop :=
  | write_blueprint q :
      ProjectWrite q
        (Project.set_blueprint_currentVersion (Project.blueprint_currentVersion q + 1) q)
  | write_costing q totalAmount :
      ProjectWrite q
        (Project.push_costing
           {| Project.version := Project.costing_currentVersion q + 1;
              Project.totalAmount := totalAmount |} q)
  | write_status q (e : HistoryEntry ProjectStatus.t) :
      ProjectWrite q (Project.push_history e (Project.set_status (h_status e) q))
  | write_approval q latest approval :
      last (Project.costing_versions q) = Some latest ->
      ProjectWrite q
        (Project.set_costing_approvedAmount (Project.totalAmount latest)
           (Project.set_customerApproval approval q))
  | write_percentages q initial midpoint final :
      Number.add (Number.add initial midpoint) final = 100 ->
      ProjectWrite q
        (Project.set_paymentStages
           (Project.set_percentages initial midpoint final (Project.paymentStages q)) q)
  | write_amounts q total :
      Project.costing_approvedAmount q = Some total ->
      ProjectWrite q
        (Project.set_paymentStages
           (Project.stageAmounts total (Project.paymentStages q)) q)
  | write_started q d :
      ProjectWrite q (Project.set_fabrication_startedAt d q).



(** The costing versions of a project are numbered 1, 2, ... in the
    order of their upload, and [costing.currentVersion] is their
    count. *)
Definition CostingsNumbered (q : Project.t) : Prop :=
  List.map Project.version (Project.costing_versions q)
  = List.map (fun i : nat => Z.of_nat i) (seq 1 (length (Project.costing_versions q)))
  /\ Project.costing_currentVersion q = Z.of_nat (length (Project.costing_versions q)).

(** A stored project rewritten by a request: some writes, then the
    pre-save hook. *)
Definition Saved (q q' : Project.t) : Prop :=
  exists r, rtc ProjectWrite q r /\ q' = Project.preSave r.

(* ===================================================================== *)
(** ** Further concrete inputs *)
(* ===================================================================== *)

Module Cases.
(** An office consultation booked for 2024-03-01 10:00. *)
Definition consultation : Db :=
  Scenario.after
    (createAppointment Scenario.bookingClock Scenario.customerId Scenario.visitTime
       AppointmentType.office_consultation None None)
    Scenario.db0.

(** A database whose user records are gone. *)
Definition withoutUsers (db : Db) : Db :=
  {| users := []; appointments := appointments db;
     projects := projects db; payments := payments db |}.

(** The requests that take the first project of [Scenario.db0] from the
    draft to its approval, with a costing of 100000. *)
Definition approvalCalls : list Call :=
  let t := Scenario.at_ (Scenario.local 2023 12 1 10) in
  [ {| call_clock := t; call_userId := Scenario.engineerId; call_userRole := ENGINEER;
       call_request := UploadBlueprint Scenario.projectId (Some Scenario.someFile) |};
    {| call_clock := t; call_userId := Scenario.engineerId; call_userRole := ENGINEER;
       call_request :=
         UploadCosting Scenario.projectId (Some 100000) (Some Scenario.someFile) |};
    {| call_clock := t; call_userId := Scenario.engineerId; call_userRole := ENGINEER;
       call_request := SubmitForApproval Scenario.projectId |};
    {| call_clock := Scenario.at_ Scenario.approvalTime;
       call_userId := Scenario.customerId; call_userRole := CUSTOMER;
       call_request := ApproveProject Scenario.projectId |} ].

(** Two bookings of the same ocular visit, a cancellation and a
    no-show. *)
Definition visitCalls : list Call :=
  let book :=
    {| call_clock := Scenario.bookingClock; call_userId := Scenario.customerId;
       call_userRole := CUSTOMER;
       call_request :=
         CreateAppointment Scenario.visitTime AppointmentType.ocular_visit
           (Some "12 Rizal St") None |} in
  [ book; book;
    {| call_clock := Scenario.at_ (Scenario.local 2024 2 25 9);
       call_userId := Scenario.customerId; call_userRole := CUSTOMER;
       call_request := CancelAppointment Scenario.appointmentId None |};
    {| call_clock := Scenario.at_ (Scenario.local 2024 3 1 11);
       call_userId := Scenario.salesId; call_userRole := SALES_STAFF;
       call_request := MarkNoShow Scenario.appointmentId |} ].

(** An approved project of 100000 with its three payments. *)
Definition initialPayment : Payment.t :=
  pendingPayment (Scenario.at_ Scenario.approvalTime) Scenario.projectId
    Scenario.customerId Stage.initial 30000.

Definition midpointPayment : Payment.t :=
  pendingPayment (Scenario.at_ Scenario.approvalTime) Scenario.projectId
    Scenario.customerId Stage.midpoint 40000.

Definition finalPayment : Payment.t :=
  pendingPayment (Scenario.at_ Scenario.approvalTime) Scenario.projectId
    Scenario.customerId Stage.final 30000.

Definition paid : Db :=
  {| users := users Scenario.db0;
     appointments := ∅;
     projects :=
       {[Scenario.projectId :=
           Scenario.projectWith ProjectStatus.pending_initial_payment (Some 100000)]};
     payments :=
       <[Scenario.finalPaymentId := finalPayment]>
         (<[Scenario.midpointPaymentId := midpointPayment]>
            {[Scenario.initialPaymentId := initialPayment]}) |}.
End Cases.

(* ===================================================================== *)
(** * Properties *)
(* ===================================================================== *)

(** ** Rounding *)

(** [Math_round_div n d] is the integer nearest to [n / d], a half going
    up. *)
Lemma Math_round_div_spec (n d : Z) :
  0 < d ->
  d * (2 * Math_round_div n d - 1) <= 2 * n < d * (2 * Math_round_div n d + 1).
Proof.
  intros Hd. unfold Math_round_div.
  pose proof (Z.div_mod (2 * n + d) (2 * d) ltac:(lia)) as Hdiv.
  pose proof (Z.mod_pos_bound (2 * n + d) (2 * d) ltac:(lia)) as Hmod.
  nia.
Qed.

Ltac safe_lia :=
  unfold Number.safe; change (2 ^ 53) with 9007199254740992; lia.

Lemma nearestEven_spec (n d : Z) :
  0 < d -> - d <= 2 * (d * Number.nearestEven n d - n) <= d.
Proof.
  intros Hd. unfold Number.nearestEven.
  pose proof (Z.div_mod n d ltac:(lia)) as Hdiv.
  pose proof (Z.mod_pos_bound n d Hd) as Hmod.
  repeat case_match; try (apply Z.ltb_lt in H); try (apply Z.ltb_ge in H);
    try (apply Z.ltb_lt in H0); try (apply Z.ltb_ge in H0); nia.
Qed.

(** A safe integer is a double. *)
Lemma roundZ_safe (z : Z) : Number.safe z -> Number.roundZ z = z.
Proof.
  unfold Number.safe, Number.roundZ. intros H.
  rewrite (proj2 (Z.ltb_lt _ _) H). reflexivity.
Qed.

(** Rounding to a double does not take a whole number across 2^53. *)
Lemma roundZ_large (z : Z) : 2 ^ 53 <= Z.abs z -> 2 ^ 53 <= Z.abs (Number.roundZ z).
Proof.
  intros Hz. unfold Number.roundZ.
  rewrite (proj2 (Z.ltb_ge _ _) Hz).
  set (e := Z.log2 (Z.abs z) - 52).
  assert (Hlog : 53 <= Z.log2 (Z.abs z)) by (apply Z.log2_le_pow2; lia).
  assert (He : 1 <= e) by (unfold e; lia).
  pose proof (Z.log2_spec (Z.abs z) ltac:(lia)) as [Hlow _].
  replace (Z.log2 (Z.abs z)) with (52 + e) in Hlow by (unfold e; lia).
  rewrite Z.pow_add_r in Hlow by lia.
  assert (HP : 2 <= 2 ^ e).
  { change 2 with (2 ^ 1) at 1. apply Z.pow_le_mono_r; lia. }
  pose proof (nearestEven_spec z (2 ^ e) ltac:(lia)) as Hn.
  set (n := Number.nearestEven z (2 ^ e)) in *.
  set (P := 2 ^ e) in *.
  assert (Hn52 : 2 ^ 52 <= Z.abs n) by nia.
  rewrite Z.abs_mul, (Z.abs_eq P) by lia.
  change (2 ^ 53) with (2 ^ 52 * 2). nia.
Qed.

(** So a sum is the safe integer [c] as a double exactly when it is [c]. *)
Lemma roundZ_eq (z c : Z) : Number.safe c -> Number.roundZ z = c <-> z = c.
Proof.
  unfold Number.safe. intros Hc.
  destruct (Z.lt_ge_cases (Z.abs z) (2 ^ 53)) as [Hz | Hz].
  - rewrite roundZ_safe by exact Hz. reflexivity.
  - pose proof (roundZ_large z Hz). split; intros H0; subst; lia.
Qed.

Lemma floorLog2_le (n d : Z) : Number.floorLog2 n d <= Z.log2 n - Z.log2 d.
Proof. unfold Number.floorLog2. case_match; lia. Qed.

Lemma floorLog2_ge (n d : Z) : Z.log2 n - Z.log2 d - 1 <= Number.floorLog2 n d.
Proof. unfold Number.floorLog2. case_match; lia. Qed.

(** Of a safe integer the quotient by 100 is rounded to a grid of 1/64
    or finer, never across a half: [Math.round] gives the whole number
    nearest to the exact quotient. *)
Lemma Math_round_div_100 (p : Z) :
  Number.safe p ->
  Number.Math_round (Number.div p 100) = Math_round_div p 100.
Proof.
  unfold Number.safe. intros Hp.
  unfold Number.div. destruct (Z.eqb_spec p 0) as [-> | Hne]; [reflexivity |].
  set (e := Z.max (Number.floorLog2 (Z.abs p) 100 - 52) (-1074)).
  assert (Hlog : 0 <= Z.log2 (Z.abs p) <= 52).
  { split; [apply Z.log2_nonneg |].
    assert (Z.log2 (Z.abs p) < 53); [| lia].
    apply Z.log2_lt_pow2; lia. }
  assert (Hlog100 : Z.log2 100 = 6) by reflexivity.
  assert (He : -1074 <= e <= -6).
  { pose proof (floorLog2_le (Z.abs p) 100). pose proof (floorLog2_ge (Z.abs p) 100).
    unfold e. lia. }
  unfold Number.Math_round. simpl Number.expo. simpl Number.mant.
  rewrite (proj2 (Z.leb_gt _ _)) by lia.
  unfold Number.shl. rewrite (Z.max_l 0 e), (Z.max_r 0 (- e)) by lia.
  rewrite Z.pow_0_r, Z.mul_1_r.
  set (s := - e). assert (Hs : 6 <= s) by (unfold s; lia).
  replace (1 - e) with (s + 1) by (unfold s; lia).
  set (H := 2 ^ (s - 1)).
  assert (HH : 32 <= H).
  { unfold H. change 32 with (2 ^ 5). apply Z.pow_le_mono_r; lia. }
  assert (HP : 2 ^ s = 2 * H).
  { unfold H. rewrite <- Z.pow_succ_r by lia. f_equal. lia. }
  assert (HP1 : 2 ^ (s + 1) = 2 * (2 * H)).
  { rewrite <- HP, <- Z.pow_succ_r by lia. reflexivity. }
  rewrite HP1, HP.
  pose proof (nearestEven_spec (p * (2 * H)) 100 ltac:(lia)) as Hm.
  set (m := Number.nearestEven (p * (2 * H)) 100) in *.
  unfold Math_round_div.
  set (k := (2 * p + 100) / (2 * 100)).
  pose proof (Z.div_mod (2 * p + 100) (2 * 100) ltac:(lia)) as Hdiv.
  pose proof (Z.mod_pos_bound (2 * p + 100) (2 * 100) ltac:(lia)) as Hmod.
  fold k in Hdiv.
  symmetry. apply Z.div_unique with (r := 2 * m + 2 * H - 2 * (2 * H) * k).
  - left. nia.
  - lia.
Qed.

(** The share of a stage, where the product is a safe integer. *)
Lemma share_exact (t pct : Z) :
  Number.safe (t * pct) -> Project.share t pct = Math_round_div (t * pct) 100.
Proof.
  intros Hsafe. unfold Project.share, Number.mul.
  rewrite roundZ_safe by exact Hsafe. apply Math_round_div_100. exact Hsafe.
Qed.

(** The amounts of the three stages, where the doubles are exact: the
    first two rounded, the last one what is left of the total. *)
Lemma stageAmounts_exact (t : Z) (ps : Project.PaymentStages) :
  ExactShares t (Project.percentage (Project.initial ps))
    (Project.percentage (Project.midpoint ps)) ->
  let i := Math_round_div (t * Project.percentage (Project.initial ps)) 100 in
  let m := Math_round_div (t * Project.percentage (Project.midpoint ps)) 100 in
  Project.stageAmounts t ps =
    {| Project.initial := Project.set_amount i (Project.initial ps);
       Project.midpoint := Project.set_amount m (Project.midpoint ps);
       Project.final := Project.set_amount (t - i - m) (Project.final ps) |}.
Proof.
  intros (Ht & Hi & Hm) i m. unfold Project.stageAmounts.
  rewrite !share_exact by assumption. fold i m.
  pose proof (Math_round_div_spec (t * Project.percentage (Project.initial ps)) 100
                ltac:(lia)) as Hi'.
  pose proof (Math_round_div_spec (t * Project.percentage (Project.midpoint ps)) 100
                ltac:(lia)) as Hm'.
  fold i in Hi'. fold m in Hm'.
  unfold Number.safe in Hi, Hm.
  change (2 ^ 53) with 9007199254740992 in *.
  change (2 ^ 52) with 4503599627370496 in *.
  unfold Number.sub.
  rewrite (roundZ_safe (t - i)) by safe_lia.
  rewrite (roundZ_safe (t - i - m)) by safe_lia.
  reflexivity.
Qed.

(** In that range the three amounts sum to the total. *)
Lemma shares_sum (t initial midpoint : Z) :
  ExactShares t initial midpoint ->
  let i := Project.share t initial in
  let m := Project.share t midpoint in
  i + m + Number.sub (Number.sub t i) m = t.
Proof.
  intros (Ht & Hi & Hm) i m. unfold i, m.
  rewrite !share_exact by assumption.
  pose proof (Math_round_div_spec (t * initial) 100 ltac:(lia)) as Hi'.
  pose proof (Math_round_div_spec (t * midpoint) 100 ltac:(lia)) as Hm'.
  unfold Number.safe in Hi, Hm.
  change (2 ^ 53) with 9007199254740992 in *.
  change (2 ^ 52) with 4503599627370496 in *.
  unfold Number.sub.
  rewrite (roundZ_safe (t - _)) by safe_lia.
  rewrite roundZ_safe by safe_lia.
  lia.
Qed.

(** Amounts up to 2^53 / 100, about 9 * 10^13, with percentages between
    0 and 100 are in that range. *)
Lemma ExactShares_percent (t initial midpoint : Z) :
  Z.abs t * 100 < 2 ^ 53 -> 0 <= initial <= 100 -> 0 <= midpoint <= 100 ->
  ExactShares t initial midpoint.
Proof.
  intros Ht Hi Hm. unfold ExactShares, Number.safe.
  rewrite !Z.abs_mul, (Z.abs_eq initial), (Z.abs_eq midpoint) by lia.
  change (2 ^ 53) with 9007199254740992 in *.
  change (2 ^ 52) with 4503599627370496. nia.
Qed.

(** Beyond that range the doubles show.  A total of 2251799813685258,
    itself a safe integer, has the products with 30 and 40 rounded: the
    initial amount is one more than the nearest whole number of the
    exact share, and the final amount one less. *)
Lemma stageAmounts_rounded_product :
  let t := 2251799813685258 in
  let ps := Project.stageAmounts t Project.defaultPaymentStages in
  Number.safe t
  /\ Project.amount (Project.initial ps) = Some 675539944105578
  /\ Project.amount (Project.midpoint ps) = Some 900719925474103
  /\ Project.amount (Project.final ps) = Some 675539944105577
  /\ Math_round_div (t * 30) 100 = 675539944105577.
Proof. vm_compute. split_and!; reflexivity. Qed.

Lemma truthy_Some (t : Z) : t <> 0 -> truthy (Some t) = true.
Proof.
  intros Ht. unfold truthy. destruct (Z.eqb_spec t 0); [contradiction | reflexivity].
Qed.

(** ** The payment-stage amounts of a saved project *)

Lemma preSave_truthy (p : Project.t) (t : Z) :
  Project.costing_approvedAmount p = Some t ->
  t <> 0 ->
  Project.preSave p =
    Project.set_paymentStages (Project.stageAmounts t (Project.paymentStages p)) p.
Proof.
  intros Hp Ht. unfold Project.preSave. rewrite Hp, truthy_Some by exact Ht.
  reflexivity.
Qed.

Lemma preSave_percentages (p : Project.t) :
  Project.percentage (Project.initial (Project.paymentStages (Project.preSave p)))
  = Project.percentage (Project.initial (Project.paymentStages p))
  /\ Project.percentage (Project.midpoint (Project.paymentStages (Project.preSave p)))
     = Project.percentage (Project.midpoint (Project.paymentStages p))
  /\ Project.percentage (Project.final (Project.paymentStages (Project.preSave p)))
     = Project.percentage (Project.final (Project.paymentStages p)).
Proof. unfold Project.preSave. repeat case_match; split_and!; reflexivity. Qed.






(** ** Lookups *)

Lemma Model_findById_Some {A : Type} `{Document A}
    (coll : gmap N A) (id : ObjectId) (d : A) :
  Model_findById coll id = Some d <-> coll !! id = Some d /\ doc_isDeleted d = false.
Proof.
  unfold Model_findById, softDeleteWhere. simpl.
  destruct (coll !! id) as [d0|]; [| split; [discriminate | intros [? _]; discriminate]].
  destruct (doc_isDeleted d0) eqn:Hdel; simpl; split.
  - discriminate.
  - intros [[= ->] Hd]. congruence.
  - intros [= ->]. auto.
  - intros [[= ->] _]. reflexivity.
Qed.

Lemma Model_findById_None {A : Type} `{Document A}
    (coll : gmap N A) (id : ObjectId) :
  Model_findById coll id = None <->
  coll !! id = None \/ exists d, coll !! id = Some d /\ doc_isDeleted d = true.
Proof.
  unfold Model_findById, softDeleteWhere. simpl.
  destruct (coll !! id) as [d0|]; [| split; auto].
  destruct (doc_isDeleted d0) eqn:Hdel; simpl; split; try discriminate; eauto.
  - intros [? | (d & [= <-] & Hd)]; congruence.
Qed.

Lemma newId_fresh {A : Type} (coll : gmap N A) : coll !! newId coll = None.
Proof. apply not_elem_of_dom. unfold newId. apply is_fresh. Qed.

Lemma Payment_indexTaken_spec (proj : ObjectId) (s : Stage.t) (coll : gmap N Payment.t) :
  Payment_indexTaken proj s coll = true <->
  exists k p, coll !! k = Some p /\ Payment.project p = proj /\ Payment.stage p = s.
Proof.
  unfold Payment_indexTaken. rewrite existsb_exists. split.
  - intros ([k p] & Hin & Hc). simpl in Hc.
    apply andb_true_iff in Hc as [Hp Hs].
    apply N.eqb_eq in Hp. apply bool_decide_eq_true in Hs.
    exists k, p. split; [| auto].
    apply elem_of_map_to_list. apply list_elem_of_In. exact Hin.
  - intros (k & p & Hk & Hp & Hs). exists (k, p). split.
    + apply list_elem_of_In. apply elem_of_map_to_list. exact Hk.
    + simpl. apply andb_true_iff. split.
      * apply N.eqb_eq. exact Hp.
      * apply bool_decide_eq_true. exact Hs.
Qed.

Lemma Payment_indexTaken_free (proj : ObjectId) (s : Stage.t) (coll : gmap N Payment.t) :
  (forall k p, coll !! k = Some p -> Payment.project p = proj -> Payment.stage p <> s) ->
  Payment_indexTaken proj s coll = false.
Proof.
  intros Hfree. apply not_true_is_false. intros Htaken.
  apply Payment_indexTaken_spec in Htaken as (k & p & Hk & Hp & Hs).
  exact (Hfree k p Hk Hp Hs).
Qed.

Lemma Payment_insert_ok (clk : Clock) (d : Payment.Draft) (coll : gmap N Payment.t) (x : Z) :
  Payment.d_expected d = Some x ->
  (forall k p, coll !! k = Some p ->
               Payment.project p = Payment.d_project d ->
               Payment.stage p <> Payment.d_stage d) ->
  Payment_insert clk d coll = (<[newId coll := Payment.of_draft clk d x]> coll, None).
Proof.
  intros Hx Hfree. unfold Payment_insert.
  rewrite Hx, Payment_indexTaken_free by exact Hfree. reflexivity.
Qed.

(** ** Approval *)

Lemma stageAmounts_amount (t : Z) (ps : Project.PaymentStages) :
  let i := Project.share t (Project.percentage (Project.initial ps)) in
  let m := Project.share t (Project.percentage (Project.midpoint ps)) in
  stageAmount Stage.initial (Project.stageAmounts t ps) = Some i
  /\ stageAmount Stage.midpoint (Project.stageAmounts t ps) = Some m
  /\ stageAmount Stage.final (Project.stageAmounts t ps)
     = Some (Number.sub (Number.sub t i) m).
Proof. simpl. auto. Qed.

Lemma Payment_insertMany_three (clk : Clock) (id customer : ObjectId)
    (d1 d2 d3 : Payment.Draft) (x1 x2 x3 : Z) (coll : gmap N Payment.t) :
  d1 = {| Payment.d_project := id; Payment.d_customer := customer;
          Payment.d_stage := Stage.initial; Payment.d_expected := Some x1;
          Payment.d_status := PaymentStatus.pending |} ->
  d2 = {| Payment.d_project := id; Payment.d_customer := customer;
          Payment.d_stage := Stage.midpoint; Payment.d_expected := Some x2;
          Payment.d_status := PaymentStatus.pending |} ->
  d3 = {| Payment.d_project := id; Payment.d_customer := customer;
          Payment.d_stage := Stage.final; Payment.d_expected := Some x3;
          Payment.d_status := PaymentStatus.pending |} ->
  (forall k p, coll !! k = Some p -> Payment.project p <> id) ->
  exists k1 k2 k3,
    Payment_insertMany clk [d1; d2; d3] coll =
      (<[k3 := pendingPayment clk id customer Stage.final x3]>
         (<[k2 := pendingPayment clk id customer Stage.midpoint x2]>
            (<[k1 := pendingPayment clk id customer Stage.initial x1]> coll)),
       None)
    /\ coll !! k1 = None /\ coll !! k2 = None /\ coll !! k3 = None
    /\ k1 <> k2 /\ k1 <> k3 /\ k2 <> k3.
Proof.
  intros -> -> -> Hnone.
  set (c1 := <[newId coll := pendingPayment clk id customer Stage.initial x1]> coll).
  set (c2 := <[newId c1 := pendingPayment clk id customer Stage.midpoint x2]> c1).
  assert (Hk1 : coll !! newId coll = None) by apply newId_fresh.
  assert (Hk2 : c1 !! newId c1 = None) by apply newId_fresh.
  assert (Hk3 : c2 !! newId c2 = None) by apply newId_fresh.
  assert (H12 : newId coll <> newId c1).
  { intros Heq. rewrite <- Heq in Hk2. unfold c1 in Hk2.
    rewrite lookup_insert_eq in Hk2. discriminate. }
  assert (H23 : newId c1 <> newId c2).
  { intros Heq. rewrite <- Heq in Hk3. unfold c2 in Hk3.
    rewrite lookup_insert_eq in Hk3. discriminate. }
  assert (H13 : newId coll <> newId c2).
  { intros Heq. rewrite <- Heq in Hk3. unfold c2 in Hk3.
    rewrite lookup_insert_ne in Hk3 by (intros E; apply H12; symmetry; exact E).
    unfold c1 in Hk3. rewrite lookup_insert_eq in Hk3. discriminate. }
  exists (newId coll), (newId c1), (newId c2).
  split_and!; try assumption.
  - simpl.
    rewrite (Payment_insert_ok clk _ coll x1);
      [fold c1 | reflexivity
       | intros k p Hk Hp; exfalso; exact (Hnone k p Hk Hp)].
    rewrite (Payment_insert_ok clk _ c1 x2); [fold c2 | reflexivity |].
    + rewrite (Payment_insert_ok clk _ c2 x3); [reflexivity | reflexivity |].
      simpl. intros k p Hk Hp. unfold c2 in Hk.
      apply lookup_insert_Some in Hk as [[_ <-] | [_ Hk]]; [discriminate |].
      unfold c1 in Hk.
      apply lookup_insert_Some in Hk as [[_ <-] | [_ Hk]]; [discriminate |].
      exfalso. exact (Hnone k p Hk Hp).
    + simpl. intros k p Hk Hp. unfold c1 in Hk.
      apply lookup_insert_Some in Hk as [[_ <-] | [_ Hk]]; [discriminate |].
      exfalso. exact (Hnone k p Hk Hp).
  - unfold c1 in Hk2. rewrite lookup_insert_ne in Hk2 by exact H12. exact Hk2.
  - unfold c2 in Hk3. rewrite lookup_insert_ne in Hk3 by exact H23.
    unfold c1 in Hk3. rewrite lookup_insert_ne in Hk3 by exact H13. exact Hk3.
Qed.

(** ** Which handlers write payment records *)

Ltac run_handler :=
  unfold bind, get, throwIf, throw, ret, modify,
    Appointment_save, Appointment_create, Project_save, Payment_save,
    Payment_generateReceiptNumber;
  simpl.

Ltac split_handler :=
  run_handler; repeat case_match; simplify_eq; simpl.



Lemma Model_select_lookup {A : Type} `{Document A} (op : QueryOp) (incl : bool)
    (cond : N -> A -> bool) (coll : gmap N A) (k : N) (d : A) :
  head (Model_select op incl cond coll) = Some (k, d) -> coll !! k = Some d.
Proof.
  intros Hhead. apply head_Some_elem_of in Hhead.
  unfold Model_select in Hhead.
  apply list_elem_of_In, filter_In in Hhead as [Hin _].
  apply elem_of_map_to_list, list_elem_of_In. exact Hin.
Qed.






Lemma approveProject_run
    (clk : Clock) (userId id : ObjectId) (db : Db) (project : Project.t)
    (latest : Project.CostingVersion) (t : Z) :
  Model_findById (projects db) id = Some project ->
  Project.customer project = userId ->
  Project.status project = ProjectStatus.pending_customer_approval ->
  last (Project.costing_versions project) = Some latest ->
  Project.totalAmount latest = Some t ->
  t <> 0 ->
  NoPaymentsFor id db ->
  let i := Project.share t
             (Project.percentage (Project.initial (Project.paymentStages project))) in
  let m := Project.share t
             (Project.percentage (Project.midpoint (Project.paymentStages project))) in
  exists db' resp stored k1 k2 k3,
    approveProject clk userId id db = (db', inr resp)
    /\ projects db' !! id = Some stored
    /\ Project.costing_approvedAmount stored = Some t
    /\ Project.paymentStages stored = Project.stageAmounts t (Project.paymentStages project)
    /\ Project.status stored = ProjectStatus.pending_initial_payment
    /\ Project.statusHistory stored =
         Project.statusHistory project
         ++ [Build_HistoryEntry ProjectStatus.approved userId (now clk) "Approved by customer";
             Build_HistoryEntry ProjectStatus.pending_initial_payment userId (now clk)
               "Waiting for initial 30% payment"]
    /\ payments db' =
         <[k3 := pendingPayment clk id userId Stage.final
                   (Number.sub (Number.sub t i) m)]>
           (<[k2 := pendingPayment clk id userId Stage.midpoint m]>
              (<[k1 := pendingPayment clk id userId Stage.initial i]> (payments db)))
    /\ payments db !! k1 = None /\ payments db !! k2 = None /\ payments db !! k3 = None
    /\ k1 <> k2 /\ k1 <> k3 /\ k2 <> k3.
Proof.
  intros Hfound Hcust Hstatus Hlast Htotal Ht Hnone i m.
  unfold approveProject, bind, get, throwIf. rewrite Hfound. simpl.
  rewrite Hcust, N.eqb_refl. simpl.
  rewrite Hstatus. simpl. rewrite Hlast. simpl.
  match goal with |- context [Project.preSave ?p] =>
    match p with Project.push_history _ (Project.set_status ProjectStatus.approved _) =>
      set (p1 := p) end end.
  assert (Hp1 : Project.preSave p1 =
                Project.set_paymentStages
                  (Project.stageAmounts t (Project.paymentStages project)) p1).
  { rewrite (preSave_truthy p1 t); [reflexivity | exact Htotal | exact Ht]. }
  rewrite Hp1.
  destruct (Payment_insertMany_three clk id userId
              (stageDraft id (Project.set_paymentStages
                  (Project.stageAmounts t (Project.paymentStages project)) p1) Stage.initial)
              (stageDraft id (Project.set_paymentStages
                  (Project.stageAmounts t (Project.paymentStages project)) p1) Stage.midpoint)
              (stageDraft id (Project.set_paymentStages
                  (Project.stageAmounts t (Project.paymentStages project)) p1) Stage.final)
              i m (Number.sub (Number.sub t i) m) (payments db))
    as (k1 & k2 & k3 & Hins & Hk1 & Hk2 & Hk3 & H12 & H13 & H23).
  { unfold stageDraft. simpl. rewrite Hcust. reflexivity. }
  { unfold stageDraft. simpl. rewrite Hcust. reflexivity. }
  { unfold stageDraft. simpl. rewrite Hcust. reflexivity. }
  { exact Hnone. }
  unfold Payment_create, stageDrafts. simpl payments. rewrite Hins. simpl.
  eexists _, _, _, k1, k2, k3.
  split; [reflexivity |]. simpl.
  split; [apply lookup_insert_eq |].
  rewrite (preSave_truthy _ t); [| exact Htotal | exact Ht].
  simpl. rewrite <- app_assoc. simpl.
  split_and!; try reflexivity; assumption.
Qed.



(** C2 does not hold of the code: [approveProject] saves the project as
    [approved] before it creates the payments, and nothing undoes that
    save when [Payment.create] throws; the second save, to
    [pending_initial_payment], is then never reached.  With a costing of
    0 the approval stores the project as [approved], with
    [approvedAmount = 0] and no stage amount, and throws on the first
    payment record, leaving the project without any payment.  When a
    project that already has its payments is submitted and approved a
    second time, after a revised costing of 120000, the unique index
    refuses the new records: the call throws, the project stays
    [approved] with the new stage amounts, and the payment of the
    initial stage still expects the old 30000. *)
Theorem C2_approveProject_stops_after_approved :
  (let run := approveProject (Scenario.at_ Scenario.approvalTime) Scenario.customerId
                Scenario.projectId (Scenario.awaitingApproval (Some 0)) in
   Project.status <$> projects (Scenario.awaitingApproval (Some 0)) !! Scenario.projectId
     = Some ProjectStatus.pending_customer_approval
   /\ Project.customer <$> projects (Scenario.awaitingApproval (Some 0)) !! Scenario.projectId
     = Some Scenario.customerId
   /\ run.2 = inl (ValidationError "amount.expected")
   /\ Project.status <$> projects run.1 !! Scenario.projectId = Some ProjectStatus.approved
   /\ Project.costing_approvedAmount <$> projects run.1 !! Scenario.projectId
     = Some (Some 0)
   /\ (List.map h_status <$>
         (Project.statusHistory <$> projects run.1 !! Scenario.projectId))
     = Some [ProjectStatus.draft; ProjectStatus.pending_customer_approval;
             ProjectStatus.approved]
   /\ payments run.1 = ∅)
  /\
  (let run := approveProject (Scenario.at_ Scenario.secondApprovalTime) Scenario.customerId
                Scenario.projectId Scenario.resubmitted in
   Project.status <$> projects Scenario.resubmitted !! Scenario.projectId
     = Some ProjectStatus.pending_customer_approval
   /\ Project.customer <$> projects Scenario.resubmitted !! Scenario.projectId
     = Some Scenario.customerId
   /\ run.2 = inl (DuplicateKeyError "project_1_stage_1")
   /\ Project.status <$> projects run.1 !! Scenario.projectId = Some ProjectStatus.approved
   /\ Project.costing_approvedAmount <$> projects run.1 !! Scenario.projectId
     = Some (Some 120000)
   /\ (stageAmount Stage.initial <$>
         (Project.paymentStages <$> projects run.1 !! Scenario.projectId))
        = Some (Some 36000)
   /\ List.map (fun kv => (Payment.stage kv.2, Payment.amount_expected kv.2))
               (map_to_list (payments run.1))
        = [(Stage.final, 30000); (Stage.midpoint, 40000); (Stage.initial, 30000)]).
Proof. split; vm_compute; split_and!; reflexivity. Qed.

(** ** Verification of a payment *)

Lemma preSave_status (p : Project.t) : Project.status (Project.preSave p) = Project.status p.
Proof. unfold Project.preSave. repeat case_match; reflexivity. Qed.

Lemma preSave_fabrication_startedAt (p : Project.t) :
  Project.fabrication_startedAt (Project.preSave p) = Project.fabrication_startedAt p.
Proof. unfold Project.preSave. repeat case_match; reflexivity. Qed.

Lemma preSave_statusHistory (p : Project.t) :
  Project.statusHistory (Project.preSave p) = Project.statusHistory p.
Proof. unfold Project.preSave. repeat case_match; reflexivity. Qed.

Lemma verifyPayment_not_submitted
    (clk : Clock) (userId id : ObjectId) (amountReceived : Z)
    (referenceNumber notes : option string) (db : Db) (payment : Payment.t) :
  Model_findById (payments db) id = Some payment ->
  Payment.status payment <> PaymentStatus.submitted ->
  verifyPayment clk userId id amountReceived referenceNumber notes db =
    (db, inl (AppError "Payment is not pending verification" 400)).
Proof.
  intros Hfound Hstatus.
  unfold verifyPayment, bind, get, throwIf, throw.
  rewrite Hfound. simpl.
  rewrite bool_decide_eq_false_2 by exact Hstatus. reflexivity.
Qed.

Lemma verifyPayment_saves
    (clk : Clock) (userId id : ObjectId) (amountReceived : Z)
    (referenceNumber notes : option string) (db : Db) (payment : Payment.t) :
  Model_findById (payments db) id = Some payment ->
  Payment.status payment = PaymentStatus.submitted ->
  payments (verifyPayment clk userId id amountReceived referenceNumber notes db).1 =
    <[id := verifiedPayment clk userId amountReceived referenceNumber notes
              (receiptNumberAt clk (payments db)) payment]> (payments db).
Proof.
  intros Hfound Hstatus.
  unfold verifyPayment, bind, get, throwIf, throw, ret, modify,
    Payment_save, Payment_generateReceiptNumber, Project_save.
  rewrite Hfound, Hstatus. simpl.
  repeat case_match; simplify_eq; reflexivity.
Qed.

Lemma verifyPayment_run
    (clk : Clock) (userId id : ObjectId) (amountReceived : Z)
    (referenceNumber notes : option string) (db : Db)
    (payment : Payment.t) (project : Project.t) :
  Model_findById (payments db) id = Some payment ->
  Payment.status payment = PaymentStatus.submitted ->
  Model_findById (projects db) (Payment.project payment) = Some project ->
  verifyPayment clk userId id amountReceived referenceNumber notes db =
    ({| users := users db;
        appointments := appointments db;
        projects :=
          if bool_decide (Project.status project = expectedStatuses (Payment.stage payment))
          then <[Payment.project payment :=
                   Project.preSave
                     (advanceProject clk userId (Payment.stage payment) project)]>
                 (projects db)
          else projects db;
        payments :=
          <[id := verifiedPayment clk userId amountReceived referenceNumber notes
                    (receiptNumberAt clk (payments db)) payment]> (payments db) |},
     match User_findById (users db) (Payment.customer payment) with
     | Some _ => inr {| res_status := 200; res_message := "Payment verified successfully" |}
     | None => inl (TypeError "payment.customer.email")
     end).
Proof.
  intros Hfound Hstatus Hproject.
  unfold verifyPayment, bind, get, throwIf, throw, ret, modify,
    Payment_save, Payment_generateReceiptNumber, Project_save.
  rewrite Hfound, Hstatus. simpl. rewrite Hproject.
  destruct (bool_decide _); simpl;
    destruct (User_findById (users db) (Payment.customer payment)); reflexivity.
Qed.

(** C3: for a payment in status [submitted], [verifyPayment] stores the
    payment as [verified]; it advances the owning project exactly when
    the project's status is the predecessor the stage expects: a final
    payment then completes the project, a midpoint payment marks it
    [midpoint_payment_verified], an initial payment puts it straight into
    [in_fabrication] and stamps [fabrication.startedAt]; with any other
    project status the project collection is left as it was while the
    payment is verified all the same. *)
Theorem C3_verifyPayment_advances_project
    (clk : Clock) (userId id : ObjectId) (amountReceived : Z)
    (referenceNumber notes : option string) (db : Db) (payment : Payment.t) :
  Model_findById (payments db) id = Some payment ->
  Payment.status payment = PaymentStatus.submitted ->
  let run := verifyPayment clk userId id amountReceived referenceNumber notes db in
  (exists p', payments run.1 !! id = Some p'
              /\ Payment.status p' = PaymentStatus.verified
              /\ Payment.amount_received p' = Some amountReceived)
  /\ forall project,
       Model_findById (projects db) (Payment.project payment) = Some project ->
       (is_Some (User_findById (users db) (Payment.customer payment)) ->
        exists resp, run.2 = inr resp)
       /\ (Project.status project = expectedStatuses (Payment.stage payment) ->
           exists q, projects run.1 !! Payment.project payment = Some q
                     /\ (Payment.stage payment = Stage.final ->
                         Project.status q = ProjectStatus.completed)
                     /\ (Payment.stage payment = Stage.midpoint ->
                         Project.status q = ProjectStatus.midpoint_payment_verified)
                     /\ (Payment.stage payment = Stage.initial ->
                         Project.status q = ProjectStatus.in_fabrication
                         /\ Project.fabrication_startedAt q = Some (now clk)))
       /\ (Project.status project <> expectedStatuses (Payment.stage payment) ->
           projects run.1 = projects db).
Proof.
  intros Hfound Hstatus run. subst run. split.
  - rewrite (verifyPayment_saves clk userId id amountReceived referenceNumber notes
               db payment Hfound Hstatus).
    eexists. split; [apply lookup_insert_eq |]. split; reflexivity.
  - intros project Hproject.
    rewrite (verifyPayment_run clk userId id amountReceived referenceNumber notes
               db payment project Hfound Hstatus Hproject).
    simpl. split_and!.
    + intros [c ->]. eexists. reflexivity.
    + intros Hexpected. rewrite bool_decide_eq_true_2 by exact Hexpected.
      eexists. split; [apply lookup_insert_eq |].
      rewrite preSave_status, preSave_fabrication_startedAt.
      unfold advanceProject.
      split_and!; intros ->; simpl; auto.
    + intros Hother. rewrite bool_decide_eq_false_2 by exact Hother. reflexivity.
Qed.

Lemma C3_verifyPayment_advances_project_witness :
  (exists p' q,
     payments Scenario.firstVerified !! Scenario.initialPaymentId = Some p'
     /\ Payment.status p' = PaymentStatus.verified
     /\ projects Scenario.firstVerified !! Scenario.projectId = Some q
     /\ Project.status q = ProjectStatus.in_fabrication
     /\ Project.fabrication_startedAt q = Some (now Scenario.firstVerification))
  /\ (let run := verifyPayment Scenario.finalVerification Scenario.cashierId
                   Scenario.finalPaymentId 30000 None None Scenario.awaitingFinalPayment in
      exists q, projects run.1 !! Scenario.projectId = Some q
                /\ Project.status q = ProjectStatus.completed)
  /\ (let run := verifyPayment Scenario.finalVerification Scenario.cashierId
                   Scenario.finalPaymentId 30000 None None Scenario.finalProofSubmitted in
      (exists p', payments run.1 !! Scenario.finalPaymentId = Some p'
                  /\ Payment.status p' = PaymentStatus.verified)
      /\ projects run.1 = projects Scenario.finalProofSubmitted).
Proof.
  split_and!.
  - edestruct (C3_verifyPayment_advances_project Scenario.firstVerification
                 Scenario.cashierId Scenario.initialPaymentId 30000 None None
                 Scenario.proofsSubmitted)
      as ((p' & Hp' & Hverified & _) & Hproject).
    + vm_compute. reflexivity.
    + reflexivity.
    + edestruct Hproject as (_ & Hadvance & _); [vm_compute; reflexivity |].
      destruct Hadvance as (q & Hq & _ & _ & Hinitial); [reflexivity |].
      destruct Hinitial as [Hstatus Hstarted]; [reflexivity |].
      exists p', q. split_and!; assumption.
  - edestruct (C3_verifyPayment_advances_project Scenario.finalVerification
                 Scenario.cashierId Scenario.finalPaymentId 30000 None None
                 Scenario.awaitingFinalPayment)
      as (_ & Hproject).
    + vm_compute. reflexivity.
    + reflexivity.
    + edestruct Hproject as (_ & Hadvance & _); [vm_compute; reflexivity |].
      destruct Hadvance as (q & Hq & Hfinal & _); [reflexivity |].
      exists q. split; [exact Hq | apply Hfinal; reflexivity].
  - edestruct (C3_verifyPayment_advances_project Scenario.finalVerification
                 Scenario.cashierId Scenario.finalPaymentId 30000 None None
                 Scenario.finalProofSubmitted)
      as ((p' & Hp' & Hverified & _) & Hproject).
    + vm_compute. reflexivity.
    + reflexivity.
    + edestruct Hproject as (_ & _ & Hunchanged); [vm_compute; reflexivity |].
      split; [exists p'; split; assumption |].
      apply Hunchanged. discriminate.
Defined.

(** ** Receipt numbers *)

Lemma filter_length_Permutation {A : Type} (f : A -> bool) (l l' : list A) :
  l ≡ₚ l' -> length (List.filter f l) = length (List.filter f l').
Proof.
  induction 1 as [| x l l' _ IH | x y l | l l' l'' _ IH1 _ IH2]; simpl.
  - reflexivity.
  - destruct (f x); simpl; congruence.
  - destruct (f x), (f y); reflexivity.
  - congruence.
Qed.

Lemma Model_countDocuments_replace {A : Type} `{Document A}
    (cond : N -> A -> bool) (coll : gmap N A) (id : N) (d d' : A) :
  coll !! id = Some d ->
  (Model_countDocuments cond (<[id := d']> coll) + (if cond id d then 1 else 0)
   = Model_countDocuments cond coll + (if cond id d' then 1 else 0))%nat.
Proof.
  intros Hid. unfold Model_countDocuments, Model_select.
  set (f := fun kv : N * A => cond kv.1 kv.2 && softDeleteWhere Q_countDocuments false kv.2).
  assert (Hf : forall k x, f (k, x) = cond k x).
  { intros k x. unfold f, softDeleteWhere. simpl. apply andb_true_r. }
  rewrite <- (insert_delete_eq coll id d').
  rewrite (filter_length_Permutation f _ _
             (map_to_list_insert (delete id coll) id d' (lookup_delete_eq coll id))).
  rewrite <- (filter_length_Permutation f _ _ (map_to_list_delete coll id d Hid)).
  simpl. rewrite !Hf.
  destruct (cond id d), (cond id d'); simpl; lia.
Qed.

Lemma receiptCount_eq (clk : Clock) (coll : gmap N Payment.t) :
  receiptCount clk coll =
  Model_countDocuments
    (fun _ p => match Payment.receipt p with Some _ => true | None => false end
                && inCurrentYear clk (Payment.createdAt p))
    coll.
Proof.
  unfold receiptCount, inCurrentYear, Model_countDocuments, Model_select.
  f_equal. apply List.filter_ext. intros [k p]. cbv beta.
  rewrite <- !andb_assoc. reflexivity.
Qed.

Lemma count_receipts_replace (f : Z -> bool) (coll : gmap N Payment.t) (id : N)
    (d d' : Payment.t) :
  coll !! id = Some d ->
  Payment.receipt d = None ->
  is_Some (Payment.receipt d') ->
  Payment.createdAt d' = Payment.createdAt d ->
  Model_countDocuments
    (fun _ p => match Payment.receipt p with Some _ => true | None => false end
                && f (Payment.createdAt p))
    (<[id := d']> coll)
  = (Model_countDocuments
       (fun _ p => match Payment.receipt p with Some _ => true | None => false end
                   && f (Payment.createdAt p))
       coll
     + if f (Payment.createdAt d) then 1 else 0)%nat.
Proof.
  intros Hid Hnone [r Hsome] Hcreated.
  pose proof (Model_countDocuments_replace
                (fun (_ : N) (p : Payment.t) =>
                   match Payment.receipt p with Some _ => true | None => false end
                   && f (Payment.createdAt p))
                coll id d d' Hid) as Hcount.
  cbv beta in Hcount. rewrite Hnone, Hsome, Hcreated in Hcount.
  cbn [andb] in Hcount.
  destruct (f (Payment.createdAt d)); lia.
Qed.

(** Giving a receipt to a stored payment raises the count by one exactly
    when that payment was created in the current year. *)
Lemma receiptCount_replace (clk : Clock) (coll : gmap N Payment.t) (id : N)
    (d d' : Payment.t) :
  coll !! id = Some d ->
  Payment.receipt d = None ->
  is_Some (Payment.receipt d') ->
  Payment.createdAt d' = Payment.createdAt d ->
  receiptCount clk (<[id := d']> coll)
  = (receiptCount clk coll + if inCurrentYear clk (Payment.createdAt d) then 1 else 0)%nat.
Proof.
  intros Hid Hnone Hsome Hcreated.
  rewrite !receiptCount_eq.
  exact (count_receipts_replace (inCurrentYear clk) coll id d d' Hid Hnone Hsome Hcreated).
Qed.

(** A verification raises the count behind the next receipt number by
    one exactly when the verified payment itself was created in the
    current year. *)
Lemma receiptCount_after_verification
    (clk clk' : Clock) (userId id : ObjectId) (amountReceived : Z)
    (referenceNumber notes : option string) (db : Db) (payment : Payment.t) :
  Model_findById (payments db) id = Some payment ->
  Payment.status payment = PaymentStatus.submitted ->
  Payment.receipt payment = None ->
  receiptCount clk'
    (payments (verifyPayment clk userId id amountReceived referenceNumber notes db).1)
  = (receiptCount clk' (payments db)
     + if inCurrentYear clk' (Payment.createdAt payment) then 1 else 0)%nat.
Proof.
  intros Hfound Hstatus Hreceipt.
  rewrite (verifyPayment_saves _ _ _ _ _ _ _ _ Hfound Hstatus).
  apply Model_findById_Some in Hfound as [Hid _].
  apply receiptCount_replace.
  - exact Hid.
  - exact Hreceipt.
  - eexists. reflexivity.
  - reflexivity.
Qed.

(** C4 does not hold of the code: the count behind the sequence number
    selects payments by their own [createdAt], not by the date of their
    receipt.  The two payments below were created in December 2023 and
    are verified on 15 and on 20 January 2024; neither is counted in
    2024, and both receive the receipt number RMV-RCT-202401-0001. *)
Theorem C4_receipt_numbers_repeat :
  (Payment.createdAt <$> payments Scenario.proofsSubmitted !! Scenario.initialPaymentId)
    = Some (Scenario.local 2023 12 10 10)
  /\ (Payment.createdAt <$> payments Scenario.proofsSubmitted !! Scenario.midpointPaymentId)
    = Some (Scenario.local 2023 12 10 10)
  /\ (verifyPayment Scenario.firstVerification Scenario.cashierId
        Scenario.initialPaymentId 30000 None None Scenario.proofsSubmitted).2
     = inr {| res_status := 200; res_message := "Payment verified successfully" |}
  /\ (verifyPayment Scenario.secondVerification Scenario.cashierId
        Scenario.midpointPaymentId 40000 None None Scenario.firstVerified).2
     = inr {| res_status := 200; res_message := "Payment verified successfully" |}
  /\ (Payment.receipt <$> payments Scenario.secondVerified !! Scenario.initialPaymentId)
     = Some (Some {| Payment.receiptNumber := "RMV-RCT-202401-0001";
                     Payment.generatedAt := Scenario.local 2024 1 15 10 |})
  /\ (Payment.receipt <$> payments Scenario.secondVerified !! Scenario.midpointPaymentId)
     = Some (Some {| Payment.receiptNumber := "RMV-RCT-202401-0001";
                     Payment.generatedAt := Scenario.local 2024 1 20 10 |})
  /\ receiptSequence Scenario.firstVerification (payments Scenario.proofsSubmitted) = 1
  /\ receiptSequence Scenario.secondVerification (payments Scenario.firstVerified) = 1.
Proof. vm_compute. split_and!; reflexivity. Qed.

(** ** No-show *)

Lemma markNoShow_run (clk : Clock) (userId id : ObjectId) (db : Db)
    (appointment : Appointment.t) :
  Model_findById (appointments db) id = Some appointment ->
  markNoShow clk userId id db =
    (with_appointments
       (<[id := Appointment.push_history
                  (Build_HistoryEntry AppointmentStatus.no_show userId (now clk)
                     "Customer did not show up")
                  (Appointment.set_status AppointmentStatus.no_show appointment)]>
          (appointments db))
       db,
     inr {| res_status := 200; res_message := "Appointment marked as no-show" |}).
Proof.
  intros Hfound. unfold markNoShow, bind, get, ret, modify, Appointment_save.
  rewrite Hfound. reflexivity.
Qed.

(** C9 does not hold of the code: [markNoShow] has no guard on the
    status.  An appointment that was completed by its assigned staff is
    turned into a no-show, with one more history entry, instead of the
    request failing and leaving it as it was; on the same appointment
    [cancelAppointment] and [completeAppointment] do refuse. *)
Theorem C9_markNoShow_overwrites_completed :
  let clk := Scenario.at_ (Scenario.local 2024 3 2 9) in
  let run := markNoShow clk Scenario.salesId Scenario.appointmentId Scenario.visitCompleted in
  (Appointment.status <$> appointments Scenario.visitCompleted !! Scenario.appointmentId)
    = Some AppointmentStatus.completed
  /\ run.2 = inr {| res_status := 200; res_message := "Appointment marked as no-show" |}
  /\ (Appointment.status <$> appointments run.1 !! Scenario.appointmentId)
     = Some AppointmentStatus.no_show
  /\ (List.map h_status <$>
        (Appointment.statusHistory <$> appointments run.1 !! Scenario.appointmentId))
     = Some [AppointmentStatus.pending; AppointmentStatus.scheduled;
             AppointmentStatus.completed; AppointmentStatus.no_show]
  /\ cancelAppointment clk Scenario.salesId SALES_STAFF Scenario.appointmentId None
       Scenario.visitCompleted
     = (Scenario.visitCompleted,
        inl (AppError "Appointment cannot be cancelled once completed or marked as no-show" 400))
  /\ completeAppointment clk Scenario.salesId Scenario.appointmentId None
       Scenario.visitCompleted
     = (Scenario.visitCompleted, inl (AppError "Appointment cannot be completed" 400)).
Proof. vm_compute. split_and!; reflexivity. Qed.

(** ** Verifying twice *)

(** C5: on a payment whose status is not [submitted], in particular on
    one that is already verified, [verifyPayment] throws the 400 error
    of its state guard and leaves the database as it was; so after a
    call that verified a payment, any second call on that payment throws
    and the payment keeps the one receipt the first call gave it. *)
Theorem C5_verifyPayment_twice_fails
    (clk : Clock) (userId id : ObjectId) (amountReceived : Z)
    (referenceNumber notes : option string) (db : Db) (payment : Payment.t) :
  Model_findById (payments db) id = Some payment ->
  (Payment.status payment <> PaymentStatus.submitted ->
   verifyPayment clk userId id amountReceived referenceNumber notes db =
     (db, inl (AppError "Payment is not pending verification" 400)))
  /\ (Payment.status payment = PaymentStatus.submitted ->
      let db1 := (verifyPayment clk userId id amountReceived referenceNumber notes db).1 in
      exists verified,
        payments db1 !! id = Some verified
        /\ Payment.status verified = PaymentStatus.verified
        /\ Payment.receipt verified =
             Some {| Payment.receiptNumber := receiptNumberAt clk (payments db);
                     Payment.generatedAt := now clk |}
        /\ forall clk' userId' amountReceived' referenceNumber' notes',
             verifyPayment clk' userId' id amountReceived' referenceNumber' notes' db1 =
               (db1, inl (AppError "Payment is not pending verification" 400))).
Proof.
  intros Hfound. split.
  - apply verifyPayment_not_submitted. exact Hfound.
  - intros Hstatus db1.
    pose proof (verifyPayment_saves clk userId id amountReceived referenceNumber notes
                  db payment Hfound Hstatus) as Hsaved.
    fold db1 in Hsaved.
    eexists. split; [rewrite Hsaved; apply lookup_insert_eq |].
    split; [reflexivity |]. split; [reflexivity |].
    intros clk' userId' amountReceived' referenceNumber' notes'.
    eapply verifyPayment_not_submitted.
    + apply Model_findById_Some. split; [rewrite Hsaved; apply lookup_insert_eq |].
      apply Model_findById_Some in Hfound as [_ Hdel]. exact Hdel.
    + discriminate.
Qed.

Lemma C5_verifyPayment_twice_fails_witness :
  verifyPayment Scenario.secondVerification Scenario.cashierId
    Scenario.initialPaymentId 30000 None None Scenario.firstVerified =
    (Scenario.firstVerified, inl (AppError "Payment is not pending verification" 400)).
Proof.
  edestruct (C5_verifyPayment_twice_fails Scenario.firstVerification Scenario.cashierId
               Scenario.initialPaymentId 30000 None None Scenario.proofsSubmitted)
    as [_ Hsecond].
  - vm_compute. reflexivity.
  - destruct Hsecond as (verified & _ & _ & _ & Hfails); [reflexivity |].
    apply Hfails.
Defined.

(** ** Submitting a payment proof *)

(** C7: called by the payment's own customer with a proof file, on a
    payment whose project exists, [submitPaymentProof] succeeds whenever
    the status is not [verified] (pending, rejected, or submitted
    before): it stores the proof reference and the payment method and
    sets the status to [submitted]; on a verified payment the same call
    throws the 400 error and leaves the database as it was. *)
Theorem C7_submitPaymentProof_unless_verified
    (clk : Clock) (userId id : ObjectId) (paymentMethod : PaymentMethod.t)
    (file : File) (db : Db) (payment : Payment.t) :
  Model_findById (payments db) id = Some payment ->
  Payment.customer payment = userId ->
  is_Some (Model_findById (projects db) (Payment.project payment)) ->
  let run := submitPaymentProof clk userId id paymentMethod (Some file) db in
  (Payment.status payment <> PaymentStatus.verified ->
   exists resp stored,
     run.2 = inr resp
     /\ payments run.1 = <[id := stored]> (payments db)
     /\ Payment.status stored = PaymentStatus.submitted
     /\ Payment.paymentProof stored =
          Some {| Payment.proof_file := file; Payment.uploadedAt := now clk |}
     /\ Payment.paymentMethod stored = Some paymentMethod
     /\ Payment.statusHistory stored =
          Payment.statusHistory payment
          ++ [Build_HistoryEntry PaymentStatus.submitted userId (now clk)
                ("Payment proof submitted via " +:+ paymentMethodName paymentMethod)]
     /\ Payment.amount_expected stored = Payment.amount_expected payment
     /\ Payment.stage stored = Payment.stage payment
     /\ Payment.project stored = Payment.project payment)
  /\ (Payment.status payment = PaymentStatus.verified ->
      run = (db, inl (AppError "Payment has already been verified" 400))).
Proof.
  intros Hfound Hcustomer [project Hproject] run. subst run.
  unfold submitPaymentProof, bind, get, throwIf, throw, ret, modify, Payment_save.
  rewrite Hfound. simpl. rewrite Hcustomer, N.eqb_refl. simpl.
  split.
  - intros Hstatus. rewrite bool_decide_eq_false_2 by exact Hstatus.
    simpl. rewrite Hproject. simpl.
    eexists _, _. split_and!; reflexivity.
  - intros Hstatus. rewrite bool_decide_eq_true_2 by exact Hstatus. reflexivity.
Qed.

Lemma C7_submitPaymentProof_unless_verified_witness :
  (Payment.status <$> payments Scenario.midpointRejected !! Scenario.midpointPaymentId)
    = Some PaymentStatus.rejected
  /\ exists stored,
       payments (submitPaymentProof (Scenario.at_ (Scenario.local 2024 1 13 10))
                   Scenario.customerId Scenario.midpointPaymentId PaymentMethod.cash
                   (Some Scenario.someFile) Scenario.midpointRejected).1
         !! Scenario.midpointPaymentId = Some stored
       /\ Payment.status stored = PaymentStatus.submitted
       /\ Payment.paymentMethod stored = Some PaymentMethod.cash.
Proof.
  split; [vm_compute; reflexivity |].
  edestruct (C7_submitPaymentProof_unless_verified
               (Scenario.at_ (Scenario.local 2024 1 13 10))
               Scenario.customerId Scenario.midpointPaymentId PaymentMethod.cash
               Scenario.someFile Scenario.midpointRejected)
    as [Hsubmit _].
  - vm_compute. reflexivity.
  - reflexivity.
  - eexists. vm_compute. reflexivity.
  - destruct Hsubmit as (resp & stored & _ & Hpayments & Hstatus & _ & Hmethod & _);
      [discriminate |].
    exists stored. split; [| split; assumption].
    rewrite Hpayments. apply lookup_insert_eq.
Defined.

(** ** Cancelling an appointment *)

Lemma User_findById_id (us : list User.t) (id : ObjectId) (u : User.t) :
  User_findById us id = Some u -> User._id u = id.
Proof.
  unfold User_findById. intros Hfind.
  apply find_some in Hfind as [_ Hcond].
  apply andb_true_iff in Hcond as [Hid _]. apply N.eqb_eq in Hid. exact Hid.
Qed.

Lemma isTerminalForCancel_spec (s : AppointmentStatus.t) :
  isTerminalForCancel s = true <->
  s = AppointmentStatus.cancelled \/ s = AppointmentStatus.completed
  \/ s = AppointmentStatus.no_show.
Proof. destruct s; simpl; split; intros H; try discriminate; intuition discriminate. Qed.



(** The white space [trim] strips is that of Unicode: a reason that is
    one no-break space counts as empty, and a line separator or a byte
    order mark around a word goes with the blanks. *)
Lemma trim_white_space :
  let nbsp := String (Ascii.ascii_of_nat 194) (String (Ascii.ascii_of_nat 160) "") in
  let ls := String (Ascii.ascii_of_nat 226)
              (String (Ascii.ascii_of_nat 128) (String (Ascii.ascii_of_nat 168) "")) in
  let bom := String (Ascii.ascii_of_nat 239)
               (String (Ascii.ascii_of_nat 187) (String (Ascii.ascii_of_nat 191) "")) in
  cancellationReasonOf (Some nbsp) = "Appointment cancelled"
  /\ cancellationReasonOf (Some "   ") = "Appointment cancelled"
  /\ trim (ls +:+ " change of plans " +:+ nbsp +:+ bom) = "change of plans"
  /\ trim ("a" +:+ nbsp +:+ "b") = "a" +:+ nbsp +:+ "b".
Proof. vm_compute. split_and!; reflexivity. Qed.


(** ** Booking an ocular visit *)

Lemma conflictAt_spec (staffId : ObjectId) (date : Z) (coll : gmap N Appointment.t) :
  is_Some (conflictAt staffId date coll) <-> Conflicted staffId date coll.
Proof.
  unfold conflictAt, Model_findOne, Model_select, Conflicted. split.
  - intros [[k a] Hhead]. apply head_Some_elem_of in Hhead.
    apply list_elem_of_In, filter_In in Hhead as [Hin Hcond].
    apply list_elem_of_In, elem_of_map_to_list in Hin.
    simpl in Hcond.
    repeat (apply andb_true_iff in Hcond as [Hcond ?]).
    exists k, a.
    destruct (Appointment.assignedSalesStaff a) as [s|] eqn:Hs; [| discriminate].
    apply N.eqb_eq in Hcond as ->.
    split_and!; auto.
    + unfold softDeleteWhere in *. simpl in *.
      unfold doc_isDeleted, Appointment_Document in *.
      destruct (Appointment.isDeleted a); [discriminate | reflexivity].
    + apply Z.eqb_eq. assumption.
    + intros Hst. rewrite bool_decide_eq_true_2 in * by exact Hst. discriminate.
    + intros Hst. rewrite bool_decide_eq_true_2 in * by exact Hst. discriminate.
  - intros (k & a & Hk & Hdel & Hs & Hdate & Hc & Hn).
    destruct (head _) as [x|] eqn:Hhead; [eexists; reflexivity | exfalso].
    apply head_None in Hhead.
    assert (Hin : In (k, a)
              (List.filter
                 (fun kv : N * Appointment.t =>
                    match Appointment.assignedSalesStaff kv.2 with
                    | Some s => (s =? staffId)%N
                    | None => false
                    end
                    && (Appointment.scheduledDate kv.2 =? date)
                    && negb (bool_decide (Appointment.status kv.2 = AppointmentStatus.cancelled))
                    && negb (bool_decide (Appointment.status kv.2 = AppointmentStatus.no_show))
                    && softDeleteWhere Q_findOne false kv.2)
                 (map_to_list coll))).
    { apply filter_In. split.
      - apply list_elem_of_In, elem_of_map_to_list. exact Hk.
      - simpl. rewrite Hs, N.eqb_refl, Hdate, Z.eqb_refl.
        rewrite !bool_decide_eq_false_2 by assumption.
        unfold softDeleteWhere, doc_isDeleted, Appointment_Document. simpl.
        rewrite Hdel. reflexivity. }
    rewrite Hhead in Hin. destruct Hin.
Qed.

Lemma firstWithoutConflict_Some (l : list User.t) (date : Z)
    (coll : gmap N Appointment.t) (staff : User.t) :
  firstWithoutConflict l date coll = Some staff ->
  exists before after,
    l = before ++ staff :: after
    /\ Forall (fun u => Conflicted (User._id u) date coll) before
    /\ ~ Conflicted (User._id staff) date coll.
Proof.
  induction l as [| u l IH]; simpl; [discriminate |].
  destruct (conflictAt (User._id u) date coll) as [x|] eqn:Hu.
  - intros Hrest. destruct (IH Hrest) as (before & after & -> & Hbefore & Hfree).
    exists (u :: before), after. split_and!; [reflexivity | | exact Hfree].
    constructor; [| exact Hbefore].
    apply conflictAt_spec. rewrite Hu. eexists. reflexivity.
  - intros [= ->]. exists [], l. split_and!; [reflexivity | constructor |].
    intros Hc. apply conflictAt_spec in Hc. rewrite Hu in Hc.
    destruct Hc as [? Hc]. discriminate Hc.
Qed.

Lemma firstWithoutConflict_None (l : list User.t) (date : Z)
    (coll : gmap N Appointment.t) :
  firstWithoutConflict l date coll = None <->
  Forall (fun u => Conflicted (User._id u) date coll) l.
Proof.
  induction l as [| u l IH]; simpl; [split; [constructor | reflexivity] |].
  destruct (conflictAt (User._id u) date coll) as [x|] eqn:Hu.
  - rewrite IH. split.
    + intros Hl. constructor; [| exact Hl].
      apply conflictAt_spec. rewrite Hu. eexists. reflexivity.
    + intros Hl. inversion Hl; assumption.
  - split; [discriminate |]. intros Hl. inversion Hl as [| ? ? Hc _]; subst.
    apply conflictAt_spec in Hc. rewrite Hu in Hc. destruct Hc as [? Hc]. discriminate Hc.
Qed.

(** C6: an ocular-visit booking inside business hours always creates an
    appointment.  The candidates are the active sales staff in the order
    of the user collection; the first one without a conflicting
    appointment at exactly the requested instant is assigned and the
    appointment is created as [scheduled]; when every candidate has such
    a conflict (as when the only sales staff member is already taken at
    that instant) it is created as [pending] with nobody assigned. *)
Theorem C6_booking_auto_assignment
    (clk : Clock) (userId : ObjectId) (date : Z)
    (siteAddress notes : option string) (db : Db) :
  config.business.appointmentHours_start <= getHours clk date
    < config.business.appointmentHours_end ->
  let run := createAppointment clk userId date AppointmentType.ocular_visit
               siteAddress notes db in
  let staffList := activeSalesStaff (users db) in
  let key := newId (appointments db) in
  exists resp created,
    run.2 = inr resp
    /\ staffList =
         List.filter (fun u => bool_decide (User.role u = SALES_STAFF)
                               && User.isActive u && negb (User.isDeleted u))
                     (users db)
    /\ appointments db !! key = None
    /\ appointments run.1 = <[key := created]> (appointments db)
    /\ Appointment.customer created = userId
    /\ Appointment.scheduledDate created = date
    /\ ((exists before staff after,
           staffList = before ++ staff :: after
           /\ Forall (fun u => Conflicted (User._id u) date (appointments db)) before
           /\ ~ Conflicted (User._id staff) date (appointments db)
           /\ Appointment.status created = AppointmentStatus.scheduled
           /\ Appointment.assignedSalesStaff created = Some (User._id staff))
        \/ (Forall (fun u => Conflicted (User._id u) date (appointments db)) staffList
            /\ Appointment.status created = AppointmentStatus.pending
            /\ Appointment.assignedSalesStaff created = None))
    /\ (forall staff,
          staffList = [staff] ->
          Conflicted (User._id staff) date (appointments db) ->
          Appointment.status created = AppointmentStatus.pending
          /\ Appointment.assignedSalesStaff created = None).
Proof.
  intros [Hstart Hend] run staffList key. subst run staffList key.
  unfold createAppointment, bind, get, throwIf, throw, ret, Appointment_create.
  replace (getHours clk date <? config.business.appointmentHours_start) with false
    by (symmetry; apply Z.ltb_ge; exact Hstart).
  replace (config.business.appointmentHours_end <=? getHours clk date) with false
    by (symmetry; apply Z.leb_gt; exact Hend).
  simpl.
  destruct (firstWithoutConflict (activeSalesStaff (users db)) date (appointments db))
    as [staff|] eqn:Hfirst; simpl.
  - eexists _, _. split_and!; try reflexivity.
    + apply newId_fresh.
    + left. apply firstWithoutConflict_Some in Hfirst
        as (before & after & Hlist & Hbefore & Hfree).
      exists before, staff, after. split_and!; auto.
    + intros staff0 Hlist Hconflict. exfalso.
      apply firstWithoutConflict_Some in Hfirst
        as (before & after & Hsplit & Hbefore & Hfree).
      rewrite Hlist in Hsplit.
      destruct before as [| b before]; simpl in Hsplit.
      * injection Hsplit as -> _. exact (Hfree Hconflict).
      * injection Hsplit as _ Hnil. destruct before; discriminate Hnil.
  - eexists _, _. split_and!; try reflexivity.
    + apply newId_fresh.
    + right. apply firstWithoutConflict_None in Hfirst. split_and!; auto.
    + intros staff0 _ _. split; reflexivity.
Qed.

Lemma C6_booking_auto_assignment_witness :
  (exists first,
     appointments Scenario.booked !! Scenario.appointmentId = Some first
     /\ Appointment.status first = AppointmentStatus.scheduled
     /\ Appointment.assignedSalesStaff first = Some Scenario.salesId)
  /\ exists second,
       appointments Scenario.bookedTwice !! newId (appointments Scenario.booked) = Some second
       /\ Appointment.status second = AppointmentStatus.pending
       /\ Appointment.assignedSalesStaff second = None.
Proof.
  split; [eexists; vm_compute; split_and!; reflexivity |].
  edestruct (C6_booking_auto_assignment Scenario.bookingClock Scenario.customerId
               Scenario.visitTime (Some "12 Rizal St"%string) None Scenario.booked)
    as (resp & created & _ & _ & _ & Hstored & _ & _ & _ & Hsingle).
  - vm_compute. split; [discriminate | reflexivity].
  - exists created. split; [unfold Scenario.bookedTwice, Scenario.after, Scenario.book;
                            rewrite Hstored; apply lookup_insert_eq |].
    apply (Hsingle (Scenario.user Scenario.salesId SALES_STAFF "Ben")).
    + reflexivity.
    + exists Scenario.appointmentId. eexists.
      split; [vm_compute; reflexivity |].
      split_and!; try reflexivity; discriminate.
Defined.

(** ** Soft-deleted records *)

Lemma Model_select_find_family {A : Type} `{Document A}
    (op : QueryOp) (cond : N -> A -> bool) (coll : gmap N A) (k : N) (d : A) :
  preFindMatches op = true ->
  In (k, d) (Model_select op false cond coll) -> doc_isDeleted d = false.
Proof.
  intros Hop Hin. unfold Model_select in Hin.
  apply filter_In in Hin as [_ Hcond]. simpl in Hcond.
  apply andb_true_iff in Hcond as [_ Hsoft].
  unfold softDeleteWhere in Hsoft. rewrite Hop in Hsoft. simpl in Hsoft.
  destruct (doc_isDeleted d); [discriminate | reflexivity].
Qed.

Lemma Model_select_opt_in {A : Type} `{Document A}
    (op : QueryOp) (cond : N -> A -> bool) (coll : gmap N A) (k : N) (d : A) :
  In (k, d) (Model_select op true cond coll) <-> coll !! k = Some d /\ cond k d = true.
Proof.
  unfold Model_select. rewrite filter_In. simpl.
  unfold softDeleteWhere. rewrite andb_false_r, andb_true_r.
  rewrite <- list_elem_of_In, elem_of_map_to_list. reflexivity.
Qed.

Lemma Model_select_unfiltered {A : Type} `{Document A}
    (op : QueryOp) (incl : bool) (cond : N -> A -> bool) (coll : gmap N A) (k : N) (d : A) :
  preFindMatches op = false ->
  In (k, d) (Model_select op incl cond coll) <-> coll !! k = Some d /\ cond k d = true.
Proof.
  intros Hop. unfold Model_select. rewrite filter_In. simpl.
  unfold softDeleteWhere. rewrite Hop. simpl. rewrite andb_true_r.
  rewrite <- list_elem_of_In, elem_of_map_to_list. reflexivity.
Qed.

Lemma Model_findById_unavailable {A : Type} `{Document A}
    (coll : gmap N A) (id : ObjectId) :
  coll !! id = None \/ (exists d, coll !! id = Some d /\ doc_isDeleted d = true) ->
  Model_findById coll id = None.
Proof. intros H0. apply Model_findById_None. exact H0. Qed.

Lemma handle_unavailable (clk : Clock) (userId : ObjectId) (userRole : Role)
    (r : Request) (a : Aggregate) (id : ObjectId) (db : Db) :
  target r = Some (a, id) ->
  Missing a id db \/ SoftDeleted a id db ->
  handle clk userId userRole r db = (db, inl (notFound a)).
Proof.
  intros Htarget Hgone.
  destruct r; simpl in Htarget; try discriminate;
    try (destruct (_ =? 100) eqn:Hsum; [| discriminate]);
    injection Htarget as <- <-; simpl in Hgone; simpl.
  all: match goal with
       | |- ?h _ = _ => unfold cancelAppointment, completeAppointment, markNoShow,
                          uploadBlueprint, uploadCosting, submitForApproval, approveProject,
                          updatePaymentStages, submitPaymentProof, verifyPayment, rejectPayment
       end;
       unfold bind, get, throwIf, throw.
  all: try rewrite Hsum; simpl.
  all: rewrite Model_findById_unavailable by exact Hgone; reflexivity.
Qed.

Lemma kept_insert_found {A : Type} `{Document A}
    (coll : gmap N A) (id : ObjectId) (found x : A) (k : N) (d : A) :
  Model_findById coll id = Some found ->
  coll !! k = Some d -> doc_isDeleted d = true ->
  <[id := x]> coll !! k = Some d.
Proof.
  intros Hfound Hk Hdel.
  apply Model_findById_Some in Hfound as [Hid Hlive].
  rewrite lookup_insert_ne; [exact Hk |].
  intros ->. rewrite Hk in Hid. injection Hid as ->. congruence.
Qed.

Lemma found_ne_deleted {A : Type} `{Document A}
    (coll : gmap N A) (id : ObjectId) (found : A) (k : N) (d : A) :
  Model_findById coll id = Some found ->
  coll !! k = Some d -> doc_isDeleted d = true ->
  id <> k.
Proof.
  intros Hfound Hk Hdel ->.
  apply Model_findById_Some in Hfound as [Hid Hlive].
  rewrite Hk in Hid. injection Hid as ->. congruence.
Qed.

Lemma kept_insert_new {A : Type} (coll : gmap N A) (x : A) (k : N) (d : A) :
  coll !! k = Some d -> <[newId coll := x]> coll !! k = Some d.
Proof.
  intros Hk. rewrite lookup_insert_ne; [exact Hk |].
  intros <-. rewrite newId_fresh in Hk. discriminate.
Qed.

Lemma Payment_insertMany_keeps (clk : Clock) (ds : list Payment.Draft)
    (coll : gmap N Payment.t) (k : N) (d : Payment.t) :
  coll !! k = Some d -> (Payment_insertMany clk ds coll).1 !! k = Some d.
Proof.
  revert coll. induction ds as [| x ds IH]; intros coll Hk; [exact Hk |].
  simpl. unfold Payment_insert.
  destruct (Payment.d_expected x) as [v|].
  - destruct (Payment_indexTaken _ _ coll).
    + specialize (IH coll Hk). destruct (Payment_insertMany clk ds coll). exact IH.
    + match goal with |- context [Payment_insertMany clk ds ?c] =>
        specialize (IH c (kept_insert_new coll _ k d Hk));
        destruct (Payment_insertMany clk ds c) end.
      exact IH.
  - specialize (IH coll Hk). destruct (Payment_insertMany clk ds coll). exact IH.
Qed.

Lemma SoftDeletedKept_refl (db : Db) : SoftDeletedKept db db.
Proof. unfold SoftDeletedKept. auto. Qed.

Ltac kept :=
  unfold SoftDeletedKept; simpl;
  split_and!;
  (let k := fresh "k" in let d := fresh "d" in
   let Hk := fresh "Hk" in let Hdel := fresh "Hdel" in
   intros k d Hk Hdel;
   repeat first
     [ exact Hk
     | eapply kept_insert_found; [eassumption | | exact Hdel]
     | apply kept_insert_new ]).

Lemma handle_keeps_soft_deleted (clk : Clock) (userId : ObjectId) (userRole : Role)
    (r : Request) (db : Db) :
  (forall id initial midpoint final, r <> UpdatePaymentStages id initial midpoint final) ->
  SoftDeletedKept db (handle clk userId userRole r db).1.
Proof.
  intros Hr. destruct r; simpl.
  - unfold createAppointment. split_handler; kept.
  - unfold cancelAppointment. split_handler; kept.
  - unfold completeAppointment. split_handler; kept.
  - unfold markNoShow. split_handler; kept.
  - unfold uploadBlueprint. split_handler; kept.
  - unfold uploadCosting. split_handler; kept.
  - unfold submitForApproval. split_handler; kept.
  - unfold approveProject. run_handler.
    destruct (Model_findById (projects db) id) as [project|] eqn:Hfound;
      [| apply SoftDeletedKept_refl]. simpl.
    destruct (negb _); [apply SoftDeletedKept_refl |]. simpl.
    destruct (negb _); [apply SoftDeletedKept_refl |]. simpl.
    destruct (last _); [| apply SoftDeletedKept_refl].
    unfold Payment_create.
    match goal with |- context [Payment_insertMany clk ?ds ?c] =>
      pose proof (fun k d => Payment_insertMany_keeps clk ds c k d) as Hkeeps;
      destruct (Payment_insertMany clk ds c) as [coll' e] end.
    simpl in Hkeeps.
    destruct e; kept; auto.
    rewrite !lookup_insert_ne by exact (found_ne_deleted _ _ _ _ _ Hfound Hk Hdel).
    exact Hk.
  - exfalso. eapply Hr. reflexivity.
  - unfold submitPaymentProof. run_handler.
    destruct (Model_findById (payments db) id) as [payment|] eqn:Hfound;
      [| apply SoftDeletedKept_refl].
    simpl. repeat case_match; simplify_eq; simpl; kept.
  - unfold verifyPayment. run_handler.
    destruct (Model_findById (payments db) id) as [payment|] eqn:Hfound;
      [| apply SoftDeletedKept_refl].
    simpl. repeat case_match; simplify_eq; simpl; kept.
  - unfold rejectPayment. run_handler.
    destruct (Model_findById (payments db) id) as [payment|] eqn:Hfound;
      [| apply SoftDeletedKept_refl].
    simpl. repeat case_match; simplify_eq; simpl; kept.
Qed.

(** C10, as the code has it: the soft-delete middleware is registered
    for the query operations whose name starts with "find".  Every such
    query ([find], [findOne] and with it [findById], [findOneAndUpdate])
    leaves out the records whose [isDeleted] flag is true unless it is
    run with [includeDeleted], in which case it selects them like any
    other record; a [countDocuments] query ranges over all records.
    Consequently every workflow request that fetches its aggregate by id
    answers a soft-deleted aggregate exactly as an unknown id, with the
    404 error and the database untouched, and no workflow request
    changes any soft-deleted record. *)
Theorem C10_find_queries_skip_soft_deleted
    (clk : Clock) (userId : ObjectId) (userRole : Role) (r : Request) (db : Db) :
  (forall op, preFindMatches op = true <->
              op = Q_find \/ op = Q_findOne \/ op = Q_findOneAndUpdate)
  /\ (forall op cond k (d : Appointment.t),
        preFindMatches op = true ->
        In (k, d) (Model_select op false cond (appointments db)) ->
        Appointment.isDeleted d = false)
  /\ (forall op cond k (d : Project.t),
        preFindMatches op = true ->
        In (k, d) (Model_select op false cond (projects db)) ->
        Project.isDeleted d = false)
  /\ (forall op cond k (d : Payment.t),
        preFindMatches op = true ->
        In (k, d) (Model_select op false cond (payments db)) ->
        Payment.isDeleted d = false)
  /\ (forall op cond k (d : Payment.t),
        In (k, d) (Model_select op true cond (payments db)) <->
        payments db !! k = Some d /\ cond k d = true)
  /\ (forall cond k (d : Payment.t),
        In (k, d) (Model_select Q_countDocuments false cond (payments db)) <->
        payments db !! k = Some d /\ cond k d = true)
  /\ (forall a id,
        target r = Some (a, id) ->
        Missing a id db \/ SoftDeleted a id db ->
        handle clk userId userRole r db = (db, inl (notFound a)))
  /\ ((forall id initial midpoint final,
         r <> UpdatePaymentStages id initial midpoint final) ->
      SoftDeletedKept db (handle clk userId userRole r db).1).
Proof.
  split_and!.
  - intros op. destruct op; vm_compute; split;
      intros H; try discriminate H; try reflexivity; auto;
      destruct H as [H | [H | H]]; discriminate H.
  - intros op cond k d. apply Model_select_find_family.
  - intros op cond k d. apply Model_select_find_family.
  - intros op cond k d. apply Model_select_find_family.
  - intros op cond k d. apply Model_select_opt_in.
  - intros cond k d. apply Model_select_unfiltered. reflexivity.
  - intros a id. apply handle_unavailable.
  - apply handle_keeps_soft_deleted.
Qed.

Lemma C10_find_queries_skip_soft_deleted_witness :
  let clk := Scenario.at_ (Scenario.local 2024 3 1 10) in
  (Payment.isDeleted <$>
     payments Scenario.withDeletedPayment !! Scenario.secondInitialPaymentId) = Some true
  /\ submitPaymentProof clk Scenario.customerId Scenario.secondInitialPaymentId
       PaymentMethod.cash (Some Scenario.someFile) Scenario.withDeletedPayment
     = (Scenario.withDeletedPayment, inl (AppError "Payment not found" 404)).
Proof.
  split; [vm_compute; reflexivity |].
  destruct (C10_find_queries_skip_soft_deleted
              (Scenario.at_ (Scenario.local 2024 3 1 10)) Scenario.customerId CUSTOMER
              (SubmitPaymentProof Scenario.secondInitialPaymentId PaymentMethod.cash
                 (Some Scenario.someFile))
              Scenario.withDeletedPayment)
    as (_ & _ & _ & _ & _ & _ & Hgone & _).
  apply (Hgone APayment Scenario.secondInitialPaymentId); [reflexivity |].
  right. eexists. split; [vm_compute; reflexivity | reflexivity].
Defined.

(** C10 as stated fails for the queries that are not finds.  The count
    behind the receipt number ([countDocuments]) includes a soft-deleted
    payment: with it the next receipt of 2024 is numbered 0002, without
    it 0001.  And the [updateOne] of the admin's [updatePaymentStages]
    rewrites the expected amount of that soft-deleted payment. *)
Lemma C10_counterexample_count_and_update :
  let clk := Scenario.at_ (Scenario.local 2024 3 1 10) in
  let db := Scenario.withDeletedPayment in
  let deleted := Scenario.secondInitialPaymentId in
  let run := updatePaymentStages clk Scenario.cashierId Scenario.secondProjectId
               50 30 20 db in
  (Payment.isDeleted <$> payments db !! deleted) = Some true
  /\ receiptCount clk (payments db) = 1%nat
  /\ receiptCount clk (delete deleted (payments db)) = 0%nat
  /\ receiptNumberAt clk (payments db) = "RMV-RCT-202403-0002"
  /\ (Payment.amount_expected <$> payments db !! deleted) = Some 30000
  /\ run.2 = inr {| res_status := 200; res_message := "Payment stages updated" |}
  /\ (Payment.amount_expected <$> payments run.1 !! deleted) = Some 50000
  /\ (Payment.isDeleted <$> payments run.1 !! deleted) = Some true.
Proof. vm_compute. split_and!; reflexivity. Qed.

(* ===================================================================== *)
(** * Further properties of the code *)
(* ===================================================================== *)

(** Properties of the handlers and model functions that go beyond the
    statements above.  A request to [handle] is one of [Request]: the
    booking, cancellation, completion and no-show of an appointment;
    the upload of a blueprint or a costing, the submission for
    approval, the approval and the admin's update of the payment stages
    of a project; the submission of a proof, the verification and the
    rejection of a payment. *)

(** ** The slot list *)

Lemma setHours0_add (clk : Clock) (t h : Z) :
  setHours0 clk t h = setHours0 clk t 0 + h * msPerHour.
Proof. unfold setHours0. lia. Qed.

Lemma slotsLoop_rounds (booked : list (N * Appointment.t)) (n : nat) :
  forall (fuel : nat) (cur : Z),
    (n <= fuel)%nat ->
    slotsLoop fuel booked cur (cur + Z.of_nat n * msPerHour) =
      List.map (fun i : nat => slotAt booked (cur + Z.of_nat i * msPerHour)) (seq 0 n).
Proof.
  induction n as [| n IH]; intros fuel cur Hfuel.
  - destruct fuel; simpl; [reflexivity |].
    rewrite (proj2 (Z.ltb_ge _ _)) by lia. reflexivity.
  - destruct fuel as [| fuel]; [lia |].
    cbn [slotsLoop].
    assert (Hlt : (cur <? cur + Z.of_nat (S n) * msPerHour) = true)
      by (apply Z.ltb_lt; unfold msPerHour; lia).
    rewrite Hlt.
    cbn [seq List.map]. f_equal.
    + replace (cur + Z.of_nat 0 * msPerHour) with cur by lia. reflexivity.
    + replace (cur + Z.of_nat (S n) * msPerHour)
        with (addMinutes cur config.business.slotDurationMinutes + Z.of_nat n * msPerHour)
        by (unfold addMinutes, config.business.slotDurationMinutes, msPerHour; lia).
      rewrite IH by lia.
      rewrite <- seq_shift, List.map_map.
      apply List.map_ext. intros i. f_equal.
      unfold addMinutes, config.business.slotDurationMinutes, msPerHour. lia.
Qed.

(** The slot list written out: the slot of each business hour, reported
    against the appointments of the staff member on that day; a larger
    bound on the loop gives the same list. *)
Lemma findAvailableSlots_slotAt (clk : Clock) (date : Z) (salesStaffId : ObjectId)
    (coll : gmap N Appointment.t) :
  let booked := bookedAppointments clk date salesStaffId coll in
  let startOfDay := setHours0 clk date config.business.appointmentHours_start in
  let endOfDay := setHours0 clk date config.business.appointmentHours_end in
  findAvailableSlots clk date salesStaffId coll
    = List.map (fun h => slotAt booked (setHours0 clk date h)) slotHours
  /\ (forall extra,
        slotsLoop (slotRounds startOfDay endOfDay + extra) booked startOfDay endOfDay
        = findAvailableSlots clk date salesStaffId coll).
Proof.
  intros booked startOfDay endOfDay.
  assert (Hend : endOfDay = startOfDay + Z.of_nat 9 * msPerHour).
  { unfold endOfDay, startOfDay, setHours0,
      config.business.appointmentHours_end, config.business.appointmentHours_start,
      msPerHour. lia. }
  assert (Hrounds : slotRounds startOfDay endOfDay = 10%nat).
  { unfold slotRounds. rewrite Hend.
    replace (startOfDay + Z.of_nat 9 * msPerHour - startOfDay) with 32400000
      by (unfold msPerHour; lia).
    reflexivity. }
  assert (Hloop : forall fuel, (9 <= fuel)%nat ->
            slotsLoop fuel booked startOfDay endOfDay
            = List.map (fun h => slotAt booked (setHours0 clk date h)) slotHours).
  { intros fuel Hfuel. rewrite Hend, slotsLoop_rounds by exact Hfuel.
    change slotHours with (List.map (fun i : nat => 9 + Z.of_nat i) (seq 0 9)).
    rewrite List.map_map. apply List.map_ext. intros i. f_equal.
    unfold startOfDay, setHours0, config.business.appointmentHours_start. lia. }
  split.
  - unfold findAvailableSlots. fold startOfDay endOfDay booked.
    apply Hloop. rewrite Hrounds. lia.
  - intros extra. unfold findAvailableSlots. fold startOfDay endOfDay booked.
    rewrite !Hloop; [reflexivity | rewrite Hrounds; lia | rewrite Hrounds; lia].
Qed.

Lemma bookedAppointments_spec (clk : Clock) (date : Z) (salesStaffId : ObjectId)
    (coll : gmap N Appointment.t) (k : N) (a : Appointment.t) :
  In (k, a) (bookedAppointments clk date salesStaffId coll) <->
  coll !! k = Some a
  /\ Appointment.isDeleted a = false
  /\ Appointment.assignedSalesStaff a = Some salesStaffId
  /\ setHours0 clk date config.business.appointmentHours_start
       <= Appointment.scheduledDate a
       < setHours0 clk date config.business.appointmentHours_end
  /\ Appointment.status a <> AppointmentStatus.cancelled
  /\ Appointment.status a <> AppointmentStatus.no_show.
Proof.
  unfold bookedAppointments, Model_find, Model_select.
  rewrite filter_In, <- list_elem_of_In, elem_of_map_to_list. simpl.
  unfold softDeleteWhere, doc_isDeleted, Appointment_Document. simpl.
  rewrite !andb_true_iff, !negb_true_iff, !bool_decide_eq_false,
    Z.leb_le, Z.ltb_lt.
  destruct (Appointment.assignedSalesStaff a) as [s|].
  - rewrite N.eqb_eq. split.
    + intros (Hk & (((((-> & ?) & ?) & ?) & ?) & ?) & _). split_and!; auto.
    + intros (Hk & ? & [= ->] & [? ?] & ? & ?). split_and!; auto.
  - split.
    + intros (_ & (((((? & _) & _) & _) & _) & _) & _). discriminate.
    + intros (_ & _ & ? & _). discriminate.
Qed.

Lemma slotAt_isAvailable (clk : Clock) (date : Z) (salesStaffId : ObjectId)
    (coll : gmap N Appointment.t) (h : Z) :
  config.business.appointmentHours_start <= h < config.business.appointmentHours_end ->
  Slot.isAvailable
    (slotAt (bookedAppointments clk date salesStaffId coll) (setHours0 clk date h)) = false
  <-> Conflicted salesStaffId (setHours0 clk date h) coll.
Proof.
  intros Hh. unfold slotAt. simpl. rewrite negb_false_iff, existsb_exists. split.
  - intros ([k a] & Hin & Hdate). simpl in Hdate. apply Z.eqb_eq in Hdate.
    apply bookedAppointments_spec in Hin as (Hk & Hdel & Hs & _ & Hc & Hn).
    exists k, a. split_and!; assumption.
  - intros (k & a & Hk & Hdel & Hs & Hdate & Hc & Hn).
    exists (k, a). split; [| simpl; apply Z.eqb_eq; exact Hdate].
    apply bookedAppointments_spec. split_and!; try assumption.
    + rewrite Hdate. revert Hh.
      unfold setHours0, config.business.appointmentHours_start,
        config.business.appointmentHours_end, msPerHour. lia.
    + rewrite Hdate. revert Hh.
      unfold setHours0, config.business.appointmentHours_start,
        config.business.appointmentHours_end, msPerHour. lia.
Qed.

(** X1: the slot list of a day is the same for every instant of that day
    and for every staff member and set of stored appointments: nine
    slots of one hour each, starting at 9:00, 10:00, ..., 17:00 local
    time.  The loop that builds it ends: any bound above [slotRounds]
    gives the same list. *)
Lemma findAvailableSlots_hours (clk : Clock) (date : Z) (salesStaffId : ObjectId)
    (coll : gmap N Appointment.t) :
  let startOfDay := setHours0 clk date config.business.appointmentHours_start in
  let endOfDay := setHours0 clk date config.business.appointmentHours_end in
  List.map Slot.start (findAvailableSlots clk date salesStaffId coll)
    = List.map (setHours0 clk date) slotHours
  /\ Forall (fun s => Slot.end_ s = Slot.start s + msPerHour)
            (findAvailableSlots clk date salesStaffId coll)
  /\ (forall extra,
        slotsLoop (slotRounds startOfDay endOfDay + extra)
          (bookedAppointments clk date salesStaffId coll) startOfDay endOfDay
        = findAvailableSlots clk date salesStaffId coll).
Proof.
  intros startOfDay endOfDay.
  destruct (findAvailableSlots_slotAt clk date salesStaffId coll) as [Hlist Hfuel].
  split_and!.
  - rewrite Hlist, List.map_map. reflexivity.
  - rewrite Hlist. apply Forall_forall. intros s Hs.
    apply list_elem_of_In, in_map_iff in Hs as (h & <- & _). reflexivity.
  - exact Hfuel.
Qed.

(** X2: a slot is reported as taken exactly when the staff member has a
    conflicting appointment at the very instant the slot starts: one
    that is stored and not soft-deleted, neither cancelled nor a
    no-show.  An appointment that starts at any other instant of the
    hour leaves the slot available. *)
Lemma findAvailableSlots_isAvailable (clk : Clock) (date : Z) (salesStaffId : ObjectId)
    (coll : gmap N Appointment.t) :
  Forall (fun s => Slot.isAvailable s = false
                   <-> Conflicted salesStaffId (Slot.start s) coll)
         (findAvailableSlots clk date salesStaffId coll).
Proof.
  destruct (findAvailableSlots_slotAt clk date salesStaffId coll) as [-> _].
  apply Forall_forall. intros s Hs.
  apply list_elem_of_In, in_map_iff in Hs as (h & <- & Hh).
  apply slotAt_isAvailable.
  unfold slotHours in Hh. simpl in Hh.
  unfold config.business.appointmentHours_start, config.business.appointmentHours_end.
  intuition lia.
Qed.

(** ** Booking *)

Lemma createAppointment_run (clk : Clock) (userId : ObjectId) (date : Z)
    (appointmentType : AppointmentType.t) (siteAddress notes : option string) (db : Db) :
  config.business.appointmentHours_start <= getHours clk date
    < config.business.appointmentHours_end ->
  let staff :=
    if bool_decide (appointmentType = AppointmentType.ocular_visit)
    then firstWithoutConflict (activeSalesStaff (users db)) date (appointments db)
    else None in
  exists created,
    createAppointment clk userId date appointmentType siteAddress notes db =
      (with_appointments (<[newId (appointments db) := created]> (appointments db)) db,
       inr {| res_status := 201;
              res_message := "Appointment booked successfully. Waiting for agent assignment." |})
    /\ Appointment.customer created = userId
    /\ Appointment.assignedSalesStaff created = User._id <$> staff
    /\ Appointment.scheduledDate created = date
    /\ Appointment.scheduledEndDate created = Some (date + msPerHour)
    /\ Appointment.appointmentType created = appointmentType
    /\ Appointment.siteAddress created =
         (if bool_decide (appointmentType = AppointmentType.ocular_visit)
          then siteAddress else None)
    /\ Appointment.status created =
         match staff with
         | Some _ => AppointmentStatus.scheduled
         | None => AppointmentStatus.pending
         end
    /\ Appointment.cancellation created = None
    /\ Appointment.customerNotes created = notes
    /\ Appointment.isDeleted created = false
    /\ List.map h_status (Appointment.statusHistory created) =
         AppointmentStatus.pending
         :: match staff with
            | Some _ => [AppointmentStatus.scheduled]
            | None => []
            end.
Proof.
  intros [Hstart Hend] staff.
  unfold createAppointment, bind, get, throwIf, throw, ret, Appointment_create.
  rewrite (proj2 (Z.ltb_ge _ _)) by exact Hstart.
  rewrite (proj2 (Z.leb_gt _ _)) by exact Hend.
  simpl. fold staff.
  eexists. split; [reflexivity |].
  destruct staff; split_and!; reflexivity.
Qed.

Lemma createAppointment_closed (clk : Clock) (userId : ObjectId) (date : Z)
    (appointmentType : AppointmentType.t) (siteAddress notes : option string) (db : Db) :
  getHours clk date < config.business.appointmentHours_start
  \/ config.business.appointmentHours_end <= getHours clk date ->
  createAppointment clk userId date appointmentType siteAddress notes db =
    (db, inl (AppError "Appointments must be scheduled between 9:00 and 18:00" 400)).
Proof.
  intros Hhour.
  unfold createAppointment, bind, get, throwIf, throw, ret, Appointment_create.
  destruct Hhour as [Hhour | Hhour].
  - rewrite (proj2 (Z.ltb_lt _ _)) by exact Hhour. reflexivity.
  - rewrite (proj2 (Z.leb_le _ _)) by exact Hhour. rewrite orb_true_r. reflexivity.
Qed.

(** X3: a booking is refused, with the database left as it was, exactly
    when the local hour of the requested instant is before 9 or from 18
    on; the handler checks nothing else about the instant (the minutes
    are free).  An accepted booking adds one appointment under a new id,
    for the caller, ending one hour after it starts, and changes nothing
    else. *)
Lemma createAppointment_business_hours (clk : Clock) (userId : ObjectId) (date : Z)
    (appointmentType : AppointmentType.t) (siteAddress notes : option string) (db : Db) :
  let run := createAppointment clk userId date appointmentType siteAddress notes db in
  let hour := getHours clk date in
  ((hour < 9 \/ 18 <= hour) <->
   run = (db, inl (AppError "Appointments must be scheduled between 9:00 and 18:00" 400)))
  /\ ((9 <= hour < 18) <->
      exists created,
        run = (with_appointments
                 (<[newId (appointments db) := created]> (appointments db)) db,
               inr {| res_status := 201;
                      res_message :=
                        "Appointment booked successfully. Waiting for agent assignment." |})
        /\ appointments db !! newId (appointments db) = None
        /\ Appointment.customer created = userId
        /\ Appointment.scheduledDate created = date
        /\ Appointment.scheduledEndDate created = Some (date + 60 * 60000)
        /\ Appointment.appointmentType created = appointmentType
        /\ Appointment.customerNotes created = notes
        /\ Appointment.isDeleted created = false).
Proof.
  intros run hour. subst run hour.
  destruct (Z_lt_ge_dec (getHours clk date) 9) as [Hlow | Hlow];
    [| destruct (Z_lt_ge_dec (getHours clk date) 18) as [Hhigh | Hhigh]].
  - rewrite createAppointment_closed by (left; exact Hlow).
    split; split; try lia; auto.
    intros (created & Hrun & _). discriminate Hrun.
  - destruct (createAppointment_run clk userId date appointmentType siteAddress notes db)
      as (created & Hrun & Hcust & _ & Hdate & Hend & Hty & _ & _ & _ & Hnotes & Hdel & _).
    { unfold config.business.appointmentHours_start, config.business.appointmentHours_end.
      lia. }
    rewrite Hrun. split; split; try lia.
    + intros H. discriminate H.
    + intros _. exists created. split_and!; auto. apply newId_fresh.
  - rewrite createAppointment_closed
      by (right; unfold config.business.appointmentHours_end; lia).
    split; split; try lia; auto.
    intros (created & Hrun & _). discriminate Hrun.
Qed.

(** X4: an office consultation is never assigned by the booking:
    whatever sales staff are free, it is stored as [pending] without
    staff, with the single history entry of the booking, and a site
    address sent with the request is not stored. *)
Lemma createAppointment_office_consultation (clk : Clock) (userId : ObjectId) (date : Z)
    (siteAddress notes : option string) (db : Db) :
  config.business.appointmentHours_start <= getHours clk date
    < config.business.appointmentHours_end ->
  exists created,
    appointments
      (createAppointment clk userId date AppointmentType.office_consultation
         siteAddress notes db).1
      = <[newId (appointments db) := created]> (appointments db)
    /\ Appointment.status created = AppointmentStatus.pending
    /\ Appointment.assignedSalesStaff created = None
    /\ Appointment.siteAddress created = None
    /\ Appointment.statusHistory created =
         [Build_HistoryEntry AppointmentStatus.pending userId (now clk)
            "Appointment booked by customer"].
Proof.
  intros [Hstart Hend].
  unfold createAppointment, bind, get, throwIf, throw, ret, Appointment_create.
  rewrite (proj2 (Z.ltb_ge _ _)) by exact Hstart.
  rewrite (proj2 (Z.leb_gt _ _)) by exact Hend.
  simpl. eexists. split_and!; reflexivity.
Qed.

Lemma createAppointment_office_consultation_witness :
  exists created,
    appointments Cases.consultation = {[Scenario.appointmentId := created]}
    /\ Appointment.status created = AppointmentStatus.pending
    /\ Appointment.assignedSalesStaff created = None.
Proof.
  destruct (createAppointment_office_consultation Scenario.bookingClock
              Scenario.customerId Scenario.visitTime None None Scenario.db0)
    as (created & Hstored & Hstatus & Hstaff & _).
  - vm_compute. split; [discriminate | reflexivity].
  - exists created. split_and!; assumption.
Defined.

(** ** The slot list and the booking *)

Lemma onTheHour_setHours0 (clk : Clock) (date : Z) :
  onTheHour clk date -> date = setHours0 clk date (getHours clk date).
Proof.
  unfold onTheHour, setHours0, getHours. intros Hhour.
  set (L := date + utcOffset clk) in *.
  pose proof (Z.div_mod L msPerDay ltac:(unfold msPerDay; lia)) as Hday.
  pose proof (Z.div_mod L msPerHour ltac:(unfold msPerHour; lia)) as Hh.
  rewrite Hhour in Hh.
  assert (Hr : L mod msPerDay = (L / msPerHour - 24 * (L / msPerDay)) * msPerHour)
    by (unfold msPerDay, msPerHour in *; lia).
  rewrite Hr, Z.div_mul by (unfold msPerHour; lia).
  unfold L, msPerDay, msPerHour in *. lia.
Qed.

Lemma findAvailableSlots_offset (clk clk' : Clock) (date : Z) (salesStaffId : ObjectId)
    (coll : gmap N Appointment.t) :
  utcOffset clk' = utcOffset clk ->
  findAvailableSlots clk' date salesStaffId coll
  = findAvailableSlots clk date salesStaffId coll.
Proof.
  intros Hoff. unfold findAvailableSlots, bookedAppointments, setHours0.
  rewrite Hoff. reflexivity.
Qed.

Lemma setHours0_inj (clk : Clock) (date h h' : Z) :
  setHours0 clk date h = setHours0 clk date h' -> h = h'.
Proof. unfold setHours0, msPerHour. lia. Qed.

Lemma offers_spec (clk : Clock) (date : Z) (salesStaffId : ObjectId)
    (coll : gmap N Appointment.t) :
  onTheHour clk date ->
  config.business.appointmentHours_start <= getHours clk date
    < config.business.appointmentHours_end ->
  offers (findAvailableSlots clk date salesStaffId coll) date = true
  <-> ~ Conflicted salesStaffId date coll.
Proof.
  intros Hhour Hrange.
  pose proof (onTheHour_setHours0 clk date Hhour) as Hdate.
  destruct (findAvailableSlots_slotAt clk date salesStaffId coll) as [-> _].
  unfold offers. rewrite existsb_exists.
  pose proof (slotAt_isAvailable clk date salesStaffId coll (getHours clk date) Hrange)
    as Hslot.
  rewrite <- Hdate in Hslot.
  split.
  - intros (s & Hin & Hs). apply in_map_iff in Hin as (h & <- & _).
    apply andb_true_iff in Hs as [Hstart Havailable].
    simpl in Hstart. apply Z.eqb_eq in Hstart.
    rewrite Hstart in Havailable.
    intros Hconflict. apply Hslot in Hconflict. congruence.
  - intros Hfree.
    exists (slotAt (bookedAppointments clk date salesStaffId coll) date). split.
    + apply in_map_iff. exists (getHours clk date). split; [rewrite <- Hdate; reflexivity |].
      revert Hrange.
      unfold config.business.appointmentHours_start, config.business.appointmentHours_end,
        slotHours.
      generalize (getHours clk date). intros h Hh. simpl.
      assert (h = 9 \/ h = 10 \/ h = 11 \/ h = 12 \/ h = 13 \/ h = 14 \/ h = 15
              \/ h = 16 \/ h = 17) by lia.
      intuition auto.
    + apply andb_true_iff. split; [simpl; apply Z.eqb_refl |].
      destruct (Slot.isAvailable
                  (slotAt (bookedAppointments clk date salesStaffId coll) date)) eqn:Ha;
        [reflexivity | exfalso; apply Hfree, Hslot; reflexivity].
Qed.

Lemma firstWithoutConflict_find (clk : Clock) (date : Z) (coll : gmap N Appointment.t)
    (l : list User.t) :
  onTheHour clk date ->
  config.business.appointmentHours_start <= getHours clk date
    < config.business.appointmentHours_end ->
  firstWithoutConflict l date coll
  = List.find (fun u => offers (findAvailableSlots clk date (User._id u) coll) date) l.
Proof.
  intros Hhour Hrange. induction l as [| u l IH]; simpl; [reflexivity |].
  pose proof (offers_spec clk date (User._id u) coll Hhour Hrange) as Hoffers.
  pose proof (conflictAt_spec (User._id u) date coll) as Hconflict.
  destruct (conflictAt (User._id u) date coll) as [x|].
  - destruct (offers _ _); [| exact IH].
    exfalso. apply Hoffers; [reflexivity |]. apply Hconflict. eexists. reflexivity.
  - destruct (offers _ _); [reflexivity |].
    assert (Hfree : ~ Conflicted (User._id u) date coll).
    { intros Hc. apply Hconflict in Hc as [? Hc]. discriminate Hc. }
    apply Hoffers in Hfree. discriminate Hfree.
Qed.

Lemma find_map {A B : Type} (f : A -> B) (p : B -> bool) (l : list A) :
  List.find p (List.map f l) = f <$> List.find (fun x => p (f x)) l.
Proof.
  induction l as [| x l IH]; simpl; [reflexivity |].
  destruct (p (f x)); [reflexivity | exact IH].
Qed.

(** X5: the slot list decides the auto-assignment.  When a customer
    books an ocular visit that starts on the hour, inside business
    hours, the booking is assigned to the first sales staff member of
    the availability answer whose slot at that instant is available, and
    stored as [scheduled]; when the answer offers that slot for nobody,
    the booking is stored as [pending] without staff.  After an assigned
    booking the slot is no longer offered for that staff member. *)
Lemma booking_follows_slot_list
    (clk clk' : Clock) (userId : ObjectId) (date : Z)
    (siteAddress notes : option string) (db : Db) :
  utcOffset clk' = utcOffset clk ->
  onTheHour clk date ->
  config.business.appointmentHours_start <= getHours clk date
    < config.business.appointmentHours_end ->
  let run := createAppointment clk userId date AppointmentType.ocular_visit
               siteAddress notes db in
  exists availability created,
    getAvailableSlots clk' (Some date) None db = (db, inr (Availability availability))
    /\ List.map salesStaff_id availability =
         List.map User._id (activeSalesStaff (users db))
    /\ appointments run.1 = <[newId (appointments db) := created]> (appointments db)
    /\ Appointment.assignedSalesStaff created =
         salesStaff_id <$> List.find (fun e => offers (slots e) date) availability
    /\ Appointment.status created =
         match List.find (fun e => offers (slots e) date) availability with
         | Some _ => AppointmentStatus.scheduled
         | None => AppointmentStatus.pending
         end
    /\ forall staffId,
         Appointment.assignedSalesStaff created = Some staffId ->
         offers (findAvailableSlots clk' date staffId (appointments run.1)) date = false.
Proof.
  intros Hoff Hhour Hrange run.
  destruct (createAppointment_run clk userId date AppointmentType.ocular_visit
              siteAddress notes db Hrange)
    as (created & Hrun & _ & Hstaff & Hdate & _ & _ & _ & Hstatus & _ & _ & Hdel & _).
  rewrite bool_decide_eq_true_2 in Hstaff, Hstatus by reflexivity.
  rewrite (firstWithoutConflict_find clk date _ _ Hhour Hrange) in Hstaff, Hstatus.
  subst run. rewrite Hrun. simpl.
  eexists _, created. split; [reflexivity |].
  rewrite List.map_map, find_map. simpl.
  split; [reflexivity |]. split; [reflexivity |].
  assert (Hsame : forall l : list User.t,
            List.find (fun u => offers (findAvailableSlots clk' date (User._id u)
                                          (appointments db)) date) l
            = List.find (fun u => offers (findAvailableSlots clk date (User._id u)
                                            (appointments db)) date) l).
  { intros l. induction l as [| u l IH]; simpl; [reflexivity |].
    rewrite (findAvailableSlots_offset clk clk') by exact Hoff. rewrite IH. reflexivity. }
  rewrite Hsame.
  destruct (List.find _ (activeSalesStaff (users db))) as [staff|] eqn:Hfirst; simpl.
  - split; [exact Hstaff |]. split; [exact Hstatus |].
    intros staffId Hassigned.
    rewrite (findAvailableSlots_offset clk clk') by exact Hoff.
    apply not_true_is_false. intros Hoffered.
    apply (offers_spec clk date staffId _ Hhour Hrange) in Hoffered.
    apply Hoffered.
    exists (newId (appointments db)), created.
    split; [apply lookup_insert_eq |].
    rewrite Hstatus. split_and!; auto; discriminate.
  - split; [exact Hstaff |]. split; [exact Hstatus |].
    intros staffId Hassigned. rewrite Hstaff in Hassigned. discriminate Hassigned.
Qed.

Lemma booking_follows_slot_list_witness :
  exists availability created,
    getAvailableSlots Scenario.bookingClock (Some Scenario.visitTime) None Scenario.db0
    = (Scenario.db0, inr (Availability availability))
    /\ appointments Scenario.booked = {[Scenario.appointmentId := created]}
    /\ Appointment.assignedSalesStaff created =
         salesStaff_id
           <$> List.find (fun e => offers (slots e) Scenario.visitTime) availability.
Proof.
  destruct (booking_follows_slot_list Scenario.bookingClock Scenario.bookingClock
              Scenario.customerId Scenario.visitTime (Some "12 Rizal St"%string) None
              Scenario.db0)
    as (availability & created & Hslots & _ & Hstored & Hstaff & _).
  - reflexivity.
  - vm_compute. reflexivity.
  - vm_compute. split; [discriminate | reflexivity].
  - exists availability, created. split_and!; assumption.
Defined.

(** ** The life of an appointment *)

Lemma terminal_spec (s : AppointmentStatus.t) :
  isTerminalForCancel s = true <-> terminal s.
Proof. apply isTerminalForCancel_spec. Qed.

(** What one request does to the appointment collection: nothing, one
    status change of a stored appointment, or one new appointment. *)
Lemma handle_appointments_step (clk : Clock) (userId : ObjectId) (userRole : Role)
    (r : Request) (db : Db) :
  let coll := appointments db in
  let coll' := appointments (handle clk userId userRole r db).1 in
  coll' = coll
  \/ (exists id a a',
        Model_findById coll id = Some a
        /\ coll' = <[id := a']> coll
        /\ sameVisit a a'
        /\ AppointmentMove (Appointment.status a) (Appointment.status a'))
  \/ (exists created,
        coll !! newId coll = None
        /\ coll' = <[newId coll := created]> coll
        /\ Appointment.isDeleted created = false
        /\ ((Appointment.status created = AppointmentStatus.pending
             /\ Appointment.assignedSalesStaff created = None)
            \/ (exists s,
                  Appointment.status created = AppointmentStatus.scheduled
                  /\ Appointment.assignedSalesStaff created = Some s
                  /\ ~ Conflicted s (Appointment.scheduledDate created) coll))).
Proof.
  intros coll coll'. subst coll coll'.
  destruct r; simpl.
  - (* createAppointment *)
    destruct (Z_lt_ge_dec (getHours clk scheduledDate) 9) as [Hlow | Hlow];
      [| destruct (Z_lt_ge_dec (getHours clk scheduledDate) 18) as [Hhigh | Hhigh]].
    + rewrite createAppointment_closed by (left; exact Hlow). left. reflexivity.
    + destruct (createAppointment_run clk userId scheduledDate appointmentType
                  siteAddress notes db)
        as (created & Hrun & _ & Hstaff & Hdate & _ & _ & _ & Hstatus & _ & _ & Hdel & _).
      { unfold config.business.appointmentHours_start,
          config.business.appointmentHours_end. lia. }
      rewrite Hrun. simpl. right. right. exists created.
      split; [apply newId_fresh |]. split; [reflexivity |]. split; [exact Hdel |].
      destruct (bool_decide (appointmentType = AppointmentType.ocular_visit));
        [| left; split; assumption].
      destruct (firstWithoutConflict _ _ _) as [staff|] eqn:Hfirst;
        [| left; split; assumption].
      right. exists (User._id staff). split_and!; try assumption.
      rewrite Hdate.
      apply firstWithoutConflict_Some in Hfirst as (_ & _ & _ & _ & Hfree). exact Hfree.
    + rewrite createAppointment_closed
        by (right; unfold config.business.appointmentHours_end; lia).
      left. reflexivity.
  - (* cancelAppointment *)
    unfold cancelAppointment. run_handler.
    destruct (Model_findById (appointments db) id) as [a|] eqn:Hfound; [| left; reflexivity].
    simpl.
    destruct (User_findById (users db) (Appointment.customer a)) as [c|];
      destruct (bool_decide (userRole = CUSTOMER)); simpl;
      try (left; reflexivity).
    all: try (destruct (negb (User._id c =? userId)%N); simpl; [left; reflexivity |]).
    all: destruct (isTerminalForCancel (Appointment.status a)) eqn:Hterminal; simpl;
      try (left; reflexivity).
    all: right; left; eexists id, a, _; split; [exact Hfound |]; split; [reflexivity |];
      split; [unfold sameVisit; split_and!; reflexivity |];
      simpl; apply move_cancel; intros Ht; apply terminal_spec in Ht; congruence.
  - (* completeAppointment *)
    unfold completeAppointment. run_handler.
    destruct (Model_findById (appointments db) id) as [a|] eqn:Hfound; [| left; reflexivity].
    simpl.
    destruct (Appointment.assignedSalesStaff a) as [staff|]; simpl; [| left; reflexivity].
    destruct (negb (staff =? userId)%N); simpl; [left; reflexivity |].
    destruct (Appointment.status a) eqn:Hstatus; simpl; try (left; reflexivity).
    all: right; left; eexists id, a, _; split; [exact Hfound |]; split; [reflexivity |];
      split; [unfold sameVisit; split_and!; reflexivity |];
      simpl; rewrite Hstatus; apply move_complete; auto.
  - (* markNoShow *)
    unfold markNoShow. run_handler.
    destruct (Model_findById (appointments db) id) as [a|] eqn:Hfound; [| left; reflexivity].
    simpl. right. left. eexists id, a, _.
    split; [exact Hfound |]. split; [reflexivity |].
    split; [unfold sameVisit; split_and!; reflexivity |].
    simpl. apply move_no_show.
  - left. unfold uploadBlueprint. split_handler; reflexivity.
  - left. unfold uploadCosting. split_handler; reflexivity.
  - left. unfold submitForApproval. split_handler; reflexivity.
  - left. unfold approveProject, Payment_create. split_handler; reflexivity.
  - left. unfold updatePaymentStages, Payment_updateExpected. split_handler; reflexivity.
  - left. unfold submitPaymentProof. split_handler; reflexivity.
  - left. unfold verifyPayment. split_handler; reflexivity.
  - left. unfold rejectPayment. split_handler; reflexivity.
Qed.

Lemma sameVisit_refl (a : Appointment.t) : sameVisit a a.
Proof. unfold sameVisit. split_and!; reflexivity. Qed.

Lemma sameVisit_trans (a b c : Appointment.t) :
  sameVisit a b -> sameVisit b c -> sameVisit a c.
Proof. unfold sameVisit. intros (?&?&?&?&?&?) (?&?&?&?&?&?). split_and!; congruence. Qed.

Lemma AppointmentMove_terminal (s s' : AppointmentStatus.t) :
  AppointmentMove s s' -> terminal s' /\ (terminal s -> s' = AppointmentStatus.no_show).
Proof.
  unfold terminal. intros Hmove. destruct Hmove as [s Hlive | s Hopen | s].
  - split; [auto | intros Ht; contradiction].
  - split; [auto |]. intros Ht. destruct Hopen as [-> | [-> | ->]];
      destruct Ht as [Ht | [Ht | Ht]]; discriminate Ht.
  - split; auto.
Qed.

(** Pointwise form of [handle_appointments_step]. *)
Lemma handle_appointment_at (clk : Clock) (userId : ObjectId) (userRole : Role)
    (r : Request) (db : Db) (k : ObjectId) (a : Appointment.t) :
  appointments db !! k = Some a ->
  exists a',
    appointments (handle clk userId userRole r db).1 !! k = Some a'
    /\ (a' = a
        \/ (Appointment.isDeleted a = false
            /\ sameVisit a a'
            /\ AppointmentMove (Appointment.status a) (Appointment.status a'))).
Proof.
  intros Hk.
  destruct (handle_appointments_step clk userId userRole r db)
    as [-> | [(id & a0 & a' & Hfound & -> & Hsame & Hmove)
             | (created & Hnew & -> & _)]].
  - exists a. auto.
  - apply Model_findById_Some in Hfound as [Hid Hlive].
    destruct (decide (id = k)) as [-> | Hne].
    + rewrite Hk in Hid. injection Hid as ->.
      exists a'. split; [apply lookup_insert_eq |]. right. auto.
    + exists a. split; [rewrite lookup_insert_ne by exact Hne; exact Hk | auto].
  - exists a. split; [| auto].
    rewrite lookup_insert_ne; [exact Hk |].
    intros Heq. rewrite Heq in Hnew. congruence.
Qed.

(** X6: the state machine of an appointment, as the handlers behind
    [handle] implement it.  Whatever the request, a stored appointment
    stays stored for the same customer, staff member and instant, and
    its status either stays or moves along one of three edges: to
    [cancelled] from any status but cancelled, completed and no-show; to
    [completed] from scheduled, confirmed or in-progress; to [no_show]
    from any status at all.  A soft-deleted appointment is never
    changed. *)
Lemma appointment_status_moves (clk : Clock) (userId : ObjectId) (userRole : Role)
    (r : Request) (db : Db) (k : ObjectId) (a : Appointment.t) :
  appointments db !! k = Some a ->
  exists a',
    appointments (handle clk userId userRole r db).1 !! k = Some a'
    /\ sameVisit a a'
    /\ (Appointment.status a' = Appointment.status a
        \/ AppointmentMove (Appointment.status a) (Appointment.status a'))
    /\ (Appointment.isDeleted a = true -> a' = a).
Proof.
  intros Hk.
  destruct (handle_appointment_at clk userId userRole r db k a Hk)
    as (a' & Hk' & [-> | (Hlive & Hsame & Hmove)]).
  - exists a. split_and!; auto. apply sameVisit_refl.
  - exists a'. split_and!; auto. intros Hdel. congruence.
Qed.

Lemma appointment_status_moves_witness :
  exists a a',
    appointments Scenario.booked !! Scenario.appointmentId = Some a
    /\ appointments
         (handle (Scenario.at_ (Scenario.local 2024 3 1 11)) Scenario.salesId SALES_STAFF
            (MarkNoShow Scenario.appointmentId) Scenario.booked).1
       !! Scenario.appointmentId = Some a'
    /\ sameVisit a a'
    /\ (Appointment.status a' = Appointment.status a
        \/ AppointmentMove (Appointment.status a) (Appointment.status a')).
Proof.
  eexists.
  edestruct (appointment_status_moves (Scenario.at_ (Scenario.local 2024 3 1 11))
               Scenario.salesId SALES_STAFF (MarkNoShow Scenario.appointmentId)
               Scenario.booked Scenario.appointmentId)
    as (a' & Ha' & Hsame & Hmove & _).
  - vm_compute. reflexivity.
  - exists a'. split; [vm_compute; reflexivity |].
    split_and!; assumption.
Defined.

(** X7: a cancelled, completed or no-show appointment never becomes live
    again: after any sequence of requests to [handle] it is still stored
    for the same customer, staff member and instant, with a status among
    these three; the only change left is the one to [no_show]. *)
Lemma terminal_appointment_stays_terminal (calls : list Call) (db : Db)
    (k : ObjectId) (a : Appointment.t) :
  appointments db !! k = Some a ->
  terminal (Appointment.status a) ->
  exists a',
    appointments (runAll calls db) !! k = Some a'
    /\ sameVisit a a'
    /\ terminal (Appointment.status a')
    /\ (Appointment.status a' = Appointment.status a
        \/ Appointment.status a' = AppointmentStatus.no_show).
Proof.
  revert db a. induction calls as [| c calls IH]; intros db a Hk Hterminal; simpl.
  - exists a. split_and!; auto. apply sameVisit_refl.
  - destruct (handle_appointment_at (call_clock c) (call_userId c) (call_userRole c)
                (call_request c) db k a Hk)
      as (a1 & Hk1 & [-> | (_ & Hsame & Hmove)]).
    + apply IH; assumption.
    + apply AppointmentMove_terminal in Hmove as [Hterminal1 Hno_show].
      specialize (Hno_show Hterminal).
      destruct (IH _ a1 Hk1 Hterminal1) as (a' & Hk' & Hsame' & Hterminal' & Hstatus).
      exists a'. split_and!; auto.
      * eapply sameVisit_trans; eassumption.
      * right. destruct Hstatus as [-> | ->]; [exact Hno_show | reflexivity].
Qed.

Lemma terminal_appointment_stays_terminal_witness :
  exists a',
    appointments (runAll Cases.visitCalls Scenario.visitCompleted)
      !! Scenario.appointmentId = Some a'
    /\ terminal (Appointment.status a').
Proof.
  edestruct (terminal_appointment_stays_terminal Cases.visitCalls
               Scenario.visitCompleted Scenario.appointmentId)
    as (a' & Ha' & _ & Hterminal & _).
  - vm_compute. reflexivity.
  - right. left. reflexivity.
  - exists a'. split; assumption.
Defined.

(** ** Double booking *)

Lemma NoDoubleBooking_update (coll : gmap N Appointment.t) (id : ObjectId)
    (a a' : Appointment.t) :
  coll !! id = Some a ->
  sameVisit a a' ->
  (occupies a' -> occupies a) ->
  NoDoubleBooking coll -> NoDoubleBooking (<[id := a']> coll).
Proof.
  intros Hid (_ & Hstaff & Hdate & _ & _ & _) Hocc Hno k1 k2 a1 a2 s H1 H2 O1 O2 S1 S2 D.
  apply lookup_insert_Some in H1 as [[<- <-] | [Hne1 H1]];
    apply lookup_insert_Some in H2 as [[<- <-] | [Hne2 H2]].
  - reflexivity.
  - apply (Hno id k2 a a2 s); auto; congruence.
  - apply (Hno k1 id a1 a s); auto; congruence.
  - apply (Hno k1 k2 a1 a2 s); auto.
Qed.

Lemma NoDoubleBooking_insert (coll : gmap N Appointment.t) (k : ObjectId)
    (created : Appointment.t) :
  coll !! k = None ->
  (forall s, Appointment.assignedSalesStaff created = Some s ->
             ~ Conflicted s (Appointment.scheduledDate created) coll) ->
  NoDoubleBooking coll -> NoDoubleBooking (<[k := created]> coll).
Proof.
  intros Hnew Hfree Hno k1 k2 a1 a2 s H1 H2 O1 O2 S1 S2 D.
  apply lookup_insert_Some in H1 as [[<- <-] | [Hne1 H1]];
    apply lookup_insert_Some in H2 as [[<- <-] | [Hne2 H2]].
  - reflexivity.
  - exfalso. apply (Hfree s S1). destruct O2 as (? & ? & ?).
    exists k2, a2. split_and!; auto.
  - exfalso. apply (Hfree s S2). destruct O1 as (? & ? & ?).
    exists k1, a1. split_and!; auto.
  - apply (Hno k1 k2 a1 a2 s); auto.
Qed.

Lemma AppointmentMove_occupies (a a' : Appointment.t) :
  sameVisit a a' ->
  AppointmentMove (Appointment.status a) (Appointment.status a') ->
  occupies a' -> occupies a.
Proof.
  intros (_ & _ & _ & _ & _ & Hdel) Hmove (Hlive & Hc & Hn).
  unfold occupies. rewrite <- Hdel.
  inversion Hmove as [s Hs Heq1 Heq2 | s Hs Heq1 Heq2 | s Heq1 Heq2].
  - congruence.
  - split; [exact Hlive |]. destruct Hs as [-> | [-> | ->]]; split; discriminate.
  - congruence.
Qed.

Lemma handle_keeps_NoDoubleBooking (clk : Clock) (userId : ObjectId) (userRole : Role)
    (r : Request) (db : Db) :
  NoDoubleBooking (appointments db) ->
  NoDoubleBooking (appointments (handle clk userId userRole r db).1).
Proof.
  intros Hno.
  destruct (handle_appointments_step clk userId userRole r db)
    as [-> | [(id & a0 & a' & Hfound & -> & Hsame & Hmove)
             | (created & Hnew & -> & _ & Hcreated)]].
  - exact Hno.
  - apply Model_findById_Some in Hfound as [Hid _].
    eapply NoDoubleBooking_update; eauto.
    apply AppointmentMove_occupies; assumption.
  - apply NoDoubleBooking_insert; [exact Hnew | | exact Hno].
    intros s Hs. destruct Hcreated as [[_ Hnone] | (s' & _ & Hs' & Hfree)].
    + rewrite Hnone in Hs. discriminate Hs.
    + rewrite Hs' in Hs. injection Hs as <-. exact Hfree.
Qed.

(** X8: no sequence of requests to [handle] double-books a sales staff
    member: if no staff member has two appointments that take up the
    same instant (stored, not soft-deleted, neither cancelled nor
    no-show), this is still so after the requests, whatever they are and
    whoever sends them. *)
Lemma bookings_never_double_book (calls : list Call) (db : Db) :
  NoDoubleBooking (appointments db) ->
  NoDoubleBooking (appointments (runAll calls db)).
Proof.
  revert db. induction calls as [| c calls IH]; intros db Hno; [exact Hno |].
  simpl. apply IH. apply handle_keeps_NoDoubleBooking. exact Hno.
Qed.

Lemma bookings_never_double_book_witness :
  NoDoubleBooking (appointments (runAll Cases.visitCalls Scenario.db0)).
Proof.
  apply bookings_never_double_book.
  intros k1 k2 a1 a2 s H1. vm_compute in H1. discriminate H1.
Defined.

(** ** Assignment by the agent *)

Lemma User_findOne_staff (us : list User.t) (id : ObjectId) :
  is_Some (User_findOne
             (fun u => (User._id u =? id)%N
                       && bool_decide (User.role u = SALES_STAFF)
                       && User.isActive u) us)
  <-> AssignableStaff us id.
Proof.
  unfold User_findOne, AssignableStaff. split.
  - intros [u Hfind]. apply find_some in Hfind as [Hin Hcond].
    exists u. split; [exact Hin |].
    unfold softDeleteWhere, doc_isDeleted, User_Document in Hcond. simpl in Hcond.
    apply andb_true_iff in Hcond as [Hcond Hdel].
    apply andb_true_iff in Hcond as [Hcond Hactive].
    apply andb_true_iff in Hcond as [Hid Hrole].
    apply N.eqb_eq in Hid. apply bool_decide_eq_true in Hrole.
    split_and!; auto.
    destruct (User.isDeleted u); [discriminate | reflexivity].
  - intros (u & Hin & Hid & Hrole & Hactive & Hdel).
    destruct (List.find _ us) as [x|] eqn:Hfind; [eexists; reflexivity | exfalso].
    eapply find_none in Hfind; [| exact Hin].
    unfold softDeleteWhere, doc_isDeleted, User_Document in Hfind. simpl in Hfind.
    rewrite Hid, N.eqb_refl, bool_decide_eq_true_2, Hactive, Hdel in Hfind by exact Hrole.
    discriminate Hfind.
Qed.

Lemma conflictingAppointment_spec (salesStaffId : ObjectId) (date : Z)
    (id : ObjectId) (coll : gmap N Appointment.t) :
  is_Some (conflictingAppointment salesStaffId date id coll)
  <-> Conflicted salesStaffId date (delete id coll).
Proof.
  unfold conflictingAppointment, Model_findOne, Model_select, Conflicted.
  set (f := fun kv : N * Appointment.t => _).
  assert (Hf : forall k a,
            In (k, a) (List.filter f (map_to_list coll)) <->
            delete id coll !! k = Some a
            /\ Appointment.isDeleted a = false
            /\ Appointment.assignedSalesStaff a = Some salesStaffId
            /\ Appointment.scheduledDate a = date
            /\ Appointment.status a <> AppointmentStatus.cancelled
            /\ Appointment.status a <> AppointmentStatus.no_show).
  { intros k a. rewrite filter_In, <- list_elem_of_In, elem_of_map_to_list.
    rewrite lookup_delete_Some. unfold f. simpl.
    unfold softDeleteWhere, doc_isDeleted, Appointment_Document. simpl.
    rewrite !andb_true_iff, !negb_true_iff, !bool_decide_eq_false, Z.eqb_eq, N.eqb_neq.
    destruct (Appointment.assignedSalesStaff a) as [s|].
    - rewrite N.eqb_eq. split.
      + intros (Hk & ((((-> & ?) & ?) & ?) & ?) & ?). split_and!; auto.
      + intros ([? Hk] & ? & [= ->] & ? & ? & ?). split_and!; auto.
    - split.
      + intros (_ & ((((? & _) & _) & _) & _) & _). discriminate.
      + intros (_ & _ & ? & _). discriminate. }
  split.
  - intros [[k a] Hhead]. apply head_Some_elem_of, list_elem_of_In, Hf in Hhead.
    exists k, a. exact Hhead.
  - intros (k & a & Hka). apply Hf in Hka.
    destruct (head _) as [x|] eqn:Hhead; [eexists; reflexivity |].
    apply head_None in Hhead. rewrite Hhead in Hka. destruct Hka.
Qed.

Lemma assignSalesStaff_run (clk : Clock) (userId id salesStaffId : ObjectId) (db : Db)
    (a : Appointment.t) (staff : User.t) :
  Model_findById (appointments db) id = Some a ->
  Appointment.status a = AppointmentStatus.pending ->
  User_findOne
    (fun u => (User._id u =? salesStaffId)%N
              && bool_decide (User.role u = SALES_STAFF)
              && User.isActive u) (users db) = Some staff ->
  conflictingAppointment salesStaffId (Appointment.scheduledDate a) id (appointments db)
    = None ->
  assignSalesStaff clk userId id salesStaffId db =
    (with_appointments
       (<[id := Appointment.push_history
                  (Build_HistoryEntry AppointmentStatus.scheduled userId (now clk)
                     ("Assigned to " +:+ User.firstName staff +:+ " "
                      +:+ User.lastName staff))
                  (Appointment.set_status AppointmentStatus.scheduled
                     (Appointment_set_assignedSalesStaff salesStaffId a))]>
          (appointments db)) db,
     match User_findById (users db) (Appointment.customer a) with
     | Some _ => inr {| res_status := 200;
                        res_message := "Sales staff assigned successfully" |}
     | None => inl (TypeError "appointment.customer.email")
     end).
Proof.
  intros Hfound Hstatus Hstaff Hfree.
  unfold assignSalesStaff, bind, get, throwIf, throw, ret, modify, Appointment_save.
  rewrite Hfound. simpl. rewrite Hstatus. simpl. rewrite Hstaff. simpl.
  rewrite Hfree. simpl.
  destruct (User_findById (users db) (Appointment.customer a)); reflexivity.
Qed.

Lemma assignSalesStaff_cases (clk : Clock) (userId id salesStaffId : ObjectId) (db : Db)
    (a : Appointment.t) :
  Model_findById (appointments db) id = Some a ->
  let assignable :=
    Appointment.status a = AppointmentStatus.pending
    /\ AssignableStaff (users db) salesStaffId
    /\ ~ Conflicted salesStaffId (Appointment.scheduledDate a)
           (delete id (appointments db)) in
  (assignable
   /\ exists staff,
        assignSalesStaff clk userId id salesStaffId db =
          (with_appointments
             (<[id := Appointment.push_history
                        (Build_HistoryEntry AppointmentStatus.scheduled userId (now clk)
                           ("Assigned to " +:+ User.firstName staff +:+ " "
                            +:+ User.lastName staff))
                        (Appointment.set_status AppointmentStatus.scheduled
                           (Appointment_set_assignedSalesStaff salesStaffId a))]>
                (appointments db)) db,
           match User_findById (users db) (Appointment.customer a) with
           | Some _ => inr {| res_status := 200;
                              res_message := "Sales staff assigned successfully" |}
           | None => inl (TypeError "appointment.customer.email")
           end))
  \/ (~ assignable
      /\ exists message code,
           assignSalesStaff clk userId id salesStaffId db
           = (db, inl (AppError message code))).
Proof.
  intros Hfound assignable. subst assignable.
  destruct (bool_decide (Appointment.status a = AppointmentStatus.pending)) eqn:Hstatus.
  - apply bool_decide_eq_true in Hstatus.
    pose proof (User_findOne_staff (users db) salesStaffId) as Hstaff.
    destruct (User_findOne _ (users db)) as [staff|] eqn:Hfind.
    + pose proof (conflictingAppointment_spec salesStaffId (Appointment.scheduledDate a) id
                    (appointments db)) as Hconflict.
      destruct (conflictingAppointment _ _ _ _) as [x|] eqn:Hx.
      * right. split.
        -- intros (_ & _ & Hfree). apply Hfree, Hconflict. eexists. reflexivity.
        -- unfold assignSalesStaff, bind, get, throwIf, throw.
           rewrite Hfound. simpl. rewrite Hstatus. simpl. rewrite Hfind. simpl.
           rewrite Hx. eexists _, _. reflexivity.
      * left. split.
        -- split_and!; [exact Hstatus | apply Hstaff; eexists; reflexivity |].
           intros Hc. apply Hconflict in Hc as [? Hc]. discriminate Hc.
        -- exists staff. apply assignSalesStaff_run; assumption.
    + right. split.
      * intros (_ & Hs & _). apply Hstaff in Hs as [? Hs]. discriminate Hs.
      * unfold assignSalesStaff, bind, get, throwIf, throw.
        rewrite Hfound. simpl. rewrite Hstatus. simpl. rewrite Hfind.
        eexists _, _. reflexivity.
  - right. split.
    + intros (Hs & _). apply bool_decide_eq_false in Hstatus. contradiction.
    + unfold assignSalesStaff, bind, get, throwIf, throw.
      rewrite Hfound. simpl. rewrite Hstatus. eexists _, _. reflexivity.
Qed.

(** X9: on a stored appointment whose customer has a user record, the
    agent's assignment succeeds exactly on a pending appointment, for an
    active, stored sales staff member who has no other appointment
    taking up the same instant; it then stores the appointment as
    [scheduled] with that staff member, for the same customer and
    instant, with one more history entry.  In every other case it throws
    and leaves the database as it was. *)
Lemma assignSalesStaff_guard (clk : Clock) (userId id salesStaffId : ObjectId) (db : Db)
    (a : Appointment.t) :
  Model_findById (appointments db) id = Some a ->
  is_Some (User_findById (users db) (Appointment.customer a)) ->
  let run := assignSalesStaff clk userId id salesStaffId db in
  let assignable :=
    Appointment.status a = AppointmentStatus.pending
    /\ AssignableStaff (users db) salesStaffId
    /\ ~ Conflicted salesStaffId (Appointment.scheduledDate a)
           (delete id (appointments db)) in
  ((exists resp, run.2 = inr resp) <-> assignable)
  /\ (~ assignable -> run.1 = db)
  /\ (assignable ->
      exists stored,
        appointments run.1 = <[id := stored]> (appointments db)
        /\ Appointment.status stored = AppointmentStatus.scheduled
        /\ Appointment.assignedSalesStaff stored = Some salesStaffId
        /\ Appointment.customer stored = Appointment.customer a
        /\ Appointment.scheduledDate stored = Appointment.scheduledDate a
        /\ List.map h_status (Appointment.statusHistory stored) =
             List.map h_status (Appointment.statusHistory a)
             ++ [AppointmentStatus.scheduled]).
Proof.
  intros Hfound [c Hc] run assignable. subst run.
  destruct (assignSalesStaff_cases clk userId id salesStaffId db a Hfound)
    as [[Hok [staff Hrun]] | [Hnot (message & code & Hrun)]];
    fold assignable in Hok || fold assignable in Hnot; rewrite Hrun; simpl.
  - rewrite Hc. split_and!.
    + split; [intros _; exact Hok | intros _; eexists; reflexivity].
    + intros Hnot. contradiction.
    + intros _. eexists. split; [reflexivity |]. split_and!; try reflexivity.
      simpl. rewrite List.map_app. reflexivity.
  - split_and!.
    + split; [intros [resp Hresp]; discriminate Hresp | intros Hok; contradiction].
    + reflexivity.
    + intros Hok. contradiction.
Qed.

Lemma assignSalesStaff_guard_witness :
  let run := assignSalesStaff (Scenario.at_ (Scenario.local 2024 2 21 9))
               Scenario.salesId Scenario.appointmentId Scenario.salesId
               Cases.consultation in
  exists stored,
    appointments run.1 !! Scenario.appointmentId = Some stored
    /\ Appointment.status stored = AppointmentStatus.scheduled
    /\ Appointment.assignedSalesStaff stored = Some Scenario.salesId.
Proof.
  edestruct (assignSalesStaff_guard (Scenario.at_ (Scenario.local 2024 2 21 9))
               Scenario.salesId Scenario.appointmentId Scenario.salesId
               Cases.consultation)
    as (_ & _ & Hassigned).
  - vm_compute. reflexivity.
  - eexists. vm_compute. reflexivity.
  - destruct Hassigned as (stored & Hstored & Hstatus & Hstaff & _).
    + split; [reflexivity |]. split.
      * exists (Scenario.user Scenario.salesId SALES_STAFF "Ben").
        split; [right; left; reflexivity | split_and!; reflexivity].
      * intros (k & a & Hk & _).
        apply lookup_delete_Some in Hk as [Hne Hk].
        assert (exists a0, appointments Cases.consultation
                           = {[Scenario.appointmentId := a0]}) as [a0 Hmap]
          by (eexists; reflexivity).
        rewrite Hmap in Hk. apply lookup_singleton_Some in Hk as [Hk _].
        apply Hne. exact Hk.
    + exists stored. split; [| split; assumption].
      simpl. rewrite Hstored. apply lookup_insert_eq.
Defined.

(** X10: the agent's assignment never double-books: if no staff member
    has two appointments that take up the same instant, this is still so
    after the assignment, whether it succeeded or not. *)
Lemma assignSalesStaff_never_double_books
    (clk : Clock) (userId id salesStaffId : ObjectId) (db : Db) :
  NoDoubleBooking (appointments db) ->
  NoDoubleBooking (appointments (assignSalesStaff clk userId id salesStaffId db).1).
Proof.
  intros Hno.
  destruct (Model_findById (appointments db) id) as [a|] eqn:Hfound.
  - destruct (assignSalesStaff_cases clk userId id salesStaffId db a Hfound)
      as [[(Hstatus & _ & Hfree) [staff ->]] | [_ (message & code & ->)]];
      [| exact Hno].
    simpl. apply Model_findById_Some in Hfound as [Hid Hlive].
    intros k1 k2 a1 a2 s H1 H2 O1 O2 S1 S2 D.
    apply lookup_insert_Some in H1 as [[<- <-] | [Hne1 H1]];
      apply lookup_insert_Some in H2 as [[<- <-] | [Hne2 H2]].
    + reflexivity.
    + exfalso. apply Hfree. simpl in S1, D. injection S1 as <-.
      destruct O2 as (? & ? & ?).
      exists k2, a2. rewrite lookup_delete_Some. split_and!; auto.
    + exfalso. apply Hfree. simpl in S2, D. injection S2 as <-.
      destruct O1 as (? & ? & ?).
      exists k1, a1. rewrite lookup_delete_Some. split_and!; auto.
    + apply (Hno k1 k2 a1 a2 s); auto.
  - unfold assignSalesStaff, bind, get, throw. rewrite Hfound. exact Hno.
Qed.

Lemma assignSalesStaff_never_double_books_witness :
  NoDoubleBooking
    (appointments
       (assignSalesStaff (Scenario.at_ (Scenario.local 2024 2 21 9))
          Scenario.salesId Scenario.appointmentId Scenario.salesId
          Cases.consultation).1).
Proof.
  apply assignSalesStaff_never_double_books.
  assert (exists a0, appointments Cases.consultation
                     = {[Scenario.appointmentId := a0]}) as [a0 Hmap]
    by (eexists; reflexivity).
  rewrite Hmap. intros k1 k2 a1 a2 s H1 H2 _ _ _ _ _.
  apply lookup_singleton_Some in H1 as [<- _].
  apply lookup_singleton_Some in H2 as [<- _].
  reflexivity.
Defined.

(** ** The cancellation virtual *)

Lemma cancelAppointment_run (clk : Clock) (userId : ObjectId) (userRole : Role)
    (id : ObjectId) (reason : option string) (db : Db) (a : Appointment.t) (c : User.t) :
  Model_findById (appointments db) id = Some a ->
  User_findById (users db) (Appointment.customer a) = Some c ->
  (userRole = CUSTOMER -> Appointment.customer a = userId) ->
  isTerminalForCancel (Appointment.status a) = false ->
  let isWithinPolicy :=
    now clk <? addHours (Appointment.scheduledDate a)
                 (- config.business.cancellationCutoffHours) in
  cancelAppointment clk userId userRole id reason db =
    (with_appointments
       (<[id := Appointment.push_history
                  (Build_HistoryEntry AppointmentStatus.cancelled userId (now clk)
                     (cancellationReasonOf reason))
                  (Appointment.set_cancellation
                     {| Appointment.cancelledBy := userId;
                        Appointment.cancelledAt := now clk;
                        Appointment.reason := cancellationReasonOf reason;
                        Appointment.isWithinPolicy := isWithinPolicy |}
                     (Appointment.set_status AppointmentStatus.cancelled a))]>
          (appointments db)) db,
     inr {| res_status := 200;
            res_message :=
              if isWithinPolicy
              then "Appointment cancelled successfully"
              else "Appointment cancelled. Note: Cancellation was made less than 24 hours before the scheduled time." |}).
Proof.
  intros Hfound Hc Howner Hlive isWithinPolicy.
  pose proof (User_findById_id _ _ _ Hc) as Hid.
  unfold cancelAppointment, bind, get, throwIf, throw, ret, modify, Appointment_save.
  rewrite Hfound. simpl. rewrite Hc, Hlive.
  destruct (bool_decide (userRole = CUSTOMER)) eqn:Hrole; simpl.
  - apply bool_decide_eq_true in Hrole.
    rewrite Hid, (Howner Hrole), N.eqb_refl. reflexivity.
  - reflexivity.
Qed.

Lemma canBeCancelled_live (clk : Clock) (a : Appointment.t) :
  isTerminalForCancel (Appointment.status a) = false ->
  canBeCancelled clk a =
    (now clk <? addHours (Appointment.scheduledDate a)
                  (- config.business.cancellationCutoffHours)).
Proof.
  unfold canBeCancelled, isTerminalForCancel. intros ->. reflexivity.
Qed.

Lemma canBeCancelled_terminal (clk : Clock) (a : Appointment.t) :
  isTerminalForCancel (Appointment.status a) = true -> canBeCancelled clk a = false.
Proof.
  unfold canBeCancelled, isTerminalForCancel. intros ->. reflexivity.
Qed.

(** X11: the virtual [canBeCancelled] is not what decides a
    cancellation.  Where it is true the cancellation goes through within
    the policy.  Where it is false on an appointment that is not yet
    cancelled, completed or a no-show (less than 24 hours are left, or
    the appointment is already past), the cancellation goes through all
    the same and is recorded as outside the policy.  In both cases the
    flag recorded in the cancellation is the value of the virtual at the
    time of the request. *)
Lemma canBeCancelled_not_enforced
    (clk : Clock) (userId : ObjectId) (userRole : Role) (id : ObjectId)
    (reason : option string) (db : Db) (a : Appointment.t) :
  Model_findById (appointments db) id = Some a ->
  is_Some (User_findById (users db) (Appointment.customer a)) ->
  (userRole = CUSTOMER -> Appointment.customer a = userId) ->
  ~ terminal (Appointment.status a) ->
  let run := cancelAppointment clk userId userRole id reason db in
  exists stored cancellation,
    appointments run.1 !! id = Some stored
    /\ Appointment.status stored = AppointmentStatus.cancelled
    /\ Appointment.cancellation stored = Some cancellation
    /\ Appointment.isWithinPolicy cancellation = canBeCancelled clk a
    /\ run.2 = inr {| res_status := 200;
                      res_message :=
                        if canBeCancelled clk a
                        then "Appointment cancelled successfully"
                        else "Appointment cancelled. Note: Cancellation was made less than 24 hours before the scheduled time." |}
    /\ forall clk', canBeCancelled clk' stored = false.
Proof.
  intros Hfound [c Hc] Howner Hlive run. subst run.
  assert (Hterminal : isTerminalForCancel (Appointment.status a) = false).
  { apply not_true_is_false. intros Ht. apply Hlive, terminal_spec. exact Ht. }
  rewrite (cancelAppointment_run clk userId userRole id reason db a c
             Hfound Hc Howner Hterminal).
  rewrite (canBeCancelled_live clk a Hterminal). simpl.
  eexists _, _. split; [apply lookup_insert_eq |].
  split_and!; reflexivity.
Qed.

Lemma canBeCancelled_not_enforced_witness :
  let clk := Scenario.at_ (Scenario.local 2024 3 1 9) in
  let run := cancelAppointment clk Scenario.customerId CUSTOMER
               Scenario.appointmentId None Scenario.booked in
  exists a stored cancellation,
    appointments Scenario.booked !! Scenario.appointmentId = Some a
    /\ canBeCancelled clk a = false
    /\ appointments run.1 !! Scenario.appointmentId = Some stored
    /\ Appointment.status stored = AppointmentStatus.cancelled
    /\ Appointment.cancellation stored = Some cancellation
    /\ Appointment.isWithinPolicy cancellation = false.
Proof.
  eexists.
  edestruct (canBeCancelled_not_enforced (Scenario.at_ (Scenario.local 2024 3 1 9))
               Scenario.customerId CUSTOMER Scenario.appointmentId None Scenario.booked)
    as (stored & cancellation & Hstored & Hstatus & Hcancellation & Hpolicy & _).
  - vm_compute. reflexivity.
  - eexists. vm_compute. reflexivity.
  - intros _. reflexivity.
  - intros [H | [H | H]]; discriminate H.
  - exists stored, cancellation.
    split; [vm_compute; reflexivity |].
    split; [vm_compute; reflexivity |].
    split_and!; assumption.
Defined.

(** ** Completing an appointment that nobody is assigned to *)

(** X12: an appointment without sales staff, as every office
    consultation is after its booking, cannot be completed: whoever
    asks, the handler throws a [TypeError] on the missing staff and
    leaves the database as it was. *)
Lemma completeAppointment_unassigned
    (clk clk' : Clock) (customerId userId : ObjectId) (date : Z)
    (siteAddress notes salesNotes : option string) (db : Db) :
  config.business.appointmentHours_start <= getHours clk date
    < config.business.appointmentHours_end ->
  let booked :=
    (createAppointment clk customerId date AppointmentType.office_consultation
       siteAddress notes db).1 in
  completeAppointment clk' userId (newId (appointments db)) salesNotes booked
  = (booked, inl (TypeError "appointment.assignedSalesStaff.toString")).
Proof.
  intros Hrange booked. subst booked.
  destruct (createAppointment_run clk customerId date AppointmentType.office_consultation
              siteAddress notes db Hrange)
    as (created & -> & _ & Hstaff & _ & _ & _ & _ & _ & _ & _ & Hdel & _).
  simpl in *.
  unfold completeAppointment, bind, get, throw.
  replace (Model_findById _ _) with (Some created).
  - simpl. rewrite Hstaff. reflexivity.
  - symmetry. apply Model_findById_Some. split; [apply lookup_insert_eq | exact Hdel].
Qed.

Lemma completeAppointment_unassigned_witness :
  completeAppointment (Scenario.at_ (Scenario.local 2024 3 1 11)) Scenario.salesId
    Scenario.appointmentId None Cases.consultation
  = (Cases.consultation, inl (TypeError "appointment.assignedSalesStaff.toString")).
Proof.
  apply (completeAppointment_unassigned Scenario.bookingClock
           (Scenario.at_ (Scenario.local 2024 3 1 11)) Scenario.customerId
           Scenario.salesId Scenario.visitTime None None None Scenario.db0).
  vm_compute. split; [discriminate | reflexivity].
Defined.

(** ** The life of a payment *)

Lemma Payment_updateExpected_step (proj : ObjectId) (s : Stage.t) (x : option Z) (db : Db) :
  let db' := (Payment_updateExpected proj s x db).1 in
  users db' = users db /\ appointments db' = appointments db /\ projects db' = projects db
  /\ (payments db' = payments db \/ ExpectedUpdate (payments db) (payments db')).
Proof.
  unfold Payment_updateExpected, modify. simpl.
  destruct x as [v|]; simpl; [| auto].
  split_and!; try reflexivity.
  unfold Model_updateOne.
  destruct (head _) as [[k d]|] eqn:Hhead; [| auto].
  right. exists k, d, v. split; [| reflexivity].
  eapply Model_select_lookup. exact Hhead.
Qed.

(** What one request does to the payment collection: nothing or one
    step of one stored payment; the new payments of an approval; or,
    for the admin's update of the stages, up to three rewritten
    expected amounts. *)
Lemma handle_payments_step (clk : Clock) (userId : ObjectId) (userRole : Role)
    (r : Request) (db : Db) :
  let coll := payments db in
  let coll' := payments (handle clk userId userRole r db).1 in
  coll' = coll
  \/ (exists id p p',
        Model_findById coll id = Some p /\ coll' = <[id := p']> coll
        /\ PaymentStep p p')
  \/ (exists clk' ds,
        Forall (fun d => Payment.d_status d = PaymentStatus.pending) ds
        /\ coll' = (Payment_insertMany clk' ds coll).1)
  \/ rtc ExpectedUpdate coll coll'.
Proof.
  intros coll coll'. subst coll coll'.
  destruct r; simpl.
  - left. unfold createAppointment. split_handler; reflexivity.
  - left. unfold cancelAppointment. split_handler; reflexivity.
  - left. unfold completeAppointment. split_handler; reflexivity.
  - left. unfold markNoShow. split_handler; reflexivity.
  - left. unfold uploadBlueprint. split_handler; reflexivity.
  - left. unfold uploadCosting. split_handler; reflexivity.
  - left. unfold submitForApproval. split_handler; reflexivity.
  - (* approveProject *)
    unfold approveProject. run_handler.
    destruct (Model_findById (projects db) id) as [project|]; [| left; reflexivity]. simpl.
    destruct (negb _); [left; reflexivity |]. simpl.
    destruct (negb _); [left; reflexivity |]. simpl.
    destruct (last _); [| left; reflexivity].
    unfold Payment_create.
    right. right. left.
    match goal with |- context [Payment_insertMany clk (stageDrafts id ?q) ?c] =>
      exists clk, (stageDrafts id q);
      split; [repeat constructor |];
      change c with (payments db);
      destruct (Payment_insertMany clk (stageDrafts id q) (payments db)) as [c' e]
    end.
    destruct e; reflexivity.
  - (* updatePaymentStages *)
    unfold updatePaymentStages.
    unfold bind, get, throwIf, throw, ret, Project_save. cbn.
    destruct (negb _); [left; reflexivity |]. cbn.
    destruct (Model_findById _ _); [| left; reflexivity]. cbn.
    right. right. right.
    match goal with |- context [Payment_updateExpected id Stage.initial ?x ?d] =>
      destruct (Payment_updateExpected_step id Stage.initial x d) as (_ & _ & _ & H1);
      destruct (Payment_updateExpected id Stage.initial x d) as [d1 [e1|[]]] eqn:E1 end;
      cbn in H1 |- *.
    { destruct H1 as [-> | H1]; [reflexivity | apply rtc_once; exact H1]. }
    match goal with |- context [Payment_updateExpected id Stage.midpoint ?x ?d] =>
      destruct (Payment_updateExpected_step id Stage.midpoint x d) as (_ & _ & _ & H2);
      destruct (Payment_updateExpected id Stage.midpoint x d) as [d2 [e2|[]]] eqn:E2 end;
      cbn in H2 |- *.
    { etrans; [destruct H1 as [<- | H1]; [reflexivity | apply rtc_once; exact H1] |].
      destruct H2 as [-> | H2]; [reflexivity | apply rtc_once; exact H2]. }
    match goal with |- context [Payment_updateExpected id Stage.final ?x ?d] =>
      destruct (Payment_updateExpected_step id Stage.final x d) as (_ & _ & _ & H3);
      destruct (Payment_updateExpected id Stage.final x d) as [d3 [e3|[]]] eqn:E3 end;
      cbn in H3 |- *.
    all: etrans; [destruct H1 as [<- | H1]; [reflexivity | apply rtc_once; exact H1] |].
    all: etrans; [destruct H2 as [<- | H2]; [reflexivity | apply rtc_once; exact H2] |].
    all: destruct H3 as [-> | H3]; [reflexivity | apply rtc_once; exact H3].
  - (* submitPaymentProof *)
    unfold submitPaymentProof. run_handler.
    destruct (Model_findById (payments db) id) as [payment|] eqn:Hfound; [| left; reflexivity].
    simpl.
    destruct (negb _); [left; reflexivity |]. simpl.
    destruct (bool_decide (Payment.status payment = PaymentStatus.verified)) eqn:Hstatus;
      [left; reflexivity |]. simpl.
    destruct file as [f|]; [| left; reflexivity]. simpl.
    right. left. eexists id, payment, _. split; [exact Hfound |].
    split; [destruct (Model_findById (projects db) _); reflexivity |].
    apply step_submit. apply bool_decide_eq_false in Hstatus. exact Hstatus.
  - (* verifyPayment *)
    unfold verifyPayment. run_handler.
    destruct (Model_findById (payments db) id) as [payment|] eqn:Hfound; [| left; reflexivity].
    simpl.
    destruct (bool_decide (Payment.status payment = PaymentStatus.submitted)) eqn:Hstatus;
      [| left; reflexivity]. simpl.
    right. left. eexists id, payment, _. split; [exact Hfound |].
    split; [repeat case_match; simplify_eq; reflexivity |].
    apply step_verify. apply bool_decide_eq_true in Hstatus. exact Hstatus.
  - (* rejectPayment *)
    unfold rejectPayment. run_handler.
    destruct (Model_findById (payments db) id) as [payment|] eqn:Hfound; [| left; reflexivity].
    simpl.
    destruct (bool_decide (Payment.status payment = PaymentStatus.submitted)) eqn:Hstatus;
      [| left; reflexivity]. simpl.
    right. left. eexists id, payment, _. split; [exact Hfound |].
    split; [reflexivity |].
    apply step_reject. apply bool_decide_eq_true in Hstatus. exact Hstatus.
Qed.

Lemma PaymentStep_same (p p' : Payment.t) : PaymentStep p p' -> samePayment p p'.
Proof. intros Hstep. destruct Hstep; unfold samePayment; split_and!; reflexivity. Qed.

Lemma PaymentStep_move (p p' : Payment.t) :
  PaymentStep p p' -> PaymentMove (Payment.status p) (Payment.status p').
Proof.
  intros Hstep. destruct Hstep as [p x | p c u m f Hs | p c u a r n k Hs | p c u r Hs]; simpl.
  - apply move_stay.
  - apply move_submit. exact Hs.
  - rewrite Hs. apply move_verify.
  - rewrite Hs. apply move_reject.
Qed.

Lemma PaymentStep_verified (p p' : Payment.t) :
  PaymentStep p p' ->
  Payment.status p = PaymentStatus.verified ->
  p' = Payment.set_amount_expected (Payment.amount_expected p') p.
Proof.
  intros Hstep Hverified.
  destruct Hstep as [p x | p c u m f Hs | p c u a r n k Hs | p c u r Hs];
    [reflexivity | contradiction | congruence | congruence].
Qed.

Lemma PaymentStep_Consistent (p p' : Payment.t) :
  PaymentStep p p' -> Consistent p -> Consistent p'.
Proof.
  intros Hstep (Hreceipt & Hverified & Hsubmitted & Hrejected).
  destruct Hstep as [p x | p c u m f Hs | p c u a r n k Hs | p c u r Hs];
    unfold Consistent; simpl.
  - split_and!; assumption.
  - split_and!.
    + split; [discriminate |]. intros Hr. apply Hreceipt in Hr. contradiction.
    + discriminate.
    + intros _. eexists. reflexivity.
    + discriminate.
  - split_and!.
    + split; intros _; [eexists |]; reflexivity.
    + intros _. split; eexists; reflexivity.
    + discriminate.
    + discriminate.
  - split_and!.
    + split; [discriminate |]. intros Hr. apply Hreceipt in Hr. congruence.
    + discriminate.
    + discriminate.
    + intros _. eexists. reflexivity.
Qed.

Lemma ExpectedUpdate_at (coll coll' : gmap N Payment.t) (k : N) (p : Payment.t) :
  rtc ExpectedUpdate coll coll' ->
  coll !! k = Some p ->
  exists p', coll' !! k = Some p'
             /\ (p' = p \/ exists x, p' = Payment.set_amount_expected x p).
Proof.
  intros Hrtc. revert p. induction Hrtc as [coll | coll c1 coll' Hstep _ IH]; intros p Hk.
  - exists p. auto.
  - destruct Hstep as (k0 & p0 & x & Hk0 & ->).
    destruct (decide (k0 = k)) as [-> | Hne].
    + rewrite Hk in Hk0. injection Hk0 as <-.
      destruct (IH (Payment.set_amount_expected x p)) as (p' & Hk' & Hp');
        [apply lookup_insert_eq |].
      exists p'. split; [exact Hk' |]. right.
      destruct Hp' as [-> | [y ->]]; eexists; reflexivity.
    + apply IH. rewrite lookup_insert_ne by exact Hne. exact Hk.
Qed.

Lemma ExpectedUpdate_new (coll coll' : gmap N Payment.t) (k : N) :
  rtc ExpectedUpdate coll coll' -> coll !! k = None -> coll' !! k = None.
Proof.
  intros Hrtc. induction Hrtc as [coll | coll c1 coll' Hstep _ IH]; intros Hk; [exact Hk |].
  destruct Hstep as (k0 & p0 & x & Hk0 & ->).
  apply IH. rewrite lookup_insert_ne; [exact Hk |]. intros ->. congruence.
Qed.

Lemma Payment_insertMany_new (clk : Clock) (ds : list Payment.Draft)
    (coll : gmap N Payment.t) (k : N) (p' : Payment.t) :
  coll !! k = None ->
  (Payment_insertMany clk ds coll).1 !! k = Some p' ->
  exists d x, In d ds /\ Payment.d_expected d = Some x /\ p' = Payment.of_draft clk d x.
Proof.
  revert coll. induction ds as [| d ds IH]; intros coll Hnone Hk; simpl in Hk.
  - congruence.
  - unfold Payment_insert in Hk at 1.
    destruct (Payment.d_expected d) as [x|] eqn:Hx.
    + destruct (Payment_indexTaken _ _ coll).
      * destruct (Payment_insertMany clk ds coll) as [c e] eqn:Hrun. simpl in Hk.
        destruct (IH coll Hnone) as (d' & x' & Hin & Hx' & ->);
          [rewrite Hrun; exact Hk |].
        exists d', x'. split_and!; auto. right. exact Hin.
      * match type of Hk with context [Payment_insertMany clk ds ?c1] =>
          destruct (Payment_insertMany clk ds c1) as [c e] eqn:Hrun;
          destruct (decide (newId coll = k)) as [<- | Hne];
          [ pose proof (Payment_insertMany_keeps clk ds c1 (newId coll)
                          (Payment.of_draft clk d x) (lookup_insert_eq _ _ _)) as Hkept
          | destruct (IH c1) as (d' & x' & Hin & Hx' & ->);
            [ rewrite lookup_insert_ne by exact Hne; exact Hnone
            | rewrite Hrun; exact Hk
            | exists d', x'; split_and!; auto; right; exact Hin ] ]
        end.
        rewrite Hrun in Hkept. simpl in Hk, Hkept. rewrite Hk in Hkept.
        injection Hkept as ->. exists d, x. split_and!; auto. left. reflexivity.
    + destruct (Payment_insertMany clk ds coll) as [c e] eqn:Hrun. simpl in Hk.
      destruct (IH coll Hnone) as (d' & x' & Hin & Hx' & ->);
        [rewrite Hrun; exact Hk |].
      exists d', x'. split_and!; auto. right. exact Hin.
Qed.

(** Pointwise form of [handle_payments_step], for a stored payment. *)
Lemma handle_payment_at (clk : Clock) (userId : ObjectId) (userRole : Role)
    (r : Request) (db : Db) (k : ObjectId) (p : Payment.t) :
  payments db !! k = Some p ->
  exists p',
    payments (handle clk userId userRole r db).1 !! k = Some p'
    /\ (p' = p
        \/ (PaymentStep p p'
            /\ (Payment.isDeleted p = true ->
                exists x, p' = Payment.set_amount_expected x p))).
Proof.
  intros Hk.
  destruct (handle_payments_step clk userId userRole r db)
    as [-> | [(id & p0 & p' & Hfound & -> & Hstep)
             | [(clk' & ds & _ & ->) | Hrtc]]].
  - exists p. auto.
  - apply Model_findById_Some in Hfound as [Hid Hlive].
    destruct (decide (id = k)) as [-> | Hne].
    + rewrite Hk in Hid. injection Hid as ->.
      exists p'. split; [apply lookup_insert_eq |]. right. split; [exact Hstep |].
      intros Hdel. unfold doc_isDeleted, Payment_Document in Hlive. congruence.
    + exists p. split; [rewrite lookup_insert_ne by exact Hne; exact Hk | auto].
  - exists p. split; [apply Payment_insertMany_keeps; exact Hk | auto].
  - destruct (ExpectedUpdate_at _ _ k p Hrtc Hk) as (p' & Hk' & [-> | [x ->]]).
    + exists p. auto.
    + eexists. split; [exact Hk' |]. right. split; [apply step_expected |].
      intros _. eexists. reflexivity.
Qed.

(** Pointwise form of [handle_payments_step], for a new payment. *)
Lemma handle_payment_new (clk : Clock) (userId : ObjectId) (userRole : Role)
    (r : Request) (db : Db) (k : ObjectId) (p' : Payment.t) :
  payments db !! k = None ->
  payments (handle clk userId userRole r db).1 !! k = Some p' ->
  exists clk' d x, Payment.d_status d = PaymentStatus.pending
                   /\ p' = Payment.of_draft clk' d x.
Proof.
  intros Hnone Hk.
  destruct (handle_payments_step clk userId userRole r db)
    as [Heq | [(id & p0 & p1 & Hfound & Heq & Hstep)
              | [(clk' & ds & Hds & Heq) | Hrtc]]].
  - rewrite Heq in Hk. congruence.
  - rewrite Heq in Hk. apply Model_findById_Some in Hfound as [Hid _].
    rewrite lookup_insert_ne in Hk by (intros ->; congruence). congruence.
  - rewrite Heq in Hk.
    destruct (Payment_insertMany_new clk' ds _ k p' Hnone Hk) as (d & x & Hin & _ & ->).
    exists clk', d, x. split; [| reflexivity].
    rewrite Forall_forall in Hds. apply Hds, list_elem_of_In. exact Hin.
  - rewrite (ExpectedUpdate_new _ _ k Hrtc Hnone) in Hk. discriminate Hk.
Qed.

Lemma UniqueStage_update (coll : gmap N Payment.t) (k : N) (p p' : Payment.t) :
  coll !! k = Some p -> samePayment p p' ->
  UniqueStage coll -> UniqueStage (<[k := p']> coll).
Proof.
  intros Hk (Hproject & _ & Hstage & _) Hu k1 k2 p1 p2 H1 H2 Hp Hs.
  apply lookup_insert_Some in H1 as [[<- <-] | [Hne1 H1]];
    apply lookup_insert_Some in H2 as [[<- <-] | [Hne2 H2]].
  - reflexivity.
  - apply (Hu k k2 p p2); auto; congruence.
  - apply (Hu k1 k p1 p); auto; congruence.
  - apply (Hu k1 k2 p1 p2); auto.
Qed.

Lemma UniqueStage_insertMany (clk : Clock) (ds : list Payment.Draft)
    (coll : gmap N Payment.t) :
  UniqueStage coll -> UniqueStage (Payment_insertMany clk ds coll).1.
Proof.
  revert coll. induction ds as [| d ds IH]; intros coll Hu; [exact Hu |].
  simpl. unfold Payment_insert at 1.
  destruct (Payment.d_expected d) as [x|].
  - destruct (Payment_indexTaken _ _ coll) eqn:Htaken.
    + specialize (IH coll Hu). destruct (Payment_insertMany clk ds coll). exact IH.
    + match goal with |- context [Payment_insertMany clk ds ?c1] =>
        specialize (IH c1); destruct (Payment_insertMany clk ds c1) end.
      apply IH. intros k1 k2 p1 p2 H1 H2 Hp Hs.
      assert (Hfree : forall k p, coll !! k = Some p ->
                Payment.project p = Payment.d_project d ->
                Payment.stage p = Payment.d_stage d -> False).
      { intros k p Hk Hproject Hstage.
        assert (Payment_indexTaken (Payment.d_project d) (Payment.d_stage d) coll = true)
          by (apply Payment_indexTaken_spec; eauto).
        congruence. }
      apply lookup_insert_Some in H1 as [[<- <-] | [Hne1 H1]];
        apply lookup_insert_Some in H2 as [[<- <-] | [Hne2 H2]].
      * reflexivity.
      * exfalso. apply (Hfree k2 p2 H2); simpl in *; congruence.
      * exfalso. apply (Hfree k1 p1 H1); simpl in *; congruence.
      * apply (Hu k1 k2 p1 p2); auto.
  - specialize (IH coll Hu). destruct (Payment_insertMany clk ds coll). exact IH.
Qed.

Lemma UniqueStage_expected (coll coll' : gmap N Payment.t) :
  rtc ExpectedUpdate coll coll' -> UniqueStage coll -> UniqueStage coll'.
Proof.
  intros Hrtc. induction Hrtc as [coll | coll c1 coll' Hstep _ IH]; intros Hu; [exact Hu |].
  destruct Hstep as (k & p & x & Hk & ->).
  apply IH. eapply UniqueStage_update; [exact Hk | | exact Hu].
  apply PaymentStep_same, step_expected.
Qed.

Lemma handle_keeps_UniqueStage (clk : Clock) (userId : ObjectId) (userRole : Role)
    (r : Request) (db : Db) :
  UniqueStage (payments db) ->
  UniqueStage (payments (handle clk userId userRole r db).1).
Proof.
  intros Hu.
  destruct (handle_payments_step clk userId userRole r db)
    as [-> | [(id & p0 & p1 & Hfound & -> & Hstep)
             | [(clk' & ds & _ & ->) | Hrtc]]].
  - exact Hu.
  - apply Model_findById_Some in Hfound as [Hid _].
    eapply UniqueStage_update; [exact Hid | apply PaymentStep_same; exact Hstep | exact Hu].
  - apply UniqueStage_insertMany. exact Hu.
  - eapply UniqueStage_expected; eassumption.
Qed.

Lemma of_draft_Consistent (clk : Clock) (d : Payment.Draft) (x : Z) :
  Payment.d_status d = PaymentStatus.pending -> Consistent (Payment.of_draft clk d x).
Proof.
  intros Hd. unfold Consistent. simpl. rewrite Hd.
  split_and!; try discriminate.
  split; [discriminate | intros [? H]; discriminate H].
Qed.

(** X13: the state machine of a payment, as the handlers behind [handle]
    implement it.  Whatever the request, a stored payment stays stored,
    for the same project, customer and stage; its status either stays or
    moves along one of three edges: to [submitted] from any status but
    verified, and from [submitted] to [verified] or to [rejected].  A
    record that is consistent with its status (a receipt exactly when
    verified, a received amount and a verification when verified, a
    proof when submitted, a rejection when rejected) stays so.  The only
    change a request makes to a soft-deleted payment is to its expected
    amount. *)
Lemma payment_status_moves (clk : Clock) (userId : ObjectId) (userRole : Role)
    (r : Request) (db : Db) (k : ObjectId) (p : Payment.t) :
  payments db !! k = Some p ->
  exists p',
    payments (handle clk userId userRole r db).1 !! k = Some p'
    /\ samePayment p p'
    /\ PaymentMove (Payment.status p) (Payment.status p')
    /\ (Consistent p -> Consistent p')
    /\ (Payment.isDeleted p = true ->
        p' = Payment.set_amount_expected (Payment.amount_expected p') p).
Proof.
  intros Hk.
  destruct (handle_payment_at clk userId userRole r db k p Hk)
    as (p' & Hk' & [-> | [Hstep Hdeleted]]).
  - exists p. split_and!; auto.
    + unfold samePayment. split_and!; reflexivity.
    + apply move_stay.
    + intros _. destruct p; reflexivity.
  - exists p'. split_and!; auto.
    + apply PaymentStep_same. exact Hstep.
    + apply PaymentStep_move. exact Hstep.
    + apply PaymentStep_Consistent. exact Hstep.
    + intros Hdel. destruct (Hdeleted Hdel) as [x ->]. reflexivity.
Qed.

Lemma payment_status_moves_witness :
  exists p p',
    payments Scenario.proofsSubmitted !! Scenario.initialPaymentId = Some p
    /\ payments
         (handle Scenario.firstVerification Scenario.cashierId CASHIER
            (VerifyPayment Scenario.initialPaymentId 30000 None None)
            Scenario.proofsSubmitted).1
       !! Scenario.initialPaymentId = Some p'
    /\ samePayment p p'
    /\ PaymentMove (Payment.status p) (Payment.status p').
Proof.
  eexists.
  edestruct (payment_status_moves Scenario.firstVerification Scenario.cashierId CASHIER
               (VerifyPayment Scenario.initialPaymentId 30000 None None)
               Scenario.proofsSubmitted Scenario.initialPaymentId)
    as (p' & Hp' & Hsame & Hmove & _).
  - vm_compute. reflexivity.
  - exists p'. split; [vm_compute; reflexivity |].
    split_and!; assumption.
Defined.

(** X14: a verified payment is final.  After any sequence of requests to
    [handle] it is still stored and still verified, with the same
    received amount, verification, receipt, proof and history; only its
    expected amount may have been rewritten (by the admin's update of
    the stages). *)
Lemma verified_payment_is_final (calls : list Call) (db : Db)
    (k : ObjectId) (p : Payment.t) :
  payments db !! k = Some p ->
  Payment.status p = PaymentStatus.verified ->
  exists p',
    payments (runAll calls db) !! k = Some p'
    /\ p' = Payment.set_amount_expected (Payment.amount_expected p') p.
Proof.
  revert db p. induction calls as [| c calls IH]; intros db p Hk Hverified; simpl.
  - exists p. split; [exact Hk | destruct p; reflexivity].
  - destruct (handle_payment_at (call_clock c) (call_userId c) (call_userRole c)
                (call_request c) db k p Hk)
      as (p1 & Hk1 & [-> | [Hstep _]]).
    + apply IH; assumption.
    + apply PaymentStep_verified in Hstep; [| exact Hverified].
      destruct (IH _ p1 Hk1) as (p' & Hk' & Hp'); [rewrite Hstep; exact Hverified |].
      exists p'. split; [exact Hk' |].
      rewrite Hp' at 1. rewrite Hstep. reflexivity.
Qed.

Lemma verified_payment_is_final_witness :
  let calls :=
    [ {| call_clock := Scenario.secondVerification;
         call_userId := Scenario.cashierId; call_userRole := CASHIER;
         call_request := RejectPayment Scenario.initialPaymentId "unreadable" |};
      {| call_clock := Scenario.secondVerification;
         call_userId := Scenario.customerId; call_userRole := CUSTOMER;
         call_request :=
           SubmitPaymentProof Scenario.initialPaymentId PaymentMethod.gcash
             (Some Scenario.someFile) |} ] in
  exists p p',
    payments Scenario.firstVerified !! Scenario.initialPaymentId = Some p
    /\ payments (runAll calls Scenario.firstVerified) !! Scenario.initialPaymentId
       = Some p'
    /\ p' = Payment.set_amount_expected (Payment.amount_expected p') p.
Proof.
  intros calls. eexists.
  edestruct (verified_payment_is_final calls Scenario.firstVerified
               Scenario.initialPaymentId)
    as (p' & Hp' & Hsame).
  - vm_compute. reflexivity.
  - reflexivity.
  - exists p'. split; [vm_compute; reflexivity |].
    split; assumption.
Defined.

(** X15: the payment collection stays well-formed under any sequence of
    requests to [handle]: there is at most one payment per project and
    stage, and every record is consistent with its status; in particular
    a payment carries a receipt exactly when it is verified. *)
Lemma payments_stay_consistent (calls : list Call) (db : Db) :
  UniqueStage (payments db) ->
  (forall k p, payments db !! k = Some p -> Consistent p) ->
  UniqueStage (payments (runAll calls db))
  /\ (forall k p, payments (runAll calls db) !! k = Some p ->
                  Consistent p
                  /\ (Payment.status p = PaymentStatus.verified
                      <-> is_Some (Payment.receipt p))).
Proof.
  revert db. induction calls as [| c calls IH]; intros db Hu Hc; simpl.
  - split; [exact Hu |]. intros k p Hk. split; [eauto | apply (Hc k p Hk)].
  - apply IH.
    + apply handle_keeps_UniqueStage. exact Hu.
    + intros k p' Hk'.
      destruct (payments db !! k) as [p|] eqn:Hk.
      * destruct (handle_payment_at (call_clock c) (call_userId c) (call_userRole c)
                    (call_request c) db k p Hk)
          as (p1 & Hk1 & Hp1).
        rewrite Hk' in Hk1. injection Hk1 as <-.
        destruct Hp1 as [-> | [Hstep _]]; [eauto |].
        eapply PaymentStep_Consistent; eauto.
      * destruct (handle_payment_new _ _ _ _ _ k p' Hk Hk') as (clk' & d & x & Hd & ->).
        apply of_draft_Consistent. exact Hd.
Qed.

Lemma payments_stay_consistent_witness :
  UniqueStage (payments (runAll Cases.approvalCalls Scenario.db0))
  /\ (forall k p, payments (runAll Cases.approvalCalls Scenario.db0) !! k = Some p ->
                  Consistent p
                  /\ (Payment.status p = PaymentStatus.verified
                      <-> is_Some (Payment.receipt p))).
Proof.
  apply payments_stay_consistent.
  - intros k1 k2 p1 p2 H1. vm_compute in H1. discriminate H1.
  - intros k p H. vm_compute in H. discriminate H.
Defined.

(** ** The admin's update of the payment stages *)

Lemma Model_updateOne_hit {A : Type} `{Document A} (cond : N -> A -> bool)
    (update : A -> A) (coll : gmap N A) (k : N) (d : A) :
  coll !! k = Some d -> cond k d = true ->
  (forall k' d', coll !! k' = Some d' -> cond k' d' = true -> k' = k) ->
  Model_updateOne cond update coll = <[k := update d]> coll.
Proof.
  intros Hk Hcond Hunique. unfold Model_updateOne.
  destruct (head _) as [[k' d']|] eqn:Hhead.
  - pose proof (Model_select_lookup _ _ _ _ _ _ Hhead) as Hk'.
    apply head_Some_elem_of, list_elem_of_In in Hhead.
    apply (Model_select_unfiltered Q_updateOne false cond coll k' d' eq_refl) in Hhead
      as [_ Hcond'].
    pose proof (Hunique k' d' Hk' Hcond') as ->.
    rewrite Hk in Hk'. injection Hk' as ->. reflexivity.
  - exfalso. apply head_None in Hhead.
    assert (Hin : In (k, d) (Model_select Q_updateOne false cond coll))
      by (apply Model_select_unfiltered; auto).
    rewrite Hhead in Hin. destruct Hin.
Qed.

Lemma Model_updateOne_miss {A : Type} `{Document A} (cond : N -> A -> bool)
    (update : A -> A) (coll : gmap N A) :
  (forall k d, coll !! k = Some d -> cond k d = false) ->
  Model_updateOne cond update coll = coll.
Proof.
  intros Hmiss. unfold Model_updateOne.
  destruct (head _) as [[k' d']|] eqn:Hhead; [| reflexivity].
  pose proof (Model_select_lookup _ _ _ _ _ _ Hhead) as Hk'.
  apply head_Some_elem_of, list_elem_of_In in Hhead.
  apply (Model_select_unfiltered Q_updateOne false cond coll k' d' eq_refl) in Hhead
    as [_ Hcond'].
  rewrite (Hmiss k' d' Hk') in Hcond'. discriminate Hcond'.
Qed.

Lemma Payment_updateExpected_at (proj : ObjectId) (s : Stage.t) (v : Z) (db : Db) :
  UniqueStage (payments db) ->
  let db' := (Payment_updateExpected proj s (Some v) db).1 in
  users db' = users db /\ appointments db' = appointments db /\ projects db' = projects db
  /\ payments db' = withExpected proj s v <$> payments db.
Proof.
  intros Hu. unfold Payment_updateExpected, modify. simpl.
  split_and!; try reflexivity.
  set (cond := fun (_ : N) (p : Payment.t) =>
                 (Payment.project p =? proj)%N && bool_decide (Payment.stage p = s)).
  assert (Hcond : forall k p, cond k p = true <-> Payment.project p = proj /\ Payment.stage p = s).
  { intros k p. unfold cond. rewrite andb_true_iff, N.eqb_eq, bool_decide_eq_true.
    reflexivity. }
  destruct (head (Model_select Q_find true cond (payments db))) as [[k p]|] eqn:Hhead;
    [ apply head_Some_elem_of, list_elem_of_In, Model_select_opt_in in Hhead
        as [Hk Hp]
    | assert (Hnone : ~ exists k p, payments db !! k = Some p /\ cond k p = true)
        by (intros (k & p & Hk & Hp); apply head_None in Hhead;
            assert (Hin : In (k, p) (Model_select Q_find true cond (payments db)))
              by (apply Model_select_opt_in; auto);
            rewrite Hhead in Hin; destruct Hin) ].
  - rewrite (Model_updateOne_hit cond _ _ k p Hk Hp).
    + apply map_eq. intros k'. rewrite lookup_fmap.
      destruct (decide (k = k')) as [<- | Hne].
      * rewrite lookup_insert_eq, Hk. simpl. unfold withExpected.
        rewrite bool_decide_eq_true_2 by (apply Hcond with k; exact Hp). reflexivity.
      * rewrite lookup_insert_ne by exact Hne.
        destruct (payments db !! k') as [p'|] eqn:Hk'; [| reflexivity].
        simpl. unfold withExpected.
        rewrite bool_decide_eq_false_2; [reflexivity |].
        intros Hp'. apply Hne. apply Hcond in Hp as [Hp1 Hp2]. destruct Hp' as [Hp1' Hp2'].
        apply (Hu k k' p p'); auto; congruence.
    + intros k' p' Hk' Hp'. apply Hcond in Hp as [Hp1 Hp2]. apply Hcond in Hp' as [Hp1' Hp2'].
      apply (Hu k' k p' p); auto; congruence.
  - rewrite Model_updateOne_miss.
    + apply map_eq. intros k'. rewrite lookup_fmap.
      destruct (payments db !! k') as [p'|] eqn:Hk'; [| reflexivity].
      simpl. unfold withExpected.
      rewrite bool_decide_eq_false_2; [reflexivity |].
      intros Hp'. apply Hnone. exists k', p'. split; [exact Hk' |].
      apply (Hcond k'). exact Hp'.
    + intros k' p' Hk'. apply not_true_is_false. intros Hp'.
      apply Hnone. exists k', p'. auto.
Qed.

Lemma UniqueStage_fmap (f : Payment.t -> Payment.t) (coll : gmap N Payment.t) :
  (forall p, samePayment p (f p)) -> UniqueStage coll -> UniqueStage (f <$> coll).
Proof.
  intros Hf Hu k1 k2 p1 p2 H1 H2 Hp Hs.
  rewrite lookup_fmap in H1, H2.
  destruct (coll !! k1) as [q1|] eqn:Hq1; [| discriminate].
  destruct (coll !! k2) as [q2|] eqn:Hq2; [| discriminate].
  simpl in H1, H2. injection H1 as <-. injection H2 as <-.
  destruct (Hf q1) as (? & _ & ? & _). destruct (Hf q2) as (? & _ & ? & _).
  apply (Hu k1 k2 q1 q2); auto; congruence.
Qed.

Lemma withExpected_same (proj : ObjectId) (s : Stage.t) (v : Z) (p : Payment.t) :
  samePayment p (withExpected proj s v p).
Proof.
  unfold withExpected, samePayment. destruct (bool_decide _); split_and!; reflexivity.
Qed.

(** The check of the percentages adds them as doubles; where the first
    sum is a safe integer it decides whether they sum to 100. *)
Lemma percentages_sum_check (initial midpoint final : Z) :
  Number.safe (initial + midpoint) ->
  (Number.add (Number.add initial midpoint) final =? 100)
  = (initial + midpoint + final =? 100).
Proof.
  intros Hsafe. unfold Number.add. rewrite (roundZ_safe _ Hsafe).
  pose proof (roundZ_eq (initial + midpoint + final) 100 ltac:(reflexivity)) as Heq.
  destruct (Z.eqb_spec (Number.roundZ (initial + midpoint + final)) 100) as [H1 | H1],
           (Z.eqb_spec (initial + midpoint + final) 100) as [H2 | H2];
    try reflexivity; exfalso; tauto.
Qed.

Lemma updatePaymentStages_run (clk : Clock) (userId id : ObjectId)
    (initial midpoint final : Z) (db : Db) (project : Project.t) (t : Z) :
  Number.add (Number.add initial midpoint) final = 100 ->
  Model_findById (projects db) id = Some project ->
  Project.costing_approvedAmount project = Some t ->
  t <> 0 ->
  UniqueStage (payments db) ->
  let x1 := Project.share t initial in
  let x2 := Project.share t midpoint in
  let x3 := Number.sub (Number.sub t x1) x2 in
  let stored :=
    Project.set_paymentStages
      (Project.stageAmounts t
         (Project.set_percentages initial midpoint final (Project.paymentStages project)))
      project in
  updatePaymentStages clk userId id initial midpoint final db =
    ({| users := users db;
        appointments := appointments db;
        projects := <[id := stored]> (projects db);
        payments :=
          withStageAmount id
            (fun s => match s with
                      | Stage.initial => x1
                      | Stage.midpoint => x2
                      | Stage.final => x3
                      end) <$> payments db |},
     inr {| res_status := 200; res_message := "Payment stages updated" |}).
Proof.
  intros Hsum Hfound Hamount Ht Hu x1 x2 x3 stored.
  unfold updatePaymentStages, bind, get, throwIf, throw, ret, Project_save.
  rewrite (proj2 (Z.eqb_eq _ _) Hsum). cbn. rewrite Hfound. cbn.
  rewrite Hamount, (truthy_Some t Ht).
  match goal with |- context [Project.preSave ?q] =>
    replace (Project.preSave q) with stored
      by (symmetry; rewrite (preSave_truthy q t Hamount Ht); reflexivity)
  end.
  cbn.
  match goal with |- context [Payment_updateExpected id Stage.initial (Some ?v) ?d] =>
    destruct (Payment_updateExpected_at id Stage.initial v d Hu) as (U1 & A1 & P1 & Y1);
    destruct (Payment_updateExpected id Stage.initial (Some v) d) as [d1 [e1|[]]] eqn:E1;
    [unfold Payment_updateExpected, modify in E1; discriminate E1 |]
  end.
  cbn in U1, A1, P1, Y1 |- *.
  assert (Hu1 : UniqueStage (payments d1)).
  { rewrite Y1. apply UniqueStage_fmap; [apply withExpected_same | exact Hu]. }
  match goal with |- context [Payment_updateExpected id Stage.midpoint (Some ?v) ?d] =>
    destruct (Payment_updateExpected_at id Stage.midpoint v d Hu1) as (U2 & A2 & P2 & Y2);
    destruct (Payment_updateExpected id Stage.midpoint (Some v) d) as [d2 [e2|[]]] eqn:E2;
    [unfold Payment_updateExpected, modify in E2; discriminate E2 |]
  end.
  cbn in U2, A2, P2, Y2 |- *.
  assert (Hu2 : UniqueStage (payments d2)).
  { rewrite Y2. apply UniqueStage_fmap; [apply withExpected_same | exact Hu1]. }
  match goal with |- context [Payment_updateExpected id Stage.final (Some ?v) ?d] =>
    destruct (Payment_updateExpected_at id Stage.final v d Hu2) as (U3 & A3 & P3 & Y3);
    destruct (Payment_updateExpected id Stage.final (Some v) d) as [d3 [e3|[]]] eqn:E3;
    [unfold Payment_updateExpected, modify in E3; discriminate E3 |]
  end.
  cbn in U3, A3, P3, Y3 |- *.
  f_equal. destruct d3 as [u3 a3 p3 y3]. cbn in *.
  f_equal; try congruence.
  rewrite Y3, Y2, Y1, <- !map_fmap_compose.
  apply map_fmap_ext. intros k p _. simpl.
  unfold withExpected, withStageAmount.
  destruct (Payment.stage p) eqn:Hs;
    repeat (case_bool_decide; simpl in * );
    try rewrite Hs in *; try reflexivity;
    exfalso; intuition congruence.
Qed.

(** X16: after the admin's update of the stages of an approved project
    the payments are in step with the project again.  The approved
    amount and the new percentages are whole numbers in the range where
    the doubles are exact: the products of the amount with the initial
    and the midpoint percentage and the sum of these two percentages
    are safe integers, the amount is below 2^52.  With percentages that
    sum to 100 the project stores them together with the amounts
    derived from its approved amount, which sum to that amount, and
    every payment of the project, whatever its status (a verified or a
    soft-deleted one as well), expects the amount of its stage; the
    payments of other projects are not touched.  With any other
    percentages the request is refused and nothing changes. *)
Lemma updatePaymentStages_rewrites_payments (clk : Clock) (userId id : ObjectId)
    (initial midpoint final : Z) (db : Db) (project : Project.t) (t : Z) :
  Model_findById (projects db) id = Some project ->
  Project.costing_approvedAmount project = Some t ->
  t <> 0 ->
  ExactShares t initial midpoint ->
  Number.safe (initial + midpoint) ->
  UniqueStage (payments db) ->
  let run := updatePaymentStages clk userId id initial midpoint final db in
  (initial + midpoint + final <> 100 ->
   run = (db, inl (AppError "Payment stage percentages must sum to 100" 400)))
  /\ (initial + midpoint + final = 100 ->
      exists stored amounts,
        run.2 = inr {| res_status := 200; res_message := "Payment stages updated" |}
        /\ projects run.1 = <[id := stored]> (projects db)
        /\ Project.percentage (Project.initial (Project.paymentStages stored)) = initial
        /\ Project.percentage (Project.midpoint (Project.paymentStages stored)) = midpoint
        /\ Project.percentage (Project.final (Project.paymentStages stored)) = final
        /\ (forall s, stageAmount s (Project.paymentStages stored) = Some (amounts s))
        /\ amounts Stage.initial = Math_round_div (t * initial) 100
        /\ amounts Stage.midpoint = Math_round_div (t * midpoint) 100
        /\ amounts Stage.initial + amounts Stage.midpoint + amounts Stage.final = t
        /\ (forall k, payments run.1 !! k =
                      withStageAmount id amounts <$> payments db !! k)).
Proof.
  intros Hfound Hamount Ht Hexact Hsafe Hu run. subst run.
  pose proof (percentages_sum_check initial midpoint final Hsafe) as Hcheck.
  split.
  - intros Hsum.
    unfold updatePaymentStages, bind, throwIf, throw.
    rewrite Hcheck, (proj2 (Z.eqb_neq _ _) Hsum). reflexivity.
  - intros Hsum.
    assert (Hsum' : Number.add (Number.add initial midpoint) final = 100).
    { apply Z.eqb_eq. rewrite Hcheck. apply Z.eqb_eq. exact Hsum. }
    rewrite (updatePaymentStages_run clk userId id initial midpoint final db project t
               Hsum' Hfound Hamount Ht Hu).
    pose proof (stageAmounts_exact t
                  (Project.set_percentages initial midpoint final
                     (Project.paymentStages project)) Hexact) as Hamounts.
    destruct Hexact as (Hlt & Hi & Hm).
    rewrite !(share_exact t) by assumption.
    pose proof (Math_round_div_spec (t * initial) 100 ltac:(lia)) as Hi'.
    pose proof (Math_round_div_spec (t * midpoint) 100 ltac:(lia)) as Hm'.
    unfold Number.safe in Hi, Hm.
    change (2 ^ 53) with 9007199254740992 in Hi, Hm.
    change (2 ^ 52) with 4503599627370496 in Hlt.
    unfold Number.sub.
    rewrite (roundZ_safe (t - Math_round_div (t * initial) 100)) by safe_lia.
    rewrite (roundZ_safe (t - Math_round_div (t * initial) 100
                          - Math_round_div (t * midpoint) 100)) by safe_lia.
    simpl in Hamounts. rewrite Hamounts.
    simpl.
    eexists _, (fun s => match s with
                         | Stage.initial => Math_round_div (t * initial) 100
                         | Stage.midpoint => Math_round_div (t * midpoint) 100
                         | Stage.final =>
                             t - Math_round_div (t * initial) 100
                             - Math_round_div (t * midpoint) 100
                         end).
    split; [reflexivity |]. split; [reflexivity |].
    split_and!; try reflexivity.
    + intros s. destruct s; reflexivity.
    + lia.
    + intros k. rewrite lookup_fmap. reflexivity.
Qed.

Ltac paid_cases H :=
  apply lookup_insert_Some in H as [[<- <-] | [_ H]];
  [| apply lookup_insert_Some in H as [[<- <-] | [_ H]];
     [| apply lookup_singleton_Some in H as [<- <-]]].

Lemma paid_UniqueStage : UniqueStage (payments Cases.paid).
Proof.
  intros k1 k2 p1 p2 H1 H2 _ Hstage. simpl in H1, H2.
  paid_cases H1; paid_cases H2; first [reflexivity | discriminate Hstage].
Qed.

Lemma updatePaymentStages_rewrites_payments_witness :
  let run := updatePaymentStages (Scenario.at_ (Scenario.local 2023 12 12 10))
               Scenario.cashierId Scenario.projectId 50 25 25 Cases.paid in
  exists amounts,
    amounts Stage.initial = 50000
    /\ amounts Stage.midpoint = 25000
    /\ amounts Stage.initial + amounts Stage.midpoint + amounts Stage.final = 100000
    /\ forall k, payments run.1 !! k =
                 withStageAmount Scenario.projectId amounts <$> payments Cases.paid !! k.
Proof.
  edestruct (updatePaymentStages_rewrites_payments
               (Scenario.at_ (Scenario.local 2023 12 12 10))
               Scenario.cashierId Scenario.projectId 50 25 25 Cases.paid)
    as (_ & Hrun).
  - vm_compute. reflexivity.
  - reflexivity.
  - discriminate.
  - vm_compute. split_and!; reflexivity.
  - reflexivity.
  - exact paid_UniqueStage.
  - destruct Hrun as (stored & amounts & _ & _ & _ & _ & _ & _ & H1 & H2 & Hsum & Hpayments);
      [reflexivity |].
    exists amounts. split_and!; assumption.
Defined.

(** ** Submission for approval *)

Lemma preSave_fields (p : Project.t) :
  Project.customer (Project.preSave p) = Project.customer p
  /\ Project.blueprint_currentVersion (Project.preSave p) = Project.blueprint_currentVersion p
  /\ Project.costing_currentVersion (Project.preSave p) = Project.costing_currentVersion p
  /\ Project.costing_versions (Project.preSave p) = Project.costing_versions p
  /\ Project.costing_approvedAmount (Project.preSave p) = Project.costing_approvedAmount p
  /\ Project.customerApproval (Project.preSave p) = Project.customerApproval p
  /\ Project.isDeleted (Project.preSave p) = Project.isDeleted p.
Proof.
  unfold Project.preSave.
  destruct (truthy (Project.costing_approvedAmount p));
    [destruct (Project.costing_approvedAmount p) eqn:Hamount |];
    split_and!; simpl; congruence.
Qed.

Lemma submitForApproval_run (clk : Clock) (userId id : ObjectId) (db : Db)
    (project : Project.t) :
  Model_findById (projects db) id = Some project ->
  Project.blueprint_currentVersion project <> 0 ->
  Project.costing_currentVersion project <> 0 ->
  submitForApproval clk userId id db =
    (with_projects
       (<[id := Project.preSave
                  (Project.push_history
                     (Build_HistoryEntry ProjectStatus.pending_customer_approval userId
                        (now clk) "Submitted for customer approval")
                     (Project.set_status ProjectStatus.pending_customer_approval project))]>
          (projects db)) db,
     match User_findById (users db) (Project.customer project) with
     | Some _ => inr {| res_status := 200;
                        res_message := "Project submitted for customer approval" |}
     | None => inl (TypeError "project.customer.email")
     end).
Proof.
  intros Hfound Hb Hc.
  unfold submitForApproval, bind, get, throwIf, throw, ret, Project_save.
  rewrite Hfound. simpl.
  rewrite (proj2 (Z.eqb_neq _ _) Hb), (proj2 (Z.eqb_neq _ _) Hc). simpl.
  destruct (User_findById (users db) (Project.customer project)); reflexivity.
Qed.

(** X17: the submission for approval looks at the version counters only.
    It is refused, with nothing changed, while the blueprint or the
    costing is still at version 0.  Otherwise it puts the project into
    [pending_customer_approval] whatever its status was: also a project
    that is already approved, in fabrication or completed is asked of
    its customer again, with its approved amount kept. *)
Lemma submitForApproval_from_any_status (clk : Clock) (userId id : ObjectId) (db : Db)
    (project : Project.t) :
  Model_findById (projects db) id = Some project ->
  is_Some (User_findById (users db) (Project.customer project)) ->
  let run := submitForApproval clk userId id db in
  ((Project.blueprint_currentVersion project = 0
    \/ Project.costing_currentVersion project = 0) ->
   run = (db, inl (AppError "Blueprint and costing must be uploaded first" 400)))
  /\ (Project.blueprint_currentVersion project <> 0 ->
      Project.costing_currentVersion project <> 0 ->
      exists stored,
        run = (with_projects (<[id := stored]> (projects db)) db,
               inr {| res_status := 200;
                      res_message := "Project submitted for customer approval" |})
        /\ Project.status stored = ProjectStatus.pending_customer_approval
        /\ Project.costing_approvedAmount stored = Project.costing_approvedAmount project
        /\ Project.customerApproval stored = Project.customerApproval project
        /\ Project.statusHistory stored =
             Project.statusHistory project
             ++ [Build_HistoryEntry ProjectStatus.pending_customer_approval userId
                   (now clk) "Submitted for customer approval"]).
Proof.
  intros Hfound [c Hc] run. subst run. split.
  - intros Hzero.
    unfold submitForApproval, bind, get, throwIf, throw.
    rewrite Hfound. simpl.
    replace ((Project.blueprint_currentVersion project =? 0)
             || (Project.costing_currentVersion project =? 0)) with true; [reflexivity |].
    symmetry. apply orb_true_iff.
    destruct Hzero as [H | H]; [left | right]; apply Z.eqb_eq; exact H.
  - intros Hb Hv.
    rewrite (submitForApproval_run clk userId id db project Hfound Hb Hv), Hc.
    eexists. split; [reflexivity |].
    rewrite preSave_status, preSave_statusHistory.
    destruct (preSave_fields
                (Project.push_history
                   (Build_HistoryEntry ProjectStatus.pending_customer_approval userId
                      (now clk) "Submitted for customer approval")
                   (Project.set_status ProjectStatus.pending_customer_approval project)))
      as (_ & _ & _ & _ & -> & -> & _).
    split_and!; reflexivity.
Qed.

Lemma submitForApproval_from_any_status_witness :
  exists stored,
    submitForApproval (Scenario.at_ (Scenario.local 2024 2 1 9)) Scenario.engineerId
      Scenario.projectId Scenario.firstVerified
    = (with_projects (<[Scenario.projectId := stored]> (projects Scenario.firstVerified))
         Scenario.firstVerified,
       inr {| res_status := 200;
              res_message := "Project submitted for customer approval" |})
    /\ Project.status stored = ProjectStatus.pending_customer_approval.
Proof.
  edestruct (submitForApproval_from_any_status (Scenario.at_ (Scenario.local 2024 2 1 9))
               Scenario.engineerId Scenario.projectId Scenario.firstVerified)
    as (_ & Hrun).
  - vm_compute. reflexivity.
  - eexists. vm_compute. reflexivity.
  - destruct Hrun as (stored & Hrun & Hstatus & _); [discriminate | discriminate |].
    exists stored. split; assumption.
Defined.

(** ** From the costing to the payments *)

Lemma uploadCosting_run (clk : Clock) (userId id : ObjectId) (totalAmount : option Z)
    (file : File) (db : Db) (project : Project.t) :
  Model_findById (projects db) id = Some project ->
  uploadCosting clk userId id totalAmount (Some file) db =
    (with_projects
       (<[id := Project.preSave
                  (Project.push_costing
                     {| Project.version := Project.costing_currentVersion project + 1;
                        Project.totalAmount := totalAmount |} project)]>
          (projects db)) db,
     inr {| res_status := 200; res_message := "Costing uploaded successfully" |}).
Proof.
  intros Hfound. unfold uploadCosting, bind, get, ret, Project_save.
  rewrite Hfound. reflexivity.
Qed.

(** X18: the amount a customer approves is the total of the costing that
    was uploaded last.  For a project with a blueprint and no payments
    yet: once the engineer has uploaded a costing with a non-zero total
    and submitted the project, the approval by the project's customer
    stores that total as the approved amount, whatever earlier costings
    said, and creates the three payments; where the total and the
    percentages of the project are in the range in which the doubles
    are exact, their expected amounts sum to the total. *)
Lemma latest_costing_is_approved
    (clk1 clk2 clk3 : Clock) (engineerId customerId id : ObjectId) (t : Z)
    (file : File) (db : Db) (project : Project.t) :
  Model_findById (projects db) id = Some project ->
  Project.customer project = customerId ->
  Project.blueprint_currentVersion project <> 0 ->
  0 <= Project.costing_currentVersion project ->
  t <> 0 ->
  ExactShares t (Project.percentage (Project.initial (Project.paymentStages project)))
    (Project.percentage (Project.midpoint (Project.paymentStages project))) ->
  NoPaymentsFor id db ->
  let db1 := (uploadCosting clk1 engineerId id (Some t) (Some file) db).1 in
  let db2 := (submitForApproval clk2 engineerId id db1).1 in
  let run := approveProject clk3 customerId id db2 in
  exists resp stored k1 k2 k3 p1 p2 p3,
    run.2 = inr resp
    /\ projects run.1 !! id = Some stored
    /\ Project.costing_approvedAmount stored = Some t
    /\ Project.status stored = ProjectStatus.pending_initial_payment
    /\ payments run.1 = <[k3 := p3]> (<[k2 := p2]> (<[k1 := p1]> (payments db)))
    /\ payments db !! k1 = None /\ payments db !! k2 = None /\ payments db !! k3 = None
    /\ k1 <> k2 /\ k1 <> k3 /\ k2 <> k3
    /\ Payment.stage p1 = Stage.initial /\ Payment.stage p2 = Stage.midpoint
    /\ Payment.stage p3 = Stage.final
    /\ Payment.status p1 = PaymentStatus.pending /\ Payment.status p2 = PaymentStatus.pending
    /\ Payment.status p3 = PaymentStatus.pending
    /\ Payment.amount_expected p1 + Payment.amount_expected p2 + Payment.amount_expected p3
       = t.
Proof.
  intros Hfound Hcustomer Hblueprint Hcosting Ht Hexact Hnone db1 db2 run.
  pose proof Hfound as Hlive. apply Model_findById_Some in Hlive as [_ Hlive].
  set (q1 := Project.preSave
               (Project.push_costing
                  {| Project.version := Project.costing_currentVersion project + 1;
                     Project.totalAmount := Some t |} project)).
  assert (Hdb1 : db1 = with_projects (<[id := q1]> (projects db)) db).
  { unfold db1. rewrite (uploadCosting_run clk1 engineerId id (Some t) file db project Hfound).
    reflexivity. }
  destruct (preSave_fields
              (Project.push_costing
                 {| Project.version := Project.costing_currentVersion project + 1;
                    Project.totalAmount := Some t |} project))
    as (Hc1 & Hb1 & Hv1 & Hvs1 & _ & _ & Hd1).
  fold q1 in Hc1, Hb1, Hv1, Hvs1, Hd1. simpl in Hc1, Hb1, Hv1, Hvs1, Hd1.
  assert (Hfound1 : Model_findById (projects db1) id = Some q1).
  { apply Model_findById_Some. rewrite Hdb1. simpl.
    split; [apply lookup_insert_eq |].
    unfold doc_isDeleted, Project_Document in *. congruence. }
  set (q2 := Project.preSave
               (Project.push_history
                  (Build_HistoryEntry ProjectStatus.pending_customer_approval engineerId
                     (now clk2) "Submitted for customer approval")
                  (Project.set_status ProjectStatus.pending_customer_approval q1))).
  assert (Hdb2 : db2 = with_projects (<[id := q2]> (projects db1)) db1).
  { unfold db2.
    rewrite (submitForApproval_run clk2 engineerId id db1 q1 Hfound1);
      [reflexivity | congruence | rewrite Hv1; lia]. }
  destruct (preSave_fields
              (Project.push_history
                 (Build_HistoryEntry ProjectStatus.pending_customer_approval engineerId
                    (now clk2) "Submitted for customer approval")
                 (Project.set_status ProjectStatus.pending_customer_approval q1)))
    as (Hc2 & _ & _ & Hvs2 & _ & _ & Hd2).
  fold q2 in Hc2, Hvs2, Hd2. simpl in Hc2, Hvs2, Hd2.
  assert (Hfound2 : Model_findById (projects db2) id = Some q2).
  { apply Model_findById_Some. rewrite Hdb2. simpl.
    split; [apply lookup_insert_eq |].
    unfold doc_isDeleted, Project_Document in *. congruence. }
  assert (Hpayments : payments db2 = payments db).
  { rewrite Hdb2, Hdb1. reflexivity. }
  destruct (approveProject_run clk3 customerId id db2 q2
              {| Project.version := Project.costing_currentVersion project + 1;
                 Project.totalAmount := Some t |} t)
    as (db' & resp & stored & k1 & k2 & k3 & Hrun & Hstored & Hamount & _
        & Hstatus & _ & Hpay & Hk1 & Hk2 & Hk3 & H12 & H13 & H23).
  - exact Hfound2.
  - congruence.
  - unfold q2. apply preSave_status.
  - rewrite Hvs2, Hvs1. apply last_snoc.
  - reflexivity.
  - exact Ht.
  - unfold NoPaymentsFor. rewrite Hpayments. exact Hnone.
  - subst run. rewrite Hrun. simpl.
    exists resp, stored, k1, k2, k3. eexists _, _, _.
    rewrite Hpayments in Hpay, Hk1, Hk2, Hk3.
    split_and!; try eassumption; try reflexivity.
    simpl. apply shares_sum.
    unfold q2.
    destruct (preSave_percentages
                (Project.push_history
                   (Build_HistoryEntry ProjectStatus.pending_customer_approval engineerId
                      (now clk2) "Submitted for customer approval")
                   (Project.set_status ProjectStatus.pending_customer_approval q1)))
      as (-> & -> & _).
    simpl. unfold q1.
    destruct (preSave_percentages
                (Project.push_costing
                   {| Project.version := Project.costing_currentVersion project + 1;
                      Project.totalAmount := Some t |} project))
      as (-> & -> & _).
    exact Hexact.
Qed.

Lemma latest_costing_is_approved_witness :
  exists stored,
    projects (Scenario.approved (Some 100000)) !! Scenario.projectId = Some stored
    /\ Project.costing_approvedAmount stored = Some 100000
    /\ Project.status stored = ProjectStatus.pending_initial_payment.
Proof.
  edestruct (latest_costing_is_approved
               (Scenario.at_ (Scenario.local 2023 12 1 10))
               (Scenario.at_ (Scenario.local 2023 12 1 10))
               (Scenario.at_ Scenario.approvalTime)
               Scenario.engineerId Scenario.customerId Scenario.projectId 100000
               Scenario.someFile
               (Scenario.after
                  (uploadBlueprint (Scenario.at_ (Scenario.local 2023 12 1 10))
                     Scenario.engineerId Scenario.projectId (Some Scenario.someFile))
                  Scenario.db0))
    as (resp & stored & k1 & k2 & k3 & p1 & p2 & p3 & _ & Hstored & Hamount & Hstatus & _).
  - vm_compute. reflexivity.
  - reflexivity.
  - discriminate.
  - discriminate.
  - discriminate.
  - vm_compute. split_and!; reflexivity.
  - intros k p H. vm_compute in H. discriminate H.
  - exists stored. split_and!; assumption.
Defined.

(** ** Verification when the customer's account is gone *)

(** X19: the verification is not undone by a failure of its last step.
    When the user record of the payment's customer is missing or
    soft-deleted, the request fails with a [TypeError], yet the payment
    is stored as verified with its receipt, and the project is advanced
    if it was waiting for this payment; repeating the request then fails
    with the 400 error of the state guard. *)
Lemma verifyPayment_without_customer
    (clk : Clock) (userId id : ObjectId) (amountReceived : Z)
    (referenceNumber notes : option string) (db : Db)
    (payment : Payment.t) (project : Project.t) :
  Model_findById (payments db) id = Some payment ->
  Payment.status payment = PaymentStatus.submitted ->
  Model_findById (projects db) (Payment.project payment) = Some project ->
  User_findById (users db) (Payment.customer payment) = None ->
  let run := verifyPayment clk userId id amountReceived referenceNumber notes db in
  run.2 = inl (TypeError "payment.customer.email")
  /\ (exists stored receipt,
        payments run.1 !! id = Some stored
        /\ Payment.status stored = PaymentStatus.verified
        /\ Payment.amount_received stored = Some amountReceived
        /\ Payment.receipt stored = Some receipt
        /\ Payment.receiptNumber receipt = receiptNumberAt clk (payments db))
  /\ (Project.status project = expectedStatuses (Payment.stage payment) ->
      exists advanced,
        projects run.1 !! Payment.project payment = Some advanced
        /\ Project.status advanced <> Project.status project)
  /\ (forall clk' userId' amountReceived' referenceNumber' notes',
        verifyPayment clk' userId' id amountReceived' referenceNumber' notes' run.1
        = (run.1, inl (AppError "Payment is not pending verification" 400))).
Proof.
  intros Hfound Hstatus Hproject Hcustomer run. subst run.
  rewrite (verifyPayment_run clk userId id amountReceived referenceNumber notes db
             payment project Hfound Hstatus Hproject).
  rewrite Hcustomer. simpl.
  split; [reflexivity |]. split_and!.
  - eexists _, _. split; [apply lookup_insert_eq |]. split_and!; reflexivity.
  - intros Hexpected. rewrite bool_decide_eq_true_2 by exact Hexpected.
    eexists. split; [apply lookup_insert_eq |].
    rewrite preSave_status, Hexpected. unfold advanceProject.
    destruct (Payment.stage payment); simpl; discriminate.
  - intros clk' userId' amountReceived' referenceNumber' notes'.
    eapply verifyPayment_not_submitted.
    + apply Model_findById_Some. simpl. split; [apply lookup_insert_eq |].
      apply Model_findById_Some in Hfound as [_ Hlive]. exact Hlive.
    + discriminate.
Qed.

Lemma verifyPayment_without_customer_witness :
  let db := Cases.withoutUsers Scenario.proofsSubmitted in
  let run := verifyPayment Scenario.firstVerification Scenario.cashierId
               Scenario.initialPaymentId 30000 None None db in
  run.2 = inl (TypeError "payment.customer.email")
  /\ exists stored,
       payments run.1 !! Scenario.initialPaymentId = Some stored
       /\ Payment.status stored = PaymentStatus.verified.
Proof.
  edestruct (verifyPayment_without_customer Scenario.firstVerification
               Scenario.cashierId Scenario.initialPaymentId 30000 None None
               (Cases.withoutUsers Scenario.proofsSubmitted))
    as (Herror & (stored & receipt & Hstored & Hstatus & _) & _).
  - vm_compute. reflexivity.
  - reflexivity.
  - vm_compute. reflexivity.
  - reflexivity.
  - split; [exact Herror |]. exists stored. split; assumption.
Defined.

(** ** Rejection *)

Lemma rejectPayment_run (clk : Clock) (userId id : ObjectId) (reason : string) (db : Db)
    (payment : Payment.t) :
  Model_findById (payments db) id = Some payment ->
  Payment.status payment = PaymentStatus.submitted ->
  rejectPayment clk userId id reason db =
    (with_payments
       (<[id := Payment.push_history
                  (Build_HistoryEntry PaymentStatus.rejected userId (now clk) reason)
                  (Payment.set_rejection
                     {| Payment.rejectedBy := userId;
                        Payment.rejectedAt := now clk;
                        Payment.reason := reason |}
                     (Payment.set_status PaymentStatus.rejected payment))]>
          (payments db)) db,
     inr {| res_status := 200; res_message := "Payment rejected" |}).
Proof.
  intros Hfound Hstatus.
  unfold rejectPayment, bind, get, throwIf, throw, ret, modify, Payment_save.
  rewrite Hfound, Hstatus. reflexivity.
Qed.

(** X20: only a submitted proof can be rejected; on any other payment
    the request fails with the 400 error and changes nothing.  A
    rejection stores the status [rejected] with who rejected, when and
    why, keeps the rejected proof on the record, issues no receipt and
    leaves the project alone.  A rejected payment can be neither
    verified nor rejected again until the customer has submitted a new
    proof. *)
Lemma rejectPayment_guard (clk : Clock) (userId id : ObjectId) (reason : string) (db : Db)
    (payment : Payment.t) :
  Model_findById (payments db) id = Some payment ->
  let run := rejectPayment clk userId id reason db in
  (Payment.status payment <> PaymentStatus.submitted ->
   run = (db, inl (AppError "Payment is not pending verification" 400)))
  /\ (Payment.status payment = PaymentStatus.submitted ->
      exists stored,
        run = (with_payments (<[id := stored]> (payments db)) db,
               inr {| res_status := 200; res_message := "Payment rejected" |})
        /\ Payment.status stored = PaymentStatus.rejected
        /\ Payment.rejection stored =
             Some {| Payment.rejectedBy := userId;
                     Payment.rejectedAt := now clk;
                     Payment.reason := reason |}
        /\ Payment.paymentProof stored = Payment.paymentProof payment
        /\ Payment.receipt stored = Payment.receipt payment
        /\ Payment.amount_expected stored = Payment.amount_expected payment
        /\ Payment.statusHistory stored =
             Payment.statusHistory payment
             ++ [Build_HistoryEntry PaymentStatus.rejected userId (now clk) reason]
        /\ (forall clk' userId' amountReceived referenceNumber notes,
              verifyPayment clk' userId' id amountReceived referenceNumber notes run.1
              = (run.1, inl (AppError "Payment is not pending verification" 400)))
        /\ (forall clk' userId' reason',
              rejectPayment clk' userId' id reason' run.1
              = (run.1, inl (AppError "Payment is not pending verification" 400)))).
Proof.
  intros Hfound run. subst run. split.
  - intros Hstatus.
    unfold rejectPayment, bind, get, throwIf, throw.
    rewrite Hfound. simpl. rewrite bool_decide_eq_false_2 by exact Hstatus. reflexivity.
  - intros Hstatus.
    rewrite (rejectPayment_run clk userId id reason db payment Hfound Hstatus).
    eexists. split; [reflexivity |].
    assert (Hagain : Model_findById
                       (<[id := Payment.push_history
                                  (Build_HistoryEntry PaymentStatus.rejected userId
                                     (now clk) reason)
                                  (Payment.set_rejection
                                     {| Payment.rejectedBy := userId;
                                        Payment.rejectedAt := now clk;
                                        Payment.reason := reason |}
                                     (Payment.set_status PaymentStatus.rejected payment))]>
                          (payments db)) id
                     = Some (Payment.push_history
                               (Build_HistoryEntry PaymentStatus.rejected userId
                                  (now clk) reason)
                               (Payment.set_rejection
                                  {| Payment.rejectedBy := userId;
                                     Payment.rejectedAt := now clk;
                                     Payment.reason := reason |}
                                  (Payment.set_status PaymentStatus.rejected payment)))).
    { apply Model_findById_Some. split; [apply lookup_insert_eq |].
      apply Model_findById_Some in Hfound as [_ Hlive]. exact Hlive. }
    split_and!; try reflexivity.
    + intros clk' userId' amountReceived referenceNumber notes.
      eapply verifyPayment_not_submitted; [exact Hagain | discriminate].
    + intros clk' userId' reason'.
      unfold rejectPayment, bind, get, throwIf, throw. simpl.
      rewrite Hagain. reflexivity.
Qed.

Lemma rejectPayment_guard_witness :
  exists stored,
    rejectPayment Scenario.secondVerification Scenario.cashierId
      Scenario.midpointPaymentId "unreadable" Scenario.firstVerified
    = (with_payments
         (<[Scenario.midpointPaymentId := stored]> (payments Scenario.firstVerified))
         Scenario.firstVerified,
       inr {| res_status := 200; res_message := "Payment rejected" |})
    /\ Payment.status stored = PaymentStatus.rejected.
Proof.
  edestruct (rejectPayment_guard Scenario.secondVerification Scenario.cashierId
               Scenario.midpointPaymentId "unreadable" Scenario.firstVerified)
    as (_ & Hrun).
  - vm_compute. reflexivity.
  - destruct Hrun as (stored & Hrun & Hstatus & _); [reflexivity |].
    exists stored. split; assumption.
Defined.

(** ** The sequence of the receipt numbers *)

(** X21: the receipt of a verification carries the number that
    [generateReceiptNumber] gives at that moment.  The sequence number a
    later receipt would carry has then moved on by one exactly when the
    verified payment was itself created in the calendar year of that
    later moment; otherwise it has not moved, and the next receipt
    repeats the number. *)
Lemma receipt_sequence_after_verification
    (clk clk' : Clock) (userId id : ObjectId) (amountReceived : Z)
    (referenceNumber notes : option string) (db : Db) (payment : Payment.t) :
  Model_findById (payments db) id = Some payment ->
  Payment.status payment = PaymentStatus.submitted ->
  Payment.receipt payment = None ->
  let db1 := (verifyPayment clk userId id amountReceived referenceNumber notes db).1 in
  (Payment.receipt <$> payments db1 !! id)
    = Some (Some {| Payment.receiptNumber := receiptNumberAt clk (payments db);
                    Payment.generatedAt := now clk |})
  /\ (inCurrentYear clk' (Payment.createdAt payment) = true ->
      receiptSequence clk' (payments db1) = receiptSequence clk' (payments db) + 1)
  /\ (inCurrentYear clk' (Payment.createdAt payment) = false ->
      receiptSequence clk' (payments db1) = receiptSequence clk' (payments db)
      /\ receiptNumberAt clk' (payments db1) = receiptNumberAt clk' (payments db)).
Proof.
  intros Hfound Hstatus Hreceipt db1.
  pose proof (receiptCount_after_verification clk clk' userId id amountReceived
                referenceNumber notes db payment Hfound Hstatus Hreceipt) as Hcount.
  fold db1 in Hcount.
  split_and!.
  - unfold db1.
    rewrite (verifyPayment_saves clk userId id amountReceived referenceNumber notes
               db payment Hfound Hstatus).
    rewrite lookup_insert_eq. reflexivity.
  - intros Hyear. unfold receiptSequence. rewrite Hcount, Hyear. lia.
  - intros Hyear. unfold receiptNumberAt, receiptSequence.
    rewrite Hcount, Hyear, Nat.add_0_r. split; reflexivity.
Qed.

Lemma receipt_sequence_after_verification_witness :
  receiptSequence Scenario.secondVerification (payments Scenario.firstVerified)
  = receiptSequence Scenario.secondVerification (payments Scenario.proofsSubmitted)
  /\ receiptNumberAt Scenario.secondVerification (payments Scenario.firstVerified)
     = receiptNumberAt Scenario.secondVerification (payments Scenario.proofsSubmitted).
Proof.
  edestruct (receipt_sequence_after_verification Scenario.firstVerification
               Scenario.secondVerification Scenario.cashierId Scenario.initialPaymentId
               30000 None None Scenario.proofsSubmitted)
    as (_ & _ & Hsame).
  - vm_compute. reflexivity.
  - reflexivity.
  - reflexivity.
  - apply Hsame. vm_compute. reflexivity.
Defined.

(** ** Rounding of the stage amounts *)

(** X22: with percentages that sum to 100, and a total in the range
    where the doubles are exact (its products with the initial and the
    midpoint percentage safe integers, itself below 2^52), the stage
    amounts derived from the total sum to it and differ from their
    exact shares by at most half a unit for the initial and the
    midpoint stage, and by at most one unit for the final stage, which
    takes up the rounding of the other two. *)
Lemma stageAmounts_rounding (t : Z) (ps : Project.PaymentStages) :
  Project.percentage (Project.initial ps) + Project.percentage (Project.midpoint ps)
  + Project.percentage (Project.final ps) = 100 ->
  ExactShares t (Project.percentage (Project.initial ps))
    (Project.percentage (Project.midpoint ps)) ->
  exists x1 x2 x3,
    stageAmount Stage.initial (Project.stageAmounts t ps) = Some x1
    /\ stageAmount Stage.midpoint (Project.stageAmounts t ps) = Some x2
    /\ stageAmount Stage.final (Project.stageAmounts t ps) = Some x3
    /\ x1 + x2 + x3 = t
    /\ -50 < 100 * x1 - t * Project.percentage (Project.initial ps) <= 50
    /\ -50 < 100 * x2 - t * Project.percentage (Project.midpoint ps) <= 50
    /\ -100 <= 100 * x3 - t * Project.percentage (Project.final ps) < 100.
Proof.
  intros Hsum Hexact. rewrite (stageAmounts_exact t ps Hexact).
  eexists _, _, _.
  split; [reflexivity |]. split; [reflexivity |]. split; [reflexivity |].
  pose proof (Math_round_div_spec (t * Project.percentage (Project.initial ps)) 100
                ltac:(lia)) as H1.
  pose proof (Math_round_div_spec (t * Project.percentage (Project.midpoint ps)) 100
                ltac:(lia)) as H2.
  split_and!; nia.
Qed.

Lemma stageAmounts_rounding_witness :
  exists x1 x2 x3,
    stageAmount Stage.initial (Project.stageAmounts 100001 Project.defaultPaymentStages)
    = Some x1
    /\ stageAmount Stage.midpoint
         (Project.stageAmounts 100001 Project.defaultPaymentStages) = Some x2
    /\ stageAmount Stage.final (Project.stageAmounts 100001 Project.defaultPaymentStages)
       = Some x3
    /\ x1 + x2 + x3 = 100001.
Proof.
  destruct (stageAmounts_rounding 100001 Project.defaultPaymentStages)
    as (x1 & x2 & x3 & H1 & H2 & H3 & Hsum & _).
  - reflexivity.
  - vm_compute. split_and!; reflexivity.
  - exists x1, x2, x3. split_and!; assumption.
Defined.

(** ** The payments of a project, as they are listed *)

Lemma NoDup_List_filter {A : Type} (f : A -> bool) (l : list A) :
  NoDup l -> NoDup (List.filter f l).
Proof.
  induction 1 as [| x l Hx Hl IH]; simpl; [constructor |].
  destruct (f x); [| exact IH].
  constructor; [| exact IH].
  rewrite list_elem_of_In, filter_In, <- list_elem_of_In. tauto.
Qed.

Lemma three_elements {A : Type} (a b c : A) (l : list A) :
  NoDup l -> (forall x, In x l <-> x = a \/ x = b \/ x = c) ->
  a <> b -> a <> c -> b <> c ->
  l = [a; b; c] \/ l = [a; c; b] \/ l = [b; a; c] \/ l = [b; c; a]
  \/ l = [c; a; b] \/ l = [c; b; a].
Proof.
  intros Hnodup Hin Hab Hac Hbc.
  assert (Hperm : l ≡ₚ [a; b; c]).
  { apply NoDup_Permutation; [exact Hnodup | |].
    - apply NoDup_cons. split; [| apply NoDup_cons; split; [| apply NoDup_singleton]].
      + intros H. apply list_elem_of_In in H. simpl in H. intuition congruence.
      + intros H. apply list_elem_of_In in H. simpl in H. intuition congruence.
    - intros x. rewrite !list_elem_of_In, Hin. simpl. intuition congruence. }
  pose proof (Permutation_length Hperm) as Hlen.
  destruct l as [| x [| y [| z [| w l]]]]; try discriminate Hlen.
  pose proof (proj1 (Hin x) ltac:(simpl; auto)) as Hx.
  pose proof (proj1 (Hin y) ltac:(simpl; auto)) as Hy.
  pose proof (proj1 (Hin z) ltac:(simpl; auto)) as Hz.
  apply NoDup_cons in Hnodup as [Hx' Hnodup].
  apply NoDup_cons in Hnodup as [Hy' _].
  rewrite list_elem_of_In in Hx', Hy'. simpl in Hx', Hy'.
  destruct Hx as [-> | [-> | ->]]; destruct Hy as [-> | [-> | ->]];
    destruct Hz as [-> | [-> | ->]];
    try (exfalso; intuition congruence); auto 10.
Qed.

(** X23: a customer may list the payments of their own projects only.
    The list holds the payments of the project that are not
    soft-deleted, in the order of their stage names: for a project with
    its three payments, the final one first, then the initial and the
    midpoint one. *)
Lemma getProjectPayments_order (userId : ObjectId) (userRole : Role) (id : ObjectId)
    (db : Db) (project : Project.t) (k1 k2 k3 : ObjectId) (p1 p2 p3 : Payment.t) :
  Model_findById (projects db) id = Some project ->
  (forall k p, payments db !! k = Some p /\ Payment.project p = id
               /\ Payment.isDeleted p = false
               <-> (k, p) = (k1, p1) \/ (k, p) = (k2, p2) \/ (k, p) = (k3, p3)) ->
  Payment.stage p1 = Stage.initial ->
  Payment.stage p2 = Stage.midpoint ->
  Payment.stage p3 = Stage.final ->
  let run := getProjectPayments userId userRole id db in
  (userRole = CUSTOMER -> Project.customer project <> userId ->
   run = (db, inl (AppError "Access denied" 403)))
  /\ ((userRole = CUSTOMER -> Project.customer project = userId) ->
      run = (db, inr [(k3, p3); (k1, p1); (k2, p2)])).
Proof.
  intros Hfound Hpayments Hs1 Hs2 Hs3 run. subst run.
  unfold getProjectPayments, bind, get, throwIf, throw. rewrite Hfound. simpl.
  split.
  - intros -> Hother. rewrite bool_decide_eq_true_2 by reflexivity.
    rewrite (proj2 (N.eqb_neq _ _) Hother). reflexivity.
  - intros Howner.
    replace (bool_decide (userRole = CUSTOMER)
             && negb (Project.customer project =? userId)%N) with false.
    2:{ destruct (bool_decide (userRole = CUSTOMER)) eqn:Hrole; [| reflexivity].
        apply bool_decide_eq_true in Hrole.
        rewrite (Howner Hrole), N.eqb_refl. reflexivity. }
    simpl. do 2 f_equal.
    set (l := Model_find _ _).
    assert (Hl : l = [(k1, p1); (k2, p2); (k3, p3)] \/ l = [(k1, p1); (k3, p3); (k2, p2)]
                 \/ l = [(k2, p2); (k1, p1); (k3, p3)] \/ l = [(k2, p2); (k3, p3); (k1, p1)]
                 \/ l = [(k3, p3); (k1, p1); (k2, p2)] \/ l = [(k3, p3); (k2, p2); (k1, p1)]).
    { apply three_elements.
      - unfold l, Model_find, Model_select. apply NoDup_List_filter, NoDup_map_to_list.
      - intros [k p]. rewrite <- Hpayments.
        unfold l, Model_find, Model_select.
        rewrite filter_In, <- list_elem_of_In, elem_of_map_to_list. simpl.
        unfold softDeleteWhere, doc_isDeleted, Payment_Document. simpl.
        rewrite andb_true_iff, N.eqb_eq, negb_true_iff. tauto.
      - intros [= _ Hp]. rewrite Hp in Hs1. congruence.
      - intros [= _ Hp]. rewrite Hp in Hs1. congruence.
      - intros [= _ Hp]. rewrite Hp in Hs2. congruence. }
    destruct p1, p2, p3. simpl in Hs1, Hs2, Hs3. subst.
    destruct Hl as [-> | [-> | [-> | [-> | [-> | ->]]]]]; reflexivity.
Qed.

Lemma getProjectPayments_order_witness :
  getProjectPayments Scenario.customerId CUSTOMER Scenario.projectId Cases.paid
  = (Cases.paid,
     inr [(Scenario.finalPaymentId, Cases.finalPayment);
          (Scenario.initialPaymentId, Cases.initialPayment);
          (Scenario.midpointPaymentId, Cases.midpointPayment)]).
Proof.
  edestruct (getProjectPayments_order Scenario.customerId CUSTOMER Scenario.projectId
               Cases.paid
               (Scenario.projectWith ProjectStatus.pending_initial_payment (Some 100000))
               Scenario.initialPaymentId Scenario.midpointPaymentId
               Scenario.finalPaymentId
               Cases.initialPayment Cases.midpointPayment Cases.finalPayment)
    as (_ & Hrun).
  - vm_compute. reflexivity.
  - intros k p. split.
    + intros (H & _ & _). simpl in H. paid_cases H; tauto.
    + intros [H | [H | H]]; injection H as -> ->;
        (split; [vm_compute; reflexivity | split; reflexivity]).
  - reflexivity.
  - reflexivity.
  - reflexivity.
  - apply Hrun. intros _. reflexivity.
Defined.

(** ** The life of a project *)

Lemma preSave_write (r : Project.t) : rtc ProjectWrite r (Project.preSave r).
Proof.
  unfold Project.preSave.
  destruct (truthy (Project.costing_approvedAmount r)); [| reflexivity].
  destruct (Project.costing_approvedAmount r) as [total|] eqn:Hamount; [| reflexivity].
  apply rtc_once. apply write_amounts. exact Hamount.
Qed.

Lemma Saved_once (q r : Project.t) : ProjectWrite q r -> Saved q (Project.preSave r).
Proof. intros Hw. exists r. split; [apply rtc_once; exact Hw | reflexivity]. Qed.

(** What one request does to the project collection: nothing, or one
    stored project saved again. *)
Lemma handle_projects_step (clk : Clock) (userId : ObjectId) (userRole : Role)
    (r : Request) (db : Db) :
  let coll := projects db in
  let coll' := projects (handle clk userId userRole r db).1 in
  coll' = coll
  \/ exists id q q',
       Model_findById coll id = Some q /\ coll' = <[id := q']> coll /\ Saved q q'.
Proof.
  intros coll coll'. subst coll coll'.
  destruct r; simpl.
  - left. unfold createAppointment. split_handler; reflexivity.
  - left. unfold cancelAppointment. split_handler; reflexivity.
  - left. unfold completeAppointment. split_handler; reflexivity.
  - left. unfold markNoShow. split_handler; reflexivity.
  - (* uploadBlueprint *)
    unfold uploadBlueprint. run_handler.
    destruct (Model_findById (projects db) id) as [q|] eqn:Hfound; [| left; reflexivity].
    destruct file; simpl; [| left; reflexivity].
    right. eexists id, q, _. split; [exact Hfound |]. split; [reflexivity |].
    apply Saved_once, write_blueprint.
  - (* uploadCosting *)
    unfold uploadCosting. run_handler.
    destruct (Model_findById (projects db) id) as [q|] eqn:Hfound; [| left; reflexivity].
    destruct file; simpl; [| left; reflexivity].
    right. eexists id, q, _. split; [exact Hfound |]. split; [reflexivity |].
    apply Saved_once, write_costing.
  - (* submitForApproval *)
    unfold submitForApproval. run_handler.
    destruct (Model_findById (projects db) id) as [q|] eqn:Hfound; [| left; reflexivity].
    simpl. destruct (_ || _); simpl; [left; reflexivity |].
    right. eexists id, q, _. split; [exact Hfound |].
    split; [destruct (User_findById _ _); reflexivity |].
    apply Saved_once.
    apply (write_status q (Build_HistoryEntry ProjectStatus.pending_customer_approval
                             userId (now clk) "Submitted for customer approval")).
  - (* approveProject *)
    unfold approveProject. run_handler.
    destruct (Model_findById (projects db) id) as [q|] eqn:Hfound; [| left; reflexivity].
    simpl.
    destruct (negb _); [left; reflexivity |]. simpl.
    destruct (negb _); [left; reflexivity |]. simpl.
    destruct (last _) as [latest|] eqn:Hlast; [| left; reflexivity].
    unfold Payment_create.
    match goal with |- context [Payment_insertMany clk ?ds ?c] =>
      destruct (Payment_insertMany clk ds c) as [c' e] end.
    set (approval := {| Project.isApproved := true;
                        Project.approvedAt := Some (now clk);
                        Project.approvedVersion :=
                          Some (Project.blueprint_currentVersion q,
                                Project.costing_currentVersion q) |}).
    set (r1 := Project.push_history
                 (Build_HistoryEntry ProjectStatus.approved userId (now clk)
                    "Approved by customer")
                 (Project.set_status ProjectStatus.approved
                    (Project.set_costing_approvedAmount (Project.totalAmount latest)
                       (Project.set_customerApproval approval q)))).
    assert (H1 : rtc ProjectWrite q r1).
    { eapply rtc_l; [apply (write_approval q latest approval Hlast) |].
      apply rtc_once.
      apply (write_status _ (Build_HistoryEntry ProjectStatus.approved userId (now clk)
                               "Approved by customer")). }
    right. destruct e as [err|]; simpl.
    + eexists id, q, _. split; [exact Hfound |]. split; [reflexivity |].
      exists r1. split; [exact H1 | reflexivity].
    + eexists id, q, _. split; [exact Hfound |].
      split; [apply insert_insert_eq |].
      eexists. split; [| reflexivity].
      etrans; [exact H1 |]. etrans; [apply preSave_write |].
      apply rtc_once.
      apply (write_status _ (Build_HistoryEntry ProjectStatus.pending_initial_payment
                               userId (now clk) "Waiting for initial 30% payment")).
  - (* updatePaymentStages *)
    unfold updatePaymentStages.
    unfold bind, get, throwIf, throw, ret, Project_save. cbn.
    destruct (Number.add (Number.add initial midpoint) final =? 100) eqn:Hsum; cbn;
      [| left; reflexivity].
    apply Z.eqb_eq in Hsum.
    destruct (Model_findById (projects db) id) as [q|] eqn:Hfound; cbn; [| left; reflexivity].
    right.
    match goal with |- context [Project.preSave ?x] => set (r := x) end.
    assert (Hr : rtc ProjectWrite q r).
    { unfold r.
      eapply rtc_l; [apply (write_percentages q initial midpoint final Hsum) |].
      destruct (truthy (Project.costing_approvedAmount q)); [| reflexivity].
      destruct (Project.costing_approvedAmount q) as [total|] eqn:Hamount; [| reflexivity].
      apply rtc_once. apply write_amounts. exact Hamount. }
    exists id, q, (Project.preSave r). split; [exact Hfound |].
    split; [| exists r; split; [exact Hr | reflexivity]].
    match goal with |- context [Payment_updateExpected id Stage.initial ?x ?d] =>
      destruct (Payment_updateExpected_step id Stage.initial x d) as (_ & _ & P1 & _);
      destruct (Payment_updateExpected id Stage.initial x d) as [d1 [e1|[]]] eqn:E1 end;
      cbn in P1 |- *; [exact P1 |].
    match goal with |- context [Payment_updateExpected id Stage.midpoint ?x ?d] =>
      destruct (Payment_updateExpected_step id Stage.midpoint x d) as (_ & _ & P2 & _);
      destruct (Payment_updateExpected id Stage.midpoint x d) as [d2 [e2|[]]] eqn:E2 end;
      cbn in P2 |- *; [congruence |].
    match goal with |- context [Payment_updateExpected id Stage.final ?x ?d] =>
      destruct (Payment_updateExpected_step id Stage.final x d) as (_ & _ & P3 & _);
      destruct (Payment_updateExpected id Stage.final x d) as [d3 [e3|[]]] eqn:E3 end;
      cbn in P3 |- *; congruence.
  - left. unfold submitPaymentProof. split_handler; reflexivity.
  - (* verifyPayment *)
    unfold verifyPayment. run_handler.
    destruct (Model_findById (payments db) id) as [payment|]; [| left; reflexivity].
    simpl. destruct (negb _); simpl; [left; reflexivity |].
    destruct (Model_findById (projects db) (Payment.project payment)) as [q|] eqn:Hfound;
      simpl; [| left; reflexivity].
    destruct (bool_decide (Project.status q = expectedStatuses (Payment.stage payment)));
      simpl; [| left; destruct (User_findById _ _); reflexivity].
    right. eexists (Payment.project payment), q, _. split; [exact Hfound |].
    split; [destruct (User_findById _ _); reflexivity |].
    eexists. split; [| reflexivity].
    unfold advanceProject.
    set (e1 := Build_HistoryEntry (stageStatusMap (Payment.stage payment)) userId (now clk)
                 (stageName (Payment.stage payment) +:+ " payment verified")).
    destruct (bool_decide (Payment.stage payment = Stage.initial)).
    + set (v1 := Project.push_history e1 (Project.set_status (h_status e1) q)).
      apply (rtc_l _ _ v1); [exact (write_status q e1) |].
      apply (rtc_l _ _ (Project.set_fabrication_startedAt (now clk) v1));
        [exact (write_started v1 (now clk)) |].
      apply rtc_once.
      exact (write_status (Project.set_fabrication_startedAt (now clk) v1)
               (Build_HistoryEntry ProjectStatus.in_fabrication userId (now clk)
                  "Fabrication started after initial payment")).
    + apply rtc_once. exact (write_status q e1).
  - left. unfold rejectPayment. split_handler; reflexivity.
Qed.

(** Pointwise form of [handle_projects_step]. *)
Lemma handle_project_at (clk : Clock) (userId : ObjectId) (userRole : Role)
    (r : Request) (db : Db) (k : ObjectId) (q' : Project.t) :
  projects (handle clk userId userRole r db).1 !! k = Some q' ->
  exists q, projects db !! k = Some q /\ (q' = q \/ Saved q q').
Proof.
  intros Hk'.
  destruct (handle_projects_step clk userId userRole r db)
    as [Heq | (id & q0 & q1 & Hfound & Heq & Hsaved)]; rewrite Heq in Hk'.
  - exists q'. auto.
  - apply Model_findById_Some in Hfound as [Hid _].
    apply lookup_insert_Some in Hk' as [[<- <-] | [_ Hk']].
    + exists q0. auto.
    + exists q'. auto.
Qed.





Lemma db0_projects (k : ObjectId) (q : Project.t) :
  projects Scenario.db0 !! k = Some q -> q = Scenario.draftProject.
Proof.
  simpl. intros H.
  apply lookup_insert_Some in H as [[_ <-] | [_ H]]; [reflexivity |].
  apply lookup_singleton_Some in H as [_ <-]. reflexivity.
Qed.


Lemma ProjectWrite_CostingsNumbered (q r : Project.t) :
  rtc ProjectWrite q r -> CostingsNumbered q -> CostingsNumbered r.
Proof.
  induction 1 as [q | q r1 r Hw _ IH]; intros Hq; [exact Hq |].
  apply IH. destruct Hq as [Hversions Hcurrent].
  destruct Hw; unfold CostingsNumbered; simpl; try (split; assumption).
  rewrite List.map_app, length_app, Hversions, Hcurrent. simpl.
  rewrite Nat.add_1_r, seq_S, List.map_app. simpl.
  split; [do 2 f_equal; lia | lia].
Qed.

Lemma preSave_CostingsNumbered (r : Project.t) :
  CostingsNumbered r -> CostingsNumbered (Project.preSave r).
Proof.
  unfold CostingsNumbered.
  destruct (preSave_fields r) as (_ & _ & -> & -> & _). auto.
Qed.

Lemma runAll_keeps_projects (calls : list Call) (db : Db) (k : ObjectId) :
  is_Some (projects db !! k) -> is_Some (projects (runAll calls db) !! k).
Proof.
  revert db. induction calls as [| c calls IH]; intros db Hk; simpl; [exact Hk |].
  apply IH.
  destruct (handle_projects_step (call_clock c) (call_userId c) (call_userRole c)
              (call_request c) db)
    as [-> | (id & q0 & q1 & _ & -> & _)]; [exact Hk |].
  destruct (decide (id = k)) as [-> | Hne].
  - rewrite lookup_insert_eq. eexists. reflexivity.
  - rewrite lookup_insert_ne by exact Hne. exact Hk.
Qed.

Lemma runAll_CostingsNumbered (calls : list Call) (db : Db) :
  (forall k q, projects db !! k = Some q -> CostingsNumbered q) ->
  forall k q',
    projects (runAll calls db) !! k = Some q' ->
    CostingsNumbered q'
    /\ (forall latest, last (Project.costing_versions q') = Some latest ->
                       Project.version latest = Project.costing_currentVersion q')
    /\ exists q, projects db !! k = Some q
                 /\ Project.customer q' = Project.customer q
                 /\ (length (Project.costing_versions q)
                     <= length (Project.costing_versions q'))%nat.
Proof.
  revert db. induction calls as [| c calls IH]; intros db Hdb k q' Hk'; simpl in Hk'.
  - pose proof (Hdb k q' Hk') as Hq. split; [exact Hq |]. split.
    + intros latest Hlast. destruct Hq as [Hversions ->].
      destruct (Project.costing_versions q') as [| v vs] using rev_ind; [discriminate |].
      rewrite last_snoc in Hlast. injection Hlast as ->.
      rewrite List.map_app, length_app, Nat.add_1_r, seq_S, List.map_app in Hversions.
      simpl in Hversions. apply app_inj_tail in Hversions as [_ ->].
      rewrite length_app. simpl. lia.
    + exists q'. split_and!; auto.
  - destruct (IH (handle (call_clock c) (call_userId c) (call_userRole c)
                    (call_request c) db).1) with (k := k) (q' := q')
      as (Hq' & Hlast & q1 & Hk1 & Hcustomer & Hlength); [| exact Hk' |].
    + intros k0 q0 Hk0.
      destruct (handle_project_at _ _ _ _ _ k0 q0 Hk0) as (q & Hk & [-> | (r & Hr & ->)]).
      * exact (Hdb k0 q Hk).
      * apply preSave_CostingsNumbered.
        apply (ProjectWrite_CostingsNumbered q r Hr). exact (Hdb k0 q Hk).
    + split; [exact Hq' |]. split; [exact Hlast |].
      destruct (handle_project_at _ _ _ _ _ k q1 Hk1) as (q & Hk & Hstep).
      exists q. split; [exact Hk |].
      destruct Hstep as [-> | (r & Hr & ->)]; [auto |].
      destruct (preSave_fields r) as (Hc & _ & _ & Hv & _).
      rewrite Hc, Hv in *.
      assert (Hkeep : Project.customer r = Project.customer q
                      /\ (length (Project.costing_versions q)
                          <= length (Project.costing_versions r))%nat).
      { clear -Hr. induction Hr as [q | q r1 r Hw _ IH]; [auto |].
        destruct IH as [IHc IHl].
        destruct Hw; simpl in *; try rewrite length_app in *; simpl in *;
          split; try congruence; try lia. }
      destruct Hkeep as [Hc' Hl']. split; [congruence | lia].
Qed.

(** X25: the costing versions of every project stay numbered under any
    sequence of requests to [handle]: 1, 2, ...  in the order of their
    upload, without a gap or a repetition, with [costing.currentVersion]
    the number of the latest one; so the costing an approval reads is
    always the one uploaded last.  None of these requests adds a
    project, removes one, gives one to another customer or takes a
    costing version away: the projects stored after the requests were
    stored before, for the same customer and with no more costing
    versions, and every project stored before is stored after. *)
Lemma costings_stay_numbered (calls : list Call) (db : Db) :
  (forall k q, projects db !! k = Some q -> CostingsNumbered q) ->
  (forall k q',
     projects (runAll calls db) !! k = Some q' ->
     CostingsNumbered q'
     /\ (forall latest, last (Project.costing_versions q') = Some latest ->
                        Project.version latest = Project.costing_currentVersion q')
     /\ exists q, projects db !! k = Some q
                  /\ Project.customer q' = Project.customer q
                  /\ (length (Project.costing_versions q)
                      <= length (Project.costing_versions q'))%nat)
  /\ (forall k q,
        projects db !! k = Some q -> is_Some (projects (runAll calls db) !! k)).
Proof.
  intros Hdb. split.
  - exact (runAll_CostingsNumbered calls db Hdb).
  - intros k q Hk. apply runAll_keeps_projects. eexists. exact Hk.
Qed.

Lemma costings_stay_numbered_witness :
  (exists q,
     projects (runAll Cases.approvalCalls Scenario.db0) !! Scenario.projectId = Some q
     /\ CostingsNumbered q
     /\ Project.costing_currentVersion q = 1)
  /\ is_Some (projects (runAll Cases.approvalCalls Scenario.db0)
                !! Scenario.secondProjectId).
Proof.
  assert (Hdb0 : forall k q, projects Scenario.db0 !! k = Some q -> CostingsNumbered q).
  { intros k q Hq. apply db0_projects in Hq as ->. split; reflexivity. }
  destruct (costings_stay_numbered Cases.approvalCalls Scenario.db0 Hdb0)
    as [Hafter Hkept].
  split.
  - eexists. split; [vm_compute; reflexivity |].
    edestruct (Hafter Scenario.projectId) as [Hnumbered _].
    + vm_compute. reflexivity.
    + split; [exact Hnumbered | reflexivity].
  - apply (Hkept Scenario.secondProjectId Scenario.draftProject). reflexivity.
Defined.
